(** * Global Renewable Energy Dashboard: loader and derived views

    A shallow embedding of the two dashboard scripts of the repository,
    [app.py] and [.ipynb_checkpoints/app.py].  Both scripts load one CSV
    file into a pandas data frame, clean it, and derive a fixed set of
    filtered and aggregated views from it for a selected year and country.

    Modelling conventions.
    - A cell of a data frame is a [value]: the missing marker [NaN], a
      string, a finite number or a signed infinity.  Finite numbers are
      rationals: every finite binary64 value is a rational and the order
      on them is the order of the rationals.  Rounding of sums and of
      decimal literals to binary64 is outside the model, as is the
      finite range of 64-bit integers.
    - A row is a finite map from column labels to cells; a frame is its
      list of column labels together with its rows in index order.
    - pandas, Streamlit and Plotly calls are embedded by what they return
      or raise; what is drawn is recorded as a list of page elements. *)

From Stdlib Require Import ZArith QArith Qround String Ascii List Lia Lqa
  OrderedTypeEx.
From stdpp Require Import base option list gmap strings sorting pretty.

Set Default Proof Using "Type".

(** ** Cells *)

Inductive value : Type :=
  | NaN
  | Str (s : string)
  | Num (q : Q)
  | Inf (negative : bool).

Definition Int (z : Z) : value := Num (inject_Z z).

Definition isna (v : value) : bool :=
  match v with NaN => true | _ => false end.

Definition notna (v : value) : bool := negb (isna v).

(** ** Reading numbers out of text: [pd.to_numeric]

    The numeric grammar covered is: optional surrounding blanks, an
    optional sign, then either decimal digits with an optional fraction
    and an optional decimal exponent, or one of the words inf, infinity
    and nan in any letter case. *)

Definition is_digit (c : ascii) : bool :=
  (48 <=? nat_of_ascii c)%nat && (nat_of_ascii c <=? 57)%nat.

Definition digit_val (c : ascii) : Z := Z.of_nat (nat_of_ascii c - 48).

Definition is_blank (c : ascii) : bool :=
  (nat_of_ascii c =? 32)%nat ||
  ((9 <=? nat_of_ascii c)%nat && (nat_of_ascii c <=? 13)%nat).

Definition to_lower (c : ascii) : ascii :=
  let n := nat_of_ascii c in
  if ((65 <=? n) && (n <=? 90))%nat then ascii_of_nat (n + 32) else c.

Fixpoint lstrip (s : list ascii) : list ascii :=
  match s with
  | c :: r => if is_blank c then lstrip r else s
  | [] => []
  end.

Definition strip (s : list ascii) : list ascii :=
  rev (lstrip (rev (lstrip s))).

Fixpoint read_digits (s : list ascii) (acc : Z) (n : nat)
  : Z * nat * list ascii :=
  match s with
  | c :: r =>
      if is_digit c then read_digits r (10 * acc + digit_val c)%Z (S n)
      else (acc, n, s)
  | [] => (acc, n, [])
  end.

Definition read_sign (s : list ascii) : bool * list ascii :=
  match s with
  | c :: r =>
      if Ascii.eqb c "-" then (true, r)
      else if Ascii.eqb c "+" then (false, r)
      else (false, s)
  | [] => (false, [])
  end.

Definition read_exponent (s : list ascii) : option Z :=
  match s with
  | [] => Some 0%Z
  | c :: r =>
      if Ascii.eqb (to_lower c) "e" then
        let (neg, r1) := read_sign r in
        match read_digits r1 0 0 with
        | (e, S _, []) => Some (if neg then (- e)%Z else e)
        | _ => None
        end
      else None
  end.

(** [scale m e] is [m * 10 ^ e]. *)
Definition scale (m e : Z) : Q :=
  if (0 <=? e)%Z then inject_Z (m * 10 ^ e)
  else (m # Z.to_pos (10 ^ (- e))).

Definition read_decimal (s : list ascii) : option Q :=
  let '(ip, ni, r1) := read_digits s 0 0 in
  let '(m, nf, r2) :=
    match r1 with
    | c :: r => if Ascii.eqb c "." then read_digits r ip 0 else (ip, 0%nat, r1)
    | [] => (ip, 0%nat, r1)
    end in
  if (ni + nf =? 0)%nat then None
  else match read_exponent r2 with
       | Some e => Some (scale m (e - Z.of_nat nf))
       | None => None
       end.

Definition parse_number (s : string) : option value :=
  let (neg, r) := read_sign (strip (list_ascii_of_string s)) in
  let w := string_of_list_ascii (map to_lower r) in
  if String.eqb w "inf" || String.eqb w "infinity" then Some (Inf neg)
  else if String.eqb w "nan" then Some NaN
  else match read_decimal r with
       | Some q => Some (Num (if neg then Qopp q else q))
       | None => None
       end.

(** [pd.to_numeric(..., errors='coerce')] on one cell.  Text that
    spells a decimal reads as that decimal: the rounding to binary64 is
    left out, and with it what pandas makes of text beyond the binary64
    range, which reads there as an infinity when it is too large and as
    zero when it is too small, and the sign of a zero. *)
Definition to_numeric (v : value) : value :=
  match v with
  | Str s => default NaN (parse_number s)
  | _ => v
  end.

(** A cell is unparseable as a number when the coercion leaves no number. *)
Definition unparseable (v : value) : bool := isna (to_numeric v).

(** [.fillna(x)] on one cell. *)
Definition fillna (x : value) (v : value) : value :=
  if isna v then x else v.

(** The strings [pd.read_csv] reads as missing, and the cell it delivers
    for a field of a column that is not numeric throughout. *)
Definition na_values : list string :=
  [""; "#N/A"; "#N/A N/A"; "#NA"; "-1.#IND"; "-1.#QNAN"; "-NaN"; "-nan";
   "1.#IND"; "1.#QNAN"; "<NA>"; "N/A"; "NA"; "NULL"; "NaN"; "None"; "n/a";
   "nan"; "null"].

Definition csv_cell (field : string) : value :=
  if bool_decide (field ∈ na_values) then NaN else Str field.

(** ** Data frames *)

Record DataFrame : Type := mkDataFrame {
  columns : list string;
  rows : list (gmap string value)
}.

(** The cell of a row under a label; a row that lacks the label holds
    the missing marker there. *)
Definition cell (r : gmap string value) (c : string) : value :=
  default NaN (r !! c).

(** [df[c]]: the column as a list, in index order. *)
Definition column (c : string) (df : DataFrame) : list value :=
  (λ r, cell r c) <$> rows df.

(** [df[c] = vs]: overwrite or append a column. *)
Definition assign (c : string) (vs : list value) (df : DataFrame) : DataFrame :=
  {| columns := if bool_decide (c ∈ columns df) then columns df
                else columns df ++ [c];
     rows := zip_with (λ r v, <[c := v]> r) (rows df) vs |}.

(** [df.drop(columns=cs, errors='ignore')]. *)
Definition drop_columns (cs : list string) (df : DataFrame) : DataFrame :=
  {| columns := filter (λ c, c ∉ cs) (columns df);
     rows := (λ r, foldr delete r cs) <$> rows df |}.

(** [df[mask]] for a mask computed row by row. *)
Definition select (p : gmap string value → bool) (df : DataFrame) : DataFrame :=
  {| columns := columns df; rows := List.filter p (rows df) |}.

Definition empty (df : DataFrame) : bool :=
  match rows df with [] => true | _ => false end.

(** ** Exceptions and results *)

Inductive exn : Type :=
  | StopException
  | FileNotFoundError
  | KeyError (labels : list string)
  | IntCastingNaNError
  | ValueError (msg : string)
  | OtherError (msg : string).

(** [StopException] derives from [BaseException], the others from
    [Exception]: an [except Exception] clause lets the former through. *)
Definition is_Exception (e : exn) : bool :=
  match e with StopException => false | _ => true end.

Fixpoint join (sep : string) (l : list string) : string :=
  match l with
  | [] => EmptyString
  | [s] => s
  | s :: r => (s ++ sep ++ join sep r)%string
  end.

Definition repr_str (s : string) : string := ("'" ++ s ++ "'")%string.

(** [str(e)], as interpolated into the loader's message.  The text of
    [IntCastingNaNError] is the one of pandas 2; it differs between
    versions of pandas. *)
Definition exn_str (e : exn) : string :=
  match e with
  | StopException => EmptyString
  | FileNotFoundError =>
      "[Errno 2] No such file or directory: 'final_renewables_dataset.csv'"
  | KeyError labels => ("[" ++ join ", " (repr_str <$> labels) ++ "]")%string
  | IntCastingNaNError =>
      "Cannot convert non-finite values (NA or inf) to integer"
  | ValueError msg => msg
  | OtherError msg => msg
  end.

Inductive result (A : Type) : Type :=
  | Ok (a : A)
  | Raise (e : exn).
Arguments Ok {A} a.
Arguments Raise {A} e.

#[global] Instance result_ret : MRet result := λ A a, Ok a.
#[global] Instance result_bind : MBind result := λ A B f m,
  match m with Ok a => f a | Raise e => Raise e end.

Fixpoint mapM_result {A B} (f : A → result B) (l : list A) : result (list B) :=
  match l with
  | [] => Ok []
  | x :: r => y ← f x; ys ← mapM_result f r; Ok (y :: ys)
  end.

(** [df.dropna(subset=cs)]: a label of [cs] that is no column raises
    [KeyError] with the labels not found. *)
Definition dropna (cs : list string) (df : DataFrame) : result DataFrame :=
  match filter (λ c, c ∉ columns df) cs with
  | [] => Ok (select (λ r, forallb (λ c, notna (cell r c)) cs) df)
  | missing => Raise (KeyError missing)
  end.

(** [.astype(int)] on one cell of a float column: truncation toward
    zero, refused for non-finite values.  The integer is not confined to
    64 bits: a value beyond that range, which the cast of pandas does
    not keep, is kept here. *)
Definition astype_int (v : value) : result value :=
  match v with
  | Num q => Ok (Int (Z.quot (Qnum q) (Z.pos (Qden q))))
  | NaN | Inf _ => Raise IntCastingNaNError
  | Str s =>
      Raise (ValueError ("invalid literal for int() with base 10: "
                           ++ repr_str s))
  end.

(** ** The page *)

Inductive figure : Type :=
  | Pie (data : DataFrame)
  | Donut (labels : list string) (values : list value)
  | Choropleth (data : DataFrame)
  | Area (data : DataFrame)
  | Traces (data : list (string * list value * list value))
  | Line (data : DataFrame)
  | Bar (data : DataFrame) (category_order : option (list value))
  | Scatter (data : DataFrame).

Inductive element : Type :=
  | StError (msg : string)
  | StWarning (msg : string)
  | StInfo (msg : string)
  | StMetric (label : string) (shown : string)
  | StChart (fig : figure).

(** A script step writes elements to the page and returns or raises. *)
Definition M (A : Type) : Type := (list element * result A)%type.

#[global] Instance M_ret : MRet M := λ A a, ([], Ok a).
#[global] Instance M_bind : MBind M := λ A B f m,
  match m with
  | (out, Ok a) => let (out', r) := f a in (out ++ out', r)
  | (out, Raise e) => (out, Raise e)
  end.

Definition lift {A} (r : result A) : M A := ([], r).
Definition write (e : element) : M unit := ([e], Ok tt).
Definition st_error (msg : string) : M unit := write (StError msg).
Definition st_warning (msg : string) : M unit := write (StWarning msg).
Definition st_info (msg : string) : M unit := write (StInfo msg).
Definition st_stop {A} : M A := ([], Raise StopException).

(** [try: body except ...: handler]: [handler e] is [None] when no
    clause matches [e], which then propagates. *)
Definition try_except {A} (body : M A) (handler : exn → option (M A)) : M A :=
  match body with
  | (out, Raise e) =>
      match handler e with
      | Some h => let (out', r) := h in (out ++ out', r)
      | None => (out, Raise e)
      end
  | done => done
  end.

(** ** The loader: [load_data] *)

(** What [pd.read_csv("final_renewables_dataset.csv")] meets: no file,
    a file it cannot read (with the text of the exception), or a file it
    reads into a frame. *)
Inductive csv_file : Type :=
  | Absent
  | Unreadable (msg : string)
  | Contents (df : DataFrame).

Definition read_csv (file : csv_file) : result DataFrame :=
  match file with
  | Absent => Raise FileNotFoundError
  | Unreadable msg => Raise (OtherError msg)
  | Contents df => Ok df
  end.

Definition numeric_cols : list string :=
  ["Solar_GW"; "Wind_GW"; "Hydro_GW"; "Total_GW";
   "Population"; "GDP_per_Capita"; "Capacity_per_Capita_kW"].

Fixpoint coerce_columns (cols : list string) (df : DataFrame) : M DataFrame :=
  match cols with
  | [] => mret df
  | col :: rest =>
      df ← (if bool_decide (col ∈ columns df)
            then mret (assign col (to_numeric <$> column col df) df)
            else st_warning ("Column '" ++ col ++
                   "' not found in the dataset. Some plots may not work as expected.");;
                 mret df);
      coerce_columns rest df
  end.

(** The body of the [try] statement. *)
Definition load_data_try (file : csv_file) : M DataFrame :=
  df ← lift (read_csv file);
  df ← (if bool_decide ("Year" ∈ columns df)
        then ys ← lift (mapM_result astype_int
                          (fillna (Int 0) <$> (to_numeric <$> column "Year" df)));
             mret (assign "Year" ys df)
        else st_error "Column 'Year' not found in the dataset. Please check your CSV.";;
             st_stop);
  df ← coerce_columns numeric_cols df;
  let df := drop_columns ["Country Name_x"; "Country Name_y"; "Country"] df in
  df ← lift (dropna ["Entity"; "Code"; "Year"] df);
  mret df.

Definition load_data_except (e : exn) : option (M DataFrame) :=
  match e with
  | FileNotFoundError =>
      Some (st_error "Error: 'final_renewables_dataset.csv' not found. Please ensure it's in the same directory as app.py.";;
            st_stop)
  | e =>
      if is_Exception e
      then Some (st_error ("Error loading or processing data: " ++ exn_str e ++
                   ". Please check your CSV file's format and column names.");;
                 st_stop)
      else None
  end.

Definition load_data (file : csv_file) : M DataFrame :=
  try_except (load_data_try file) load_data_except.

(** ** Comparisons on cells *)

(** [series == z] and [series == s], cell by cell: a cell of another
    kind compares unequal. *)
Definition eq_num (v : value) (z : Z) : bool :=
  match v with Num q => Qeq_bool q (inject_Z z) | _ => false end.

Definition eq_str (v : value) (s : string) : bool :=
  match v with Str t => String.eqb t s | _ => false end.

(** [series > 0] on a numeric column: false on the missing marker.
    Numeric columns of a loaded frame hold no strings. *)
Definition gt0 (v : value) : bool :=
  match v with
  | Num q => negb (Qle_bool q 0)
  | Inf negative => negb negative
  | NaN | Str _ => false
  end.

(** The order used by [sort_values] and [nlargest]: by value in the
    chosen direction, with the missing marker last in both directions
    ([na_position='last']). *)
Definition class (ascending : bool) (v : value) : Z :=
  let up (k : Z) : Z := if ascending then k else (3 - k)%Z in
  match v with
  | Inf true => up 0%Z
  | Num _ => up 1%Z
  | Inf false => up 2%Z
  | Str _ => up 3%Z
  | NaN => 4%Z
  end.

Definition compare_value (ascending : bool) (a b : value) : comparison :=
  match a, b with
  | Num p, Num q => if ascending then Qcompare p q else Qcompare q p
  | Str s, Str t => if ascending then String.compare s t else String.compare t s
  | _, _ => Z.compare (class ascending a) (class ascending b)
  end.

Definition value_eqb (a b : value) : bool :=
  match compare_value true a b with Eq => true | _ => false end.

(** [series.isin(vs)]. *)
Definition isin (vs : list value) (v : value) : bool :=
  existsb (value_eqb v) vs.

(** ** Sorting and selection *)

(** Stable insertion: [x] goes before the first element that does not
    have to come strictly before it. *)
Fixpoint insert_sorted {A} (cmp : A → A → comparison) (x : A) (l : list A)
  : list A :=
  match l with
  | [] => [x]
  | y :: r =>
      match cmp y x with
      | Lt => y :: insert_sorted cmp x r
      | _ => x :: y :: r
      end
  end.

Definition stable_sort {A} (cmp : A → A → comparison) (l : list A) : list A :=
  foldr (insert_sorted cmp) [] l.

(** A column that has to exist: [KeyError] otherwise. *)
Definition require (cs : list string) (df : DataFrame) : result unit :=
  match filter (λ c, c ∉ columns df) cs with
  | [] => Ok tt
  | c :: _ => Raise (KeyError [c])
  end.

(** [df[mask]] where the mask reads the columns [cs], in that order. *)
Definition where_ (cs : list string) (p : gmap string value → bool)
    (df : DataFrame) : result DataFrame :=
  require cs df;; Ok (select p df).

(** [df.sort_values(by)], ascending or descending.  Rows of equal key
    stay in index order here, as under the stable kinds; the default
    kind of pandas leaves their order open. *)
Definition sort_values (by_ : string) (ascending : bool) (df : DataFrame)
  : result DataFrame :=
  require [by_] df;;
  Ok {| columns := columns df;
        rows := stable_sort (λ r1 r2, compare_value ascending
                                        (cell r1 by_) (cell r2 by_))
                            (rows df) |}.

(** [df.nlargest(n, col)] with the default [keep='first']: the first
    [n] rows in descending order of [col], the earlier row first among
    rows of equal value.  This is the result of pandas for a frame of
    more than [n] rows; a frame of at most [n] rows is sorted there by
    [sort_values], all rows kept, and the order of rows of equal value
    is open as it is there. *)
Definition nlargest (n : nat) (col : string) (df : DataFrame)
  : result DataFrame :=
  sorted ← sort_values col false df;
  Ok {| columns := columns sorted; rows := take n (rows sorted) |}.

(** ** Sums and grouping *)

(** Addition of binary64 values, rounding apart. *)
Definition vadd (a b : value) : value :=
  match a, b with
  | Num p, Num q => Num (p + q)
  | Inf s, Inf t => if Bool.eqb s t then Inf s else NaN
  | Inf s, Num _ | Num _, Inf s => Inf s
  | _, _ => NaN
  end.

(** [series.sum()]: missing cells are skipped; the empty sum is 0. *)
Definition vsum (vs : list value) : value :=
  foldl vadd (Int 0) (List.filter notna vs).

(** Python's [sum(values)]: nothing is skipped. *)
Definition py_sum (vs : list value) : value := foldl vadd (Int 0) vs.

Fixpoint compare_keys (a b : list value) : comparison :=
  match a, b with
  | [], [] => Eq
  | [], _ :: _ => Lt
  | _ :: _, [] => Gt
  | x :: a', y :: b' =>
      match compare_value true x y with
      | Eq => compare_keys a' b'
      | c => c
      end
  end.

Definition same_key (a b : list value) : bool :=
  match compare_keys a b with Eq => true | _ => false end.

(** The distinct keys, each at its first occurrence. *)
Fixpoint distinct (l : list (list value)) : list (list value) :=
  match l with
  | [] => []
  | k :: r => k :: List.filter (λ k', negb (same_key k k')) (distinct r)
  end.

Definition key_of (keys : list string) (r : gmap string value) : list value :=
  cell r <$> keys.

(** [df.groupby(keys)[cols].sum().reset_index()]: one row per distinct
    key, keys in ascending order, rows with a missing key left out. *)
Definition groupby_sum (keys cols : list string) (df : DataFrame)
  : result DataFrame :=
  require (keys ++ cols) df;;
  let rs := List.filter (λ r, forallb notna (key_of keys r)) (rows df) in
  let ks := stable_sort compare_keys (distinct (key_of keys <$> rs)) in
  Ok {| columns := keys ++ cols;
        rows := (λ k,
                   let group := List.filter (λ r, same_key k (key_of keys r)) rs in
                   list_to_map (zip keys k ++
                                ((λ c, (c, vsum ((λ r, cell r c) <$> group))) <$> cols)))
                <$> ks |}.

(** [df.rename(columns=m)]. *)
Definition rename_label (m : list (string * string)) (c : string) : string :=
  default c (snd <$> List.find (λ p, String.eqb (fst p) c) m).

Definition rename (m : list (string * string)) (df : DataFrame) : DataFrame :=
  {| columns := rename_label m <$> columns df;
     rows := (λ r, list_to_map ((λ c, (rename_label m c, cell r c)) <$> columns df))
             <$> rows df |}.

(** [df.melt(id_vars=ids, value_vars=vars, var_name=..., value_name=...)]. *)
Definition melt (ids vars : list string) (var_name value_name : string)
    (df : DataFrame) : result DataFrame :=
  require (ids ++ vars) df;;
  Ok {| columns := ids ++ [var_name; value_name];
        rows := flat_map (λ c,
                  (λ r, list_to_map (((λ i, (i, cell r i)) <$> ids) ++
                                     [(var_name, Str c); (value_name, cell r c)]))
                  <$> rows df) vars |}.

(** [pd.DataFrame([d])] for a dictionary [d], as an association list. *)
Definition frame_of_dict (d : list (string * value)) : DataFrame :=
  {| columns := fst <$> d; rows := [list_to_map d] |}.

(** [df.iloc[0]] as a series indexed by the column labels, and
    [series.get(label, default)]. *)
Definition series_of (df : DataFrame) (r : gmap string value)
  : gmap string value :=
  list_to_map ((λ c, (c, cell r c)) <$> columns df).

Definition get (s : gmap string value) (label : string) (dflt : value) : value :=
  default dflt (s !! label).

(** ** Fixed-point formatting: the format specification [,.df] *)

Fixpoint commas_rev (s : list ascii) (k : nat) : list ascii :=
  match s with
  | [] => []
  | c :: r =>
      match k, r with
      | 2%nat, _ :: _ => c :: ","%char :: commas_rev r 0
      | _, _ => c :: commas_rev r (S k)
      end
  end.

Definition with_commas (digits : string) : string :=
  string_of_list_ascii (rev (commas_rev (rev (list_ascii_of_string digits)) 0)).

Fixpoint pad_zeros (width : nat) (s : string) : string :=
  match width with
  | O => s
  | S w => if (String.length s <=? w)%nat then pad_zeros w ("0" ++ s)%string else s
  end.

(** Rounding of a non-negative rational to the nearest integer, ties to
    even. *)
Definition round_half_even (n : Z) (d : positive) : Z :=
  let fl := (n / Z.pos d)%Z in
  let rem := (n mod Z.pos d)%Z in
  match (2 * rem ?= Z.pos d)%Z with
  | Lt => fl
  | Gt => (fl + 1)%Z
  | Eq => if Z.even fl then fl else (fl + 1)%Z
  end.

Definition fixed (decimals : nat) (q : Q) : string :=
  let unit := (10 ^ Z.of_nat decimals)%Z in
  let scaled := round_half_even (Z.abs (Qnum q) * unit) (Qden q) in
  let whole := with_commas (pretty (Z.to_N (scaled / unit))) in
  let frac := pad_zeros decimals (pretty (Z.to_N (scaled mod unit))) in
  ((if (Qnum q <? 0)%Z then "-" else "") ++ whole ++
   (if (decimals =? 0)%nat then "" else "." ++ frac))%string.

(** [f"{v:,.df}"].  A number that lies halfway between two texts is
    rounded to the even one, as the rational it is; its binary64
    neighbour may fall on either side. *)
Definition format_fixed (decimals : nat) (v : value) : result string :=
  match v with
  | Num q => Ok (fixed decimals q)
  | NaN => Ok "nan"
  | Inf negative => Ok (if negative then "-inf" else "inf")
  | Str _ => Raise (ValueError "Unknown format code 'f' for object of type 'str'")
  end.

(** ** Widgets shared by both scripts *)

Definition st_metric (label : string) (shown : string) : M unit :=
  write (StMetric label shown).
Definition st_plotly_chart (fig : figure) : M unit := write (StChart fig).

Fixpoint unique (l : list value) : list value :=
  match l with
  | [] => []
  | v :: r => v :: List.filter (λ w, negb (value_eqb v w)) (unique r)
  end.

(** [sorted(df[c].dropna().unique())]. *)
Definition sorted_unique (c : string) (df : DataFrame) : result (list value) :=
  require [c] df;;
  Ok (stable_sort (compare_value true) (unique (List.filter notna (column c df)))).

(** Python's [min] and [max] of a list: the first least (greatest)
    element; [ValueError] on the empty list. *)
Definition py_min (l : list value) : result value :=
  match l with
  | [] => Raise (ValueError "min() arg is an empty sequence")
  | v :: r =>
      Ok (foldl (λ m x, match compare_value true x m with Lt => x | _ => m end) v r)
  end.

Definition py_max (l : list value) : result value :=
  match l with
  | [] => Raise (ValueError "max() arg is an empty sequence")
  | v :: r =>
      Ok (foldl (λ m x, match compare_value true x m with Gt => x | _ => m end) v r)
  end.

(** [int(v)]. *)
Definition py_int (v : value) : result Z :=
  match v with
  | Num q => Ok (Z.quot (Qnum q) (Z.pos (Qden q)))
  | NaN => Raise (ValueError "cannot convert float NaN to integer")
  | Inf _ => Raise (OtherError "cannot convert float infinity to integer")
  | Str s =>
      Raise (ValueError ("invalid literal for int() with base 10: " ++ repr_str s))
  end.

(** The bounds handed to the year slider: [int(min(years))] and
    [int(max(years))]. *)
Definition year_bounds (df : DataFrame) : result (Z * Z) :=
  years ← sorted_unique "Year" df;
  lo ← py_min years; lo ← py_int lo;
  hi ← py_max years; hi ← py_int hi;
  Ok (lo, hi).

Definition countries (df : DataFrame) : result (list value) :=
  sorted_unique "Entity" df.

(** [x in l] and [l.index(s)] for a list of cells. *)
Definition py_in (x : value) (l : list value) : bool :=
  existsb (λ v, value_eqb v x) l.

Fixpoint py_index (s : string) (l : list value) : result nat :=
  match l with
  | [] => Raise (ValueError (repr_str s ++ " is not in list"))
  | v :: r => if value_eqb v (Str s) then Ok 0%nat
              else i ← py_index s r; Ok (S i)
  end.

(** [countries.index("World") if "World" in countries else 0], and the
    option the country selector shows first: the one at that index. *)
Definition default_index (countries : list value) : result nat :=
  if py_in (Str "World") countries then py_index "World" countries else Ok 0%nat.

Definition default_country (df : DataFrame) : result (option value) :=
  cs ← countries df;
  index ← default_index cs;
  Ok (cs !! index).

Definition year_is (y : Z) (r : gmap string value) : bool :=
  eq_num (cell r "Year") y.
Definition entity_is (c : string) (r : gmap string value) : bool :=
  eq_str (cell r "Entity") c.
Definition not_world (r : gmap string value) : bool :=
  negb (eq_str (cell r "Entity") "World").

(** ** The data behind the views

    What a script hands to its cards and charts for one selection, apart
    from labels, titles and colours: the text of the five metric cards,
    the values of the slices of the energy mix, and the frames behind the
    map, the trend chart, the ranking chart, the scatter plot and the
    comparison chart.  A card or slice list is empty, and a frame is
    [None], when the script does not get to compute it. *)

Record views : Type := mkViews {
  metric_values : result (list string);
  mix_slices : result (list value);
  map_rows : result DataFrame;
  trend : result DataFrame;
  ranking : result (option DataFrame);
  scatter_rows : result DataFrame;
  comparison_rows : result (option DataFrame)
}.

Definition metric_columns : list string :=
  ["Solar_GW"; "Wind_GW"; "Hydro_GW"; "Total_GW"; "Capacity_per_Capita_kW"].

(** ** The script [app.py] *)

Module App.
Section Render.
Variable df : DataFrame.
Variable selected_year : Z.
Variable selected_country : string.

(** *** Row 1: key metrics and energy mix of the selected country *)

Definition filtered_country_data : result DataFrame :=
  where_ ["Year"; "Entity"]
    (λ r, year_is selected_year r && entity_is selected_country r) df.

Definition metric_value (country_row : gmap string value) (col : string)
  : result string :=
  format_fixed 2 (get country_row col (Int 0)).

Definition metrics (country_row : gmap string value) : M unit :=
  v ← lift (metric_value country_row "Solar_GW");
  st_metric "Total Solar (GW)" v;;
  v ← lift (metric_value country_row "Wind_GW");
  st_metric "Total Wind (GW)" v;;
  v ← lift (metric_value country_row "Hydro_GW");
  st_metric "Total Hydro (GW)" v;;
  v ← lift (metric_value country_row "Total_GW");
  st_metric "Total Renewable (GW)" v;;
  v ← lift (metric_value country_row "Capacity_per_Capita_kW");
  st_metric "Per Capita Capacity (kW)" v.

Definition mix_data (country_row : gmap string value) : list (string * value) :=
  [("Solar (GW)", get country_row "Solar_GW" (Int 0));
   ("Wind (GW)", get country_row "Wind_GW" (Int 0));
   ("Hydro (GW)", get country_row "Hydro_GW" (Int 0))].

Definition mix_df (country_row : gmap string value) : result DataFrame :=
  let d := frame_of_dict (mix_data country_row) in
  long ← melt [] (columns d) "Source" "Capacity_GW" d;
  where_ ["Capacity_GW"] (λ r, gt0 (cell r "Capacity_GW")) long.

Definition energy_mix (country_row : gmap string value) : M unit :=
  mix ← lift (mix_df country_row);
  if negb (empty mix) && gt0 (vsum (column "Capacity_GW" mix))
  then st_plotly_chart (Pie mix)
  else st_info "No renewable energy mix data available for the selected country and year.".

Definition row1 : M unit :=
  filtered ← lift filtered_country_data;
  match rows filtered with
  | r :: _ =>
      let country_row := series_of filtered r in
      metrics country_row;;
      energy_mix country_row
  | [] =>
      st_info ("No detailed data available for " ++ selected_country ++ " in "
               ++ pretty selected_year
               ++ ". Please select a different country or year.")
  end.

(** *** Row 2: world map and global mix over time *)

Definition map_data : result DataFrame :=
  d ← where_ ["Year"; "Entity"] (λ r, year_is selected_year r && not_world r) df;
  dropna ["Total_GW"; "Code"] d.

Definition map_view : M unit :=
  data ← lift map_data;
  if negb (empty data) then st_plotly_chart (Choropleth data)
  else st_info ("No global renewable capacity data for map in "
                ++ pretty selected_year ++ ".").

Definition global_trend_sums : result DataFrame :=
  d ← where_ ["Entity"] not_world df;
  groupby_sum ["Year"] ["Solar_GW"; "Wind_GW"; "Hydro_GW"] d.

Definition stacked_cols : list string :=
  ["Solar (GW)"; "Wind (GW)"; "Hydro (GW)"].

Definition global_trend_data : result DataFrame :=
  sums ← global_trend_sums;
  Ok (rename [("Solar_GW", "Solar (GW)"); ("Wind_GW", "Wind (GW)");
              ("Hydro_GW", "Hydro (GW)")] sums).

Definition global_mix_long : result DataFrame :=
  trend ← global_trend_data;
  long ← melt ["Year"] stacked_cols "Source" "Capacity_GW" trend;
  dropna ["Capacity_GW"] long.

Definition trend_view : M unit :=
  long ← lift global_mix_long;
  if negb (empty long) then st_plotly_chart (Area long)
  else st_info "No global renewable mix data available for charting.".

(** *** Row 3: growth of the top five countries, and the scatter plot *)

Definition country_total_renewable : result DataFrame :=
  totals ← groupby_sum ["Entity"; "Year"] ["Total_GW"] df;
  where_ ["Entity"] not_world totals.

Definition latest_year_data : result DataFrame :=
  totals ← country_total_renewable;
  where_ ["Year"] (year_is selected_year) totals.

Definition top_5_entities (latest : DataFrame) : result (list value) :=
  require ["Total_GW"] latest;;
  let latest :=
    assign "Total_GW"
      (fillna (Int 0) <$> (to_numeric <$> column "Total_GW" latest)) latest in
  top ← nlargest 5 "Total_GW" latest;
  require ["Entity"] top;;
  Ok (column "Entity" top).

Definition top5_time_series (top5 : list value) : result DataFrame :=
  d ← where_ ["Entity"] (λ r, isin top5 (cell r "Entity")) df;
  d ← sort_values "Year" true d;
  dropna ["Total_GW"] d.

Definition top5_view : M unit :=
  latest ← lift latest_year_data;
  if negb (empty latest) then
    top5 ← lift (top_5_entities latest);
    match top5 with
    | _ :: _ =>
        series ← lift (top5_time_series top5);
        if negb (empty series) then st_plotly_chart (Line series)
        else st_info "Insufficient data for selected top 5 countries time series."
    | [] =>
        st_info ("Could not determine top 5 countries for "
                 ++ pretty selected_year ++ ". Data might be insufficient.")
    end
  else st_info ("No data available for top 5 country growth in "
                ++ pretty selected_year ++ ".").

Definition scatter_data : result DataFrame :=
  d ← where_ ["Year"; "Entity"] (λ r, year_is selected_year r && not_world r) df;
  dropna ["GDP_per_Capita"; "Capacity_per_Capita_kW"; "Population"] d.

Definition scatter_view : M unit :=
  data ← lift scatter_data;
  if negb (empty data) then st_plotly_chart (Scatter data)
  else st_info ("No scatter plot data for GDP vs. Per-Capita Renewable Capacity in "
                ++ pretty selected_year ++ ".").

(** *** Row 4: per-capita leaders, 2010 against 2023 *)

Definition year_2010 : Z := 2010.
Definition year_2023 : Z := 2023.

Definition df_comp (year : Z) : result DataFrame :=
  d ← where_ ["Year"; "Entity"] (λ r, year_is year r && not_world r) df;
  dropna ["Capacity_per_Capita_kW"] d.

Definition top10_2023_entities (df_comp_2023 : DataFrame) : result (list value) :=
  top ← nlargest 10 "Capacity_per_Capita_kW" df_comp_2023;
  require ["Entity"] top;;
  Ok (column "Entity" top).

Definition comparison_data (top10 : list value) : result DataFrame :=
  d ← where_ ["Entity"; "Year"]
        (λ r, isin top10 (cell r "Entity")
              && isin [Int year_2010; Int year_2023] (cell r "Year")) df;
  require ["Capacity_per_Capita_kW"] d;;
  let d := assign "Capacity_per_Capita_kW"
             (to_numeric <$> column "Capacity_per_Capita_kW" d) d in
  dropna ["Capacity_per_Capita_kW"] d.

(** [df_comp_2023.set_index('Entity').loc[top10]
      .sort_values(by='Capacity_per_Capita_kW', ascending=True).index.tolist()] *)
Definition category_order (df_comp_2023 : DataFrame) (top10 : list value)
  : result (list value) :=
  let located :=
    {| columns := columns df_comp_2023;
       rows := flat_map (λ e, List.filter (λ r, value_eqb (cell r "Entity") e)
                                (rows df_comp_2023)) top10 |} in
  sorted ← sort_values "Capacity_per_Capita_kW" true located;
  Ok (column "Entity" sorted).

Definition comparison_view : M unit :=
  df_comp_2010 ← lift (df_comp year_2010);
  df_comp_2023 ← lift (df_comp year_2023);
  if negb (empty df_comp_2010) && negb (empty df_comp_2023) then
    top10 ← lift (top10_2023_entities df_comp_2023);
    match top10 with
    | _ :: _ =>
        data ← lift (comparison_data top10);
        if negb (empty data) then
          order ← lift (category_order df_comp_2023 top10);
          st_plotly_chart (Bar data (Some order))
        else st_info "No comparison data available for the top 10 countries across both years."
    | [] =>
        st_info "Could not determine top 10 countries for comparison (data might be missing for 2023)."
    end
  else st_info ("Data for " ++ pretty year_2010 ++ " or " ++ pretty year_2023
                ++ " is insufficient for comparison chart.").

Definition render : M unit :=
  row1;; map_view;; trend_view;; top5_view;; scatter_view;; comparison_view.

(** *** The data behind the views of this script *)

Definition derived : views :=
  {| metric_values :=
       filtered ← filtered_country_data;
       match rows filtered with
       | r :: _ => mapM_result (metric_value (series_of filtered r)) metric_columns
       | [] => Ok []
       end;
     mix_slices :=
       filtered ← filtered_country_data;
       match rows filtered with
       | r :: _ =>
           mix ← mix_df (series_of filtered r);
           Ok (if negb (empty mix) && gt0 (vsum (column "Capacity_GW" mix))
               then column "Capacity_GW" mix else [])
       | [] => Ok []
       end;
     map_rows := map_data;
     trend := global_trend_sums;
     ranking :=
       latest ← latest_year_data;
       if negb (empty latest) then
         top5 ← top_5_entities latest;
         match top5 with
         | _ :: _ => series ← top5_time_series top5; Ok (Some series)
         | [] => Ok None
         end
       else Ok None;
     scatter_rows := scatter_data;
     comparison_rows :=
       df_comp_2010 ← df_comp year_2010;
       df_comp_2023 ← df_comp year_2023;
       if negb (empty df_comp_2010) && negb (empty df_comp_2023) then
         top10 ← top10_2023_entities df_comp_2023;
         match top10 with
         | _ :: _ => data ← comparison_data top10; Ok (Some data)
         | [] => Ok None
         end
       else Ok None |}.
End Render.

(** The whole script: load, build the sidebar, render for the selection
    made there.  The selection is what the two widgets return; what
    Streamlit checks about the arguments of the slider is left out. *)
Definition script (file : csv_file) (selected_year : Z) (selected_country : string)
  : M unit :=
  df ← load_data file;
  lift (year_bounds df);;
  lift (countries df);;
  render df selected_year selected_country.
End App.

(** ** The script [.ipynb_checkpoints/app.py] *)

Module Checkpoint.
Section Render.
Variable df : DataFrame.
Variable selected_year : Z.
Variable selected_country : string.

(** *** Key metrics and energy mix of the selected country *)

Definition filtered_country_data : result DataFrame :=
  where_ ["Year"; "Entity"]
    (λ r, year_is selected_year r && entity_is selected_country r) df.

(** [f"{country_row.get(col, 0):,.df} GW"], of which the card shows
    the first word.  The cards are written as HTML; the page records
    their label and that word. *)
Definition metric_value (decimals : nat) (country_row : gmap string value)
    (col : string) : result string :=
  format_fixed decimals (get country_row col (Int 0)).

Definition metrics (country_row : gmap string value) : M unit :=
  solar ← lift (metric_value 1 country_row "Solar_GW");
  wind ← lift (metric_value 1 country_row "Wind_GW");
  hydro ← lift (metric_value 1 country_row "Hydro_GW");
  total ← lift (metric_value 1 country_row "Total_GW");
  per_capita ← lift (metric_value 2 country_row "Capacity_per_Capita_kW");
  st_metric "☀️ Solar Capacity" solar;;
  st_metric "💨 Wind Capacity" wind;;
  st_metric "💧 Hydro Capacity" hydro;;
  st_metric "⚡ Total Renewable" total;;
  st_metric "👤 Per Capita" per_capita.

Definition mix_data (country_row : gmap string value) : list (string * value) :=
  [("Solar", get country_row "Solar_GW" (Int 0));
   ("Wind", get country_row "Wind_GW" (Int 0));
   ("Hydro", get country_row "Hydro_GW" (Int 0))].

Definition energy_mix (country_row : gmap string value) : M unit :=
  let mix := mix_data country_row in
  if gt0 (py_sum (snd <$> mix))
  then st_plotly_chart (Donut (fst <$> mix) (snd <$> mix))
  else st_info "🔍 No renewable energy data available for the selected country and year.".

Definition key_insights : M unit :=
  filtered ← lift filtered_country_data;
  match rows filtered with
  | r :: _ =>
      let country_row := series_of filtered r in
      metrics country_row;;
      energy_mix country_row
  | [] => mret tt
  end.

(** *** World map and global trends *)

Definition map_data : result DataFrame :=
  d ← where_ ["Year"; "Entity"] (λ r, year_is selected_year r && not_world r) df;
  dropna ["Total_GW"; "Code"] d.

Definition map_view : M unit :=
  data ← lift map_data;
  if negb (empty data) then st_plotly_chart (Choropleth data) else mret tt.

Definition global_trend_data : result DataFrame :=
  d ← where_ ["Entity"] not_world df;
  groupby_sum ["Year"] ["Solar_GW"; "Wind_GW"; "Hydro_GW"] d.

Definition trend_names : list (string * string) :=
  [("Solar_GW", "Solar"); ("Wind_GW", "Wind"); ("Hydro_GW", "Hydro")].

Definition trend_view : M unit :=
  trend ← lift global_trend_data;
  if negb (empty trend) then
    st_plotly_chart
      (Traces ((λ p, (snd p, column "Year" trend, column (fst p) trend))
               <$> trend_names))
  else mret tt.

(** *** Leading nations and the scatter plot *)

Definition latest_data : result DataFrame :=
  d ← where_ ["Year"; "Entity"] (λ r, year_is selected_year r && not_world r) df;
  dropna ["Total_GW"] d.

Definition top_10 : result DataFrame :=
  latest ← latest_data;
  top ← nlargest 10 "Total_GW" latest;
  sort_values "Total_GW" true top.

Definition leaders_view : M unit :=
  top ← lift top_10;
  if negb (empty top) then st_plotly_chart (Bar top None) else mret tt.

Definition scatter_data : result DataFrame :=
  d ← where_ ["Year"; "Entity"] (λ r, year_is selected_year r && not_world r) df;
  dropna ["GDP_per_Capita"; "Capacity_per_Capita_kW"; "Population"] d.

Definition scatter_view : M unit :=
  data ← lift scatter_data;
  if negb (empty data) then st_plotly_chart (Scatter data) else mret tt.

(** *** Historical comparison, 2010 against 2023 *)

Definition year_2010 : Z := 2010.
Definition year_2023 : Z := 2023.

Definition df_year (year : Z) : result DataFrame :=
  d ← where_ ["Year"; "Entity"] (λ r, year_is year r && not_world r) df;
  dropna ["Capacity_per_Capita_kW"] d.

Definition top10_2023 (df_2023 : DataFrame) : result (list value) :=
  top ← nlargest 10 "Capacity_per_Capita_kW" df_2023;
  require ["Entity"] top;;
  Ok (column "Entity" top).

Definition comparison_data (top10 : list value) : result DataFrame :=
  d ← where_ ["Entity"; "Year"]
        (λ r, isin top10 (cell r "Entity")
              && isin [Int year_2010; Int year_2023] (cell r "Year")) df;
  dropna ["Capacity_per_Capita_kW"] d.

Definition comparison_view : M unit :=
  df_2010 ← lift (df_year year_2010);
  df_2023 ← lift (df_year year_2023);
  if negb (empty df_2010) && negb (empty df_2023) then
    top10 ← lift (top10_2023 df_2023);
    data ← lift (comparison_data top10);
    if negb (empty data) then st_plotly_chart (Bar data None) else mret tt
  else mret tt.

Definition render : M unit :=
  key_insights;; map_view;; trend_view;; leaders_view;; scatter_view;;
  comparison_view.

(** *** The data behind the views of this script *)

Definition derived : views :=
  {| metric_values :=
       filtered ← filtered_country_data;
       match rows filtered with
       | r :: _ =>
           let country_row := series_of filtered r in
           mapM_result (λ col, metric_value
                                 (if String.eqb col "Capacity_per_Capita_kW"
                                  then 2 else 1) country_row col)
                       metric_columns
       | [] => Ok []
       end;
     mix_slices :=
       filtered ← filtered_country_data;
       match rows filtered with
       | r :: _ =>
           let mix := mix_data (series_of filtered r) in
           Ok (if gt0 (py_sum (snd <$> mix)) then snd <$> mix else [])
       | [] => Ok []
       end;
     map_rows := map_data;
     trend := global_trend_data;
     ranking := top ← top_10; Ok (Some top);
     scatter_rows := scatter_data;
     comparison_rows :=
       df_2010 ← df_year year_2010;
       df_2023 ← df_year year_2023;
       if negb (empty df_2010) && negb (empty df_2023) then
         top10 ← top10_2023 df_2023;
         data ← comparison_data top10;
         Ok (Some data)
       else Ok None |}.
End Render.

Definition script (file : csv_file) (selected_year : Z) (selected_country : string)
  : M unit :=
  df ← load_data file;
  lift (year_bounds df);;
  lift (countries df);;
  render df selected_year selected_country.
End Checkpoint.

(** ** Frames as objects

    pandas frames are objects: indexing with a mask, [dropna], [copy],
    [groupby(...).sum()], [melt], [nlargest] and [sort_values] return a
    new frame, while [dropna(..., inplace=True)],
    [rename(..., inplace=True)] and [frame[col] = ...] change the frame
    they are called on.  The store keeps every frame of a run under its
    reference; the cached table is one of them. *)

Record store : Type := mkStore {
  next : nat;
  objs : gmap nat DataFrame
}.

Definition Prog (A : Type) : Type := store → (store * list element * result A)%type.

#[global] Instance Prog_ret : MRet Prog := λ A a σ, (σ, [], Ok a).
#[global] Instance Prog_bind : MBind Prog := λ A B f m σ,
  match m σ with
  | (σ1, out, Ok a) =>
      match f a σ1 with (σ2, out', r) => (σ2, out ++ out', r) end
  | (σ1, out, Raise e) => (σ1, out, Raise e)
  end.

(** A step that touches no frame. *)
Definition run {A} (m : M A) : Prog A := λ σ, (σ, fst m, snd m).

Definition new (d : DataFrame) : Prog nat := λ σ,
  ({| next := S (next σ); objs := <[next σ := d]> (objs σ) |}, [], Ok (next σ)).

Definition deref (l : nat) : Prog DataFrame := λ σ,
  match objs σ !! l with
  | Some d => (σ, [], Ok d)
  | None => (σ, [], Raise (OtherError "no such object"))
  end.

Definition update (l : nat) (d : DataFrame) : Prog unit := λ σ,
  ({| next := next σ; objs := <[l := d]> (objs σ) |}, [], Ok tt).

(** A method that returns a new frame, and one that works in place. *)
Definition method (f : DataFrame → result DataFrame) (l : nat) : Prog nat :=
  d ← deref l; d' ← run (lift (f d)); new d'.

Definition inplace (f : DataFrame → result DataFrame) (l : nat) : Prog unit :=
  d ← deref l; d' ← run (lift (f d)); update l d'.

Definition copy (l : nat) : Prog nat := method Ok l.

(** [app.py] once more, with every frame it builds held in the store:
    [df] is the reference of the cached table. *)
Module AppObjects.
Section Render.
Variable df : nat.
Variable selected_year : Z.
Variable selected_country : string.

Definition row1 : Prog unit :=
  filtered_country_data ←
    method (where_ ["Year"; "Entity"]
              (λ r, year_is selected_year r && entity_is selected_country r)) df;
  filtered ← deref filtered_country_data;
  match rows filtered with
  | r :: _ =>
      let country_row := series_of filtered r in
      run (App.metrics country_row);;
      run (App.energy_mix country_row)
  | [] =>
      run (st_info ("No detailed data available for " ++ selected_country ++ " in "
                    ++ pretty selected_year
                    ++ ". Please select a different country or year."))
  end.

Definition map_view : Prog unit :=
  map_data ← method (where_ ["Year"; "Entity"]
                       (λ r, year_is selected_year r && not_world r)) df;
  map_data ← method (dropna ["Total_GW"; "Code"]) map_data;
  data ← deref map_data;
  if negb (empty data) then run (st_plotly_chart (Choropleth data))
  else run (st_info ("No global renewable capacity data for map in "
                     ++ pretty selected_year ++ ".")).

Definition trend_view : Prog unit :=
  others ← method (where_ ["Entity"] not_world) df;
  global_trend_data ←
    method (groupby_sum ["Year"] ["Solar_GW"; "Wind_GW"; "Hydro_GW"]) others;
  inplace (λ d, Ok (rename [("Solar_GW", "Solar (GW)"); ("Wind_GW", "Wind (GW)");
                            ("Hydro_GW", "Hydro (GW)")] d)) global_trend_data;;
  global_mix_long ←
    method (melt ["Year"] App.stacked_cols "Source" "Capacity_GW") global_trend_data;
  global_mix_long ← method (dropna ["Capacity_GW"]) global_mix_long;
  long ← deref global_mix_long;
  if negb (empty long) then run (st_plotly_chart (Area long))
  else run (st_info "No global renewable mix data available for charting.").

Definition top5_view : Prog unit :=
  country_total_renewable ← method (groupby_sum ["Entity"; "Year"] ["Total_GW"]) df;
  country_total_renewable ← method (where_ ["Entity"] not_world) country_total_renewable;
  selected ← method (where_ ["Year"] (year_is selected_year)) country_total_renewable;
  latest_year_data ← copy selected;
  latest ← deref latest_year_data;
  if negb (empty latest) then
    inplace (λ d, require ["Total_GW"] d;;
                  Ok (assign "Total_GW"
                        (fillna (Int 0) <$> (to_numeric <$> column "Total_GW" d)) d))
            latest_year_data;;
    top ← method (nlargest 5 "Total_GW") latest_year_data;
    top ← deref top;
    top_5_entities ← run (lift (require ["Entity"] top;; Ok (column "Entity" top)));
    match top_5_entities with
    | _ :: _ =>
        members ← method (where_ ["Entity"]
                            (λ r, isin top_5_entities (cell r "Entity"))) df;
        sorted ← method (sort_values "Year" true) members;
        top5_time_series ← copy sorted;
        inplace (dropna ["Total_GW"]) top5_time_series;;
        series ← deref top5_time_series;
        if negb (empty series) then run (st_plotly_chart (Line series))
        else run (st_info "Insufficient data for selected top 5 countries time series.")
    | [] =>
        run (st_info ("Could not determine top 5 countries for "
                      ++ pretty selected_year ++ ". Data might be insufficient."))
    end
  else run (st_info ("No data available for top 5 country growth in "
                     ++ pretty selected_year ++ ".")).

Definition scatter_view : Prog unit :=
  selected ← method (where_ ["Year"; "Entity"]
                       (λ r, year_is selected_year r && not_world r)) df;
  scatter_data ← copy selected;
  scatter_data ←
    method (dropna ["GDP_per_Capita"; "Capacity_per_Capita_kW"; "Population"])
           scatter_data;
  data ← deref scatter_data;
  if negb (empty data) then run (st_plotly_chart (Scatter data))
  else run (st_info ("No scatter plot data for GDP vs. Per-Capita Renewable Capacity in "
                     ++ pretty selected_year ++ ".")).

Definition df_comp (year : Z) : Prog nat :=
  selected ← method (where_ ["Year"; "Entity"] (λ r, year_is year r && not_world r)) df;
  kept ← method (dropna ["Capacity_per_Capita_kW"]) selected;
  copy kept.

Definition comparison_view : Prog unit :=
  df_comp_2010 ← df_comp App.year_2010;
  df_comp_2023 ← df_comp App.year_2023;
  d2010 ← deref df_comp_2010;
  d2023 ← deref df_comp_2023;
  if negb (empty d2010) && negb (empty d2023) then
    top10_2023_entities ← run (lift (App.top10_2023_entities d2023));
    match top10_2023_entities with
    | _ :: _ =>
        selected ←
          method (where_ ["Entity"; "Year"]
                    (λ r, isin top10_2023_entities (cell r "Entity")
                          && isin [Int App.year_2010; Int App.year_2023]
                                  (cell r "Year"))) df;
        comparison_data ← copy selected;
        inplace (λ d, require ["Capacity_per_Capita_kW"] d;;
                      Ok (assign "Capacity_per_Capita_kW"
                            (to_numeric <$> column "Capacity_per_Capita_kW" d) d))
                comparison_data;;
        inplace (dropna ["Capacity_per_Capita_kW"]) comparison_data;;
        data ← deref comparison_data;
        if negb (empty data) then
          order ← run (lift (App.category_order d2023 top10_2023_entities));
          run (st_plotly_chart (Bar data (Some order)))
        else run (st_info "No comparison data available for the top 10 countries across both years.")
    | [] =>
        run (st_info "Could not determine top 10 countries for comparison (data might be missing for 2023).")
    end
  else run (st_info ("Data for " ++ pretty App.year_2010 ++ " or "
                     ++ pretty App.year_2023
                     ++ " is insufficient for comparison chart.")).

Definition render : Prog unit :=
  row1;; map_view;; trend_view;; top5_view;; scatter_view;; comparison_view.
End Render.
End AppObjects.

(** ** The loader, row by row

    What [load_data] makes of one row of the frame read from the file:
    the year is overwritten by its integer value [year], the numeric
    columns present are coerced in turn, the legacy columns go. *)

Definition legacy_columns : list string :=
  ["Country Name_x"; "Country Name_y"; "Country"].

Definition clean_row (present : list string) (year : value)
    (r : gmap string value) : gmap string value :=
  foldr delete
        (foldl (λ r c, <[c := to_numeric (cell r c)]> r) (<["Year" := year]> r)
               present)
        legacy_columns.

(** The integer the loader stores for a year cell, when there is one. *)
Definition year_cell (v : value) : result value :=
  astype_int (fillna (Int 0) (to_numeric v)).

Definition is_warning (e : element) : bool :=
  match e with StWarning _ => true | _ => false end.

Definition is_error (e : element) : bool :=
  match e with StError _ => true | _ => false end.

(** The frame the loader returns, given the integer years. *)
Definition cleaned (d0 : DataFrame) (ys : list value) : DataFrame :=
  {| columns := filter (λ c, c ∉ legacy_columns) (columns d0);
     rows := List.filter
               (λ r, forallb (λ c, notna (cell r c)) ["Entity"; "Code"; "Year"])
               (zip_with (λ r y, clean_row (filter (λ c, c ∈ columns d0) numeric_cols) y r)
                         (rows d0) ys) |}.

(** ** Vocabulary of the statements *)

Definition is_Int (v : value) : Prop := ∃ z, v = Int z.

(** A cell of a numeric column: anything but text. *)
Definition numeric (v : value) : Prop := ∀ s, v ≠ Str s.

(** Strictly greater than zero, and at least zero. *)
Definition positive (v : value) : Prop :=
  (∃ q, v = Num q ∧ (0 < q)%Q) ∨ v = Inf false.

Definition nonnegative (v : value) : Prop :=
  (∃ q, v = Num q ∧ (0 <= q)%Q) ∨ v = Inf false.

Definition total (r : gmap string value) : value := cell r "Total_GW".

(** A row of the long frame behind the pie chart. *)
Definition mix_row (source : string) (v : value) : gmap string value :=
  list_to_map [("Source", Str source); ("Capacity_GW", v)].

(** [keeps df Q m]: from any store in which [df] is allocated, [m]
    leaves the frame under [df] as it is, allocates only above what is
    allocated, and returns a value that satisfies [Q]. *)
Definition keeps (df : nat) {A} (Q : A → Prop) (m : Prog A) : Prop :=
  ∀ σ, df < next σ →
       next σ ≤ next (m σ).1.1
       ∧ objs (m σ).1.1 !! df = objs σ !! df
       ∧ match (m σ).2 with Ok a => Q a | Raise _ => True end.

(** The store after [new] and after [update]. *)
Definition alloc (σ : store) (d : DataFrame) : store :=
  {| next := S (next σ); objs := <[next σ := d]> (objs σ) |}.

Definition store_set (σ : store) (l : nat) (d : DataFrame) : store :=
  {| next := next σ; objs := <[l := d]> (objs σ) |}.

(** A run agrees with a page step [p] and keeps [d] under [df]. *)
Definition agrees (df : nat) (d : DataFrame) {A} (m : Prog A) (p : M A) : Prop :=
  ∀ σ, objs σ !! df = Some d → df < next σ →
       (m σ).1.2 = p.1 ∧ (m σ).2 = p.2
       ∧ objs (m σ).1.1 !! df = Some d ∧ next σ ≤ next (m σ).1.1.

(** ** Example files *)

(** The frame [pd.read_csv] delivers for a header and the fields of each
    record, when no column is numeric or boolean throughout: such a
    column is converted by [pd.read_csv], and cells that hold booleans
    are outside [value]. *)
Definition frame_of_fields (header : list string) (records : list (list string))
  : DataFrame :=
  {| columns := header;
     rows := (λ fields, list_to_map (zip header (csv_cell <$> fields))) <$> records |}.

(** The table a file loads to (the empty frame when loading halts). *)
Definition loaded (file : csv_file) : DataFrame :=
  match load_data file with
  | (_, Ok d) => d
  | _ => mkDataFrame [] []
  end.

Definition example_header : list string :=
  ["Entity"; "Code"; "Year"; "Solar_GW"; "Wind_GW"; "Hydro_GW"; "Total_GW";
   "Population"; "GDP_per_Capita"; "Capacity_per_Capita_kW"].

(** Years as in the specification's scenario: one good, one bad, one empty. *)
Definition years_example : csv_file :=
  Contents (frame_of_fields ["Entity"; "Code"; "Year"; "Total_GW"]
    [["Aland"; "ALA"; "2020"; "7.5"];
     ["Borduria"; "BOR"; "bad"; "3"];
     ["Cascadia"; "CAS"; ""; "n/a"]]).

Definition negative_year_example : csv_file :=
  Contents (frame_of_fields ["Entity"; "Code"; "Year"]
              [["Aland"; "ALA"; "bad"]; ["Borduria"; "BOR"; "-3"]]).

Definition bad_year_frame : DataFrame :=
  frame_of_fields ["Entity"; "Code"; "Year"] [["Aland"; "ALA"; "bad"]].

(** One country and year, with no solar figure. *)
Definition missing_solar_example : csv_file :=
  Contents (frame_of_fields example_header
    [["Testland"; "TST"; "2023"; ""; "3"; "2"; "10"; "1000"; "20000"; "1.5"]]).

(** One country in both comparison years, with no wind capacity. *)
Definition two_years_example : csv_file :=
  Contents (frame_of_fields example_header
    [["Testland"; "TST"; "2023"; "5"; "0"; "2"; "7"; "1000"; "20000"; "1.5"];
     ["Testland"; "TST"; "2010"; "1"; "0"; "2"; "3"; "900"; "10000"; "0.5"]]).

(** Fifteen countries and the world in one year, with equal totals
    inside the first ten and across the cut. *)
Definition leaderboard_example : csv_file :=
  Contents (frame_of_fields ["Entity"; "Code"; "Year"; "Total_GW"]
    [["Aland"; "ALA"; "2023"; "5"];
     ["Borduria"; "BOR"; "2023"; "9"];
     ["Cascadia"; "CAS"; "2023"; "3"];
     ["Drusselstein"; "DRU"; "2023"; "9"];
     ["Elbonia"; "ELB"; "2023"; "1"];
     ["Freedonia"; "FRE"; "2023"; "7"];
     ["Genovia"; "GEN"; "2023"; "7"];
     ["Hav"; "HAV"; "2023"; "2"];
     ["Illyria"; "ILL"; "2023"; "8"];
     ["Jumbostan"; "JUM"; "2023"; "6"];
     ["Kamistan"; "KAM"; "2023"; "4"];
     ["Latveria"; "LAT"; "2023"; "4"];
     ["Markovia"; "MAR"; "2023"; "10"];
     ["Novistrana"; "NOV"; "2023"; "4"];
     ["Orsinia"; "ORS"; "2023"; "11"];
     ["World"; "WLD"; "2023"; "100"]]).

(** The rows the leaderboard ranks in the example. *)
Definition leaderboard_latest : DataFrame :=
  match Checkpoint.latest_data (loaded leaderboard_example) 2023 with
  | Ok d => d
  | Raise _ => mkDataFrame [] []
  end.

(** A store that holds the loaded table of a file under reference 0. *)
Definition store_of (file : csv_file) : store :=
  {| next := 1; objs := {[ 0 := loaded file ]} |}.

(** ** Vocabulary of the further statements *)

(** The loader's warning for a numeric column that is missing, and its
    message for an exception. *)
Definition missing_column_warning (col : string) : element :=
  StWarning ("Column '" ++ col ++
             "' not found in the dataset. Some plots may not work as expected.").

Definition loading_error (e : exn) : element :=
  StError ("Error loading or processing data: " ++ exn_str e ++
           ". Please check your CSV file's format and column names.").

(** A year field the cast to a 64-bit integer takes as it stands: one
    that reads as no finite number, or as one of magnitude at most
    [10 ^ 18]. *)
Definition year_in_range (v : value) : bool :=
  match to_numeric v with
  | Num q => Qle_bool (- inject_Z (10 ^ 18)) q && Qle_bool q (inject_Z (10 ^ 18))
  | _ => true
  end.

(** A cell that holds an infinity, or text that spells one. *)
Definition infinity_words : list string :=
  ["inf"; "+inf"; "-inf"; "Inf"; "+Inf"; "-Inf"; "INF"; "+INF"; "-INF";
   "infinity"; "+infinity"; "-infinity"; "Infinity"; "+Infinity"; "-Infinity";
   "INFINITY"; "+INFINITY"; "-INFINITY"].

Definition infinite (v : value) : Prop :=
  (∃ b, v = Inf b) ∨ (∃ s, v = Str s ∧ s ∈ infinity_words).

(** [cleans d0 r0 r]: [r] is the row [r0] of the frame [d0] as the
    loader leaves it.  The year is an integer: zero when the field reads
    as no number, the number itself when the field reads as a whole
    number of magnitude at most [2 ^ 53].  A numeric column that is
    present holds no text: a cell that was no text is as it was, a field
    that reads as no number is missing, a field that reads as a whole
    number of magnitude at most [2 ^ 53] is that number.  The legacy
    columns are gone, and every other cell is as in the file.  What
    becomes of the other fields that read as numbers is left open but
    for their kind: it depends on the rounding of decimal text to
    binary64 and on the cast to 64-bit integers. *)
Definition cleans (d0 : DataFrame) (r0 r : gmap string value) : Prop :=
  is_Int (cell r "Year")
  ∧ (unparseable (cell r0 "Year") = true → cell r "Year" = Int 0)
  ∧ (∀ z, to_numeric (cell r0 "Year") = Int z → (Z.abs z ≤ 2 ^ 53)%Z →
          cell r "Year" = Int z)
  ∧ (∀ c, c ∈ numeric_cols → c ∈ columns d0 →
          ∃ v, r !! c = Some v ∧ numeric v
               ∧ (numeric (cell r0 c) → v = cell r0 c)
               ∧ (unparseable (cell r0 c) = true → v = NaN)
               ∧ (∀ z, to_numeric (cell r0 c) = Int z → (Z.abs z ≤ 2 ^ 53)%Z →
                       v = Int z))
  ∧ (∀ c, c ∈ legacy_columns → r !! c = None)
  ∧ (∀ c, c ≠ "Year" → c ∉ legacy_columns → (c ∈ numeric_cols → c ∉ columns d0) →
          r !! c = r0 !! c).

(** A step that returns, and one that stops at a missing label. *)
Definition succeeds {A} (m : M A) : Prop := ∃ page a, m = (page, Ok a).

Definition raises_KeyError {A} (m : M A) : Prop :=
  ∃ page labels, m = (page, Raise (KeyError labels)).

Definition outcome {A} (complete : bool) (m : M A) : Prop :=
  if complete then succeeds m else raises_KeyError m.

Definition has (df : DataFrame) (c : string) : bool := bool_decide (c ∈ columns df).

(** The messages of the point lookup and of the two rankings of
    [app.py]. *)
Definition no_detail_message (country : string) (year : Z) : element :=
  StInfo ("No detailed data available for " ++ country ++ " in " ++ pretty year
          ++ ". Please select a different country or year.").

Definition no_top5_message (year : Z) : element :=
  StInfo ("Could not determine top 5 countries for " ++ pretty year
          ++ ". Data might be insufficient.").

Definition no_top10_message : element :=
  StInfo "Could not determine top 10 countries for comparison (data might be missing for 2023).".

(** The selection of the point lookup. *)
Definition matches (year : Z) (country : string) (r : gmap string value) : bool :=
  year_is year r && entity_is country r.

(** The key of a group of years. *)
Definition year_key (z : Z) : list value := [Int z].

(** The rows of a figure that draws one mark per row of a country: the
    map, the lines, the bars and the scatter plot. *)
Definition country_rows (fig : figure) : list (gmap string value) :=
  match fig with
  | Choropleth d | Line d | Bar d _ | Scatter d => rows d
  | Pie _ | Donut _ _ | Area _ | Traces _ => []
  end.

(** No chart of the page draws a mark for the world. *)
Definition spares_world (page : list element) : Prop :=
  Forall (λ e, ∀ fig r, e = StChart fig → r ∈ country_rows fig →
                        cell r "Entity" ≠ Str "World") page.

(** ** Further example files *)

(** A year that reads as an infinity, and a file without codes. *)
Definition infinite_year_frame : DataFrame :=
  frame_of_fields ["Entity"; "Code"; "Year"]
    [["Aland"; "ALA"; "bad"]; ["Borduria"; "BOR"; "-Infinity"]].

Definition no_code_frame : DataFrame :=
  frame_of_fields ["Entity"; "Year"; "Total_GW"] [["Aland"; "2020"; "7.5"]].

(** A file with a header and no record. *)
Definition header_only_example : csv_file :=
  Contents (frame_of_fields example_header []).

(** A numeric column, a legacy column and a column the loader does not
    know; a year and a total that do not parse; a row without entity. *)
Definition messy_frame : DataFrame :=
  frame_of_fields ["Entity"; "Code"; "Year"; "Total_GW"; "Country"; "Region"]
    [["Aland"; "ALA"; "2020"; "7"; "Aland"; "North"];
     ["Borduria"; "BOR"; "bad"; "n.a."; "Borduria"; "South"];
     [""; "CAS"; "2021"; "3"; "Cascadia"; "East"]].

(** Both comparison years have data, as have 2009 and the world in
    2010; the one country row of 2010 has no per-capita capacity. *)
Definition no_2010_example : csv_file :=
  Contents (frame_of_fields example_header
    [["Aland"; "ALA"; "2023"; "5"; "0"; "2"; "7"; "1000"; "20000"; "1.5"];
     ["Borduria"; "BOR"; "2023"; "1"; "1"; "1"; "3"; "2000"; "15000"; "2.5"];
     ["World"; "WLD"; "2023"; "9"; "9"; "9"; "27"; "9000"; "12000"; "0.9"];
     ["World"; "WLD"; "2010"; "3"; "3"; "3"; "9"; "8000"; "9000"; "0.4"];
     ["Aland"; "ALA"; "2010"; "1"; "0"; "2"; "3"; "900"; "10000"; ""];
     ["Borduria"; "BOR"; "2009"; "1"; "0"; "1"; "2"; "1900"; "9000"; "0.3"]]).

(** ** Vocabulary of the row-level statements

    What the statements on the comparison and on the leaderboard say
    about the rows of a table is said with the predicates below, which
    read the cells themselves and use the order of the rationals; none
    of them is built from the comparisons the views compute with. *)

#[global] Instance Q_eq_dec : EqDecision Q.
Proof. solve_decision. Defined.

#[global] Instance value_eq_dec : EqDecision value.
Proof. solve_decision. Defined.

(** The year of a row is [y]: its [Year] cell is a number equal to [y]. *)
Definition in_year (y : Z) (r : gmap string value) : Prop :=
  match cell r "Year" with
  | Num q => (q == inject_Z y)%Q
  | _ => False
  end.

#[global] Instance in_year_dec y r : Decision (in_year y r).
Proof. unfold in_year. destruct (cell r "Year"); try apply _. apply Qeq_dec. Defined.

(** A cell that holds a number, finite or infinite. *)
Definition number (v : value) : Prop :=
  match v with Num _ | Inf _ => True | _ => False end.

(** The order of the extended reals on numbers: [above a b] when [a] is
    strictly greater than [b], [level a b] when they are equal. *)
Definition above (a b : value) : Prop :=
  match a, b with
  | Num p, Num q => (q < p)%Q
  | Inf false, Num _ | Num _, Inf true | Inf false, Inf true => True
  | _, _ => False
  end.

Definition level (a b : value) : Prop :=
  match a, b with
  | Num p, Num q => (p == q)%Q
  | Inf s, Inf t => s = t
  | _, _ => False
  end.

(** [before cmp pos a b]: [a] comes strictly before [b] under [cmp], or
    ties with it and has the earlier position. *)
Definition before {A} (cmp : A → A → comparison) (pos : A → nat) (a b : A) : Prop :=
  cmp a b = Lt ∨ (cmp a b = Eq ∧ pos a < pos b).

(** The rows of a list with their positions, counted from zero. *)
Definition enumerate {A} (l : list A) : list (nat * A) :=
  zip (seq 0 (length l)) l.

(** The rows the leaderboard of a year ranks: those of that year, the
    world apart, that have a total, in the order of the table. *)
Definition eligible (year : Z) (d : DataFrame) : list (gmap string value) :=
  filter (λ r, in_year year r ∧ cell r "Entity" ≠ Str "World" ∧ total r ≠ NaN)
         (rows d).

(** * Properties *)

(** ** Cells and text *)

Example parse_2020 : to_numeric (csv_cell "2020") = Int 2020.
Proof. reflexivity. Qed.

Example parse_bad : to_numeric (csv_cell "bad") = NaN.
Proof. reflexivity. Qed.

Example parse_empty : to_numeric (csv_cell "") = NaN.
Proof. reflexivity. Qed.

Example parse_fraction : to_numeric (Str " -12.50e1 ") = Num (- 1250 # 10).
Proof. reflexivity. Qed.

Example parse_inf : to_numeric (Str "-Infinity") = Inf true.
Proof. reflexivity. Qed.

Example format_zero : format_fixed 2 (Int 0) = Ok "0.00".
Proof. reflexivity. Qed.

Example format_missing : format_fixed 2 NaN = Ok "nan".
Proof. reflexivity. Qed.

Example format_thousands : format_fixed 2 (Num (-1234567891 # 1000)) = Ok "-1,234,567.89".
Proof. by vm_compute. Qed.

(** ** The monads *)

Lemma M_bind_Ok {A B} (m : M A) (f : A → M B) out b :
  m ≫= f = (out, Ok b) →
  ∃ o1 a o2, m = (o1, Ok a) ∧ f a = (o2, Ok b) ∧ out = o1 ++ o2.
Proof.
  destruct m as [o1 [a|e]]; unfold mbind, M_bind; [|discriminate].
  destruct (f a) as [o2 r] eqn:E. intros [= <- ->]. eauto 10.
Qed.

Lemma result_bind_Ok {A B} (m : result A) (f : A → result B) b :
  m ≫= f = Ok b → ∃ a, m = Ok a ∧ f a = Ok b.
Proof. destruct m; [eauto|discriminate]. Qed.

Lemma mapM_result_Ok {A B} (f : A → result B) l ys :
  mapM_result f l = Ok ys ↔ Forall2 (λ x y, f x = Ok y) l ys.
Proof.
  revert ys. induction l as [|x l IH]; intros ys; simpl.
  - split; [intros [= <-]; constructor | by inversion 1].
  - split.
    + intros H. apply result_bind_Ok in H as (y & Hy & H).
      apply result_bind_Ok in H as (ys' & Hys & [= <-]).
      constructor; [done|]. by apply IH.
    + inversion 1 as [|? y ? ys' Hy Hys]; subst.
      apply IH in Hys. rewrite Hy. simpl. unfold mbind, result_bind.
      by rewrite Hys.
Qed.

Lemma mapM_result_Raise {A B} (f : A → result B) l e :
  mapM_result f l = Raise e → ∃ x, x ∈ l ∧ f x = Raise e.
Proof.
  induction l as [|x l IH]; simpl; [discriminate|].
  destruct (f x) as [y|e'] eqn:Hx; simpl.
  - unfold mbind, result_bind. destruct (mapM_result f l) eqn:Hl; [discriminate|].
    intros [= ->]. destruct IH as (x' & ? & ?); [done|]. exists x'. split; [by right|done].
  - intros [= ->]. exists x. split; [by left|done].
Qed.

Lemma coerce_columns_spec cols df :
  ∃ out, coerce_columns cols df =
    (out, Ok {| columns := columns df;
                rows := (λ r, foldl (λ r c, <[c := to_numeric (cell r c)]> r) r
                                (filter (λ c, c ∈ columns df) cols)) <$> rows df |})
    ∧ forallb is_warning out = true.
Proof.
  revert df. induction cols as [|c cols IH]; intros df; simpl.
  - exists []. split; [|done]. unfold mret, M_ret. destruct df; simpl.
    by rewrite list_fmap_id.
  - case_bool_decide as Hc.
    + rewrite filter_cons_True by done. simpl.
      destruct (IH (assign c (to_numeric <$> column c df) df)) as (out & -> & Hw).
      exists out. split; [|done]. unfold mbind, M_bind, mret, M_ret. simpl.
      f_equal. f_equal. unfold assign. rewrite bool_decide_true by done. simpl.
      f_equal. unfold column. rewrite <-list_fmap_compose.
      rewrite zip_with_fmap_r, zip_with_diag, <-list_fmap_compose.
      done.
    + rewrite filter_cons_False by done.
      destruct (IH df) as (out & Hout & Hw).
      eexists (_ :: out). split.
      * unfold mbind, M_bind, mret, M_ret, st_warning, write. simpl.
        rewrite Hout. reflexivity.
      * done.
Qed.

Lemma load_data_try_Contents d0 :
  "Year" ∈ columns d0 →
  ∃ out, forallb is_warning out = true ∧
    load_data_try (Contents d0) =
      match mapM_result year_cell (column "Year" d0) with
      | Ok ys =>
          match filter (λ c, c ∉ filter (λ c, c ∉ legacy_columns) (columns d0))
                       ["Entity"; "Code"; "Year"] with
          | [] => (out, Ok (cleaned d0 ys))
          | missing => (out, Raise (KeyError missing))
          end
      | Raise e => ([], Raise e)
      end.
Proof.
  intros HY. unfold load_data_try.
  unfold read_csv, lift. unfold mbind at 1. unfold M_bind at 1. cbn beta iota.
  rewrite bool_decide_true by done.
  assert (mapM_result astype_int (fillna (Int 0) <$> (to_numeric <$> column "Year" d0))
          = mapM_result year_cell (column "Year" d0)) as ->.
  { generalize (column "Year" d0). intros l. induction l as [|v l IH]; [done|].
    rewrite !fmap_cons. cbn [mapM_result]. by rewrite IH. }
  destruct (mapM_result year_cell (column "Year" d0)) as [ys|e] eqn:Hys.
  2:{ exists []. split; [done|]. reflexivity. }
  destruct (coerce_columns_spec numeric_cols (assign "Year" ys d0)) as (out & Hc & Hw).
  exists out. split; [done|].
  unfold mbind, M_bind, mret, M_ret. cbn beta iota. rewrite Hc. clear Hc.
  unfold dropna, drop_columns, assign. rewrite bool_decide_true by done.
  cbn [columns rows].
  change ["Country Name_x"; "Country Name_y"; "Country"] with legacy_columns.
  destruct (filter (λ c, c ∉ filter (λ c0, c0 ∉ legacy_columns) (columns d0))
              ["Entity"; "Code"; "Year"]) eqn:Hm; cbn; rewrite app_nil_r; [|done].
  do 2 f_equal. unfold cleaned, select. cbn [columns rows]. do 2 f_equal.
  rewrite <-list_fmap_compose.
  generalize (rows d0) ys. clear. intros l. induction l as [|r l IH]; intros [|y ys]; cbn; try done.
  f_equal. apply IH.
Qed.

(** ** The loader *)

Lemma year_cell_Int v y : year_cell v = Ok y → ∃ z, y = Int z.
Proof.
  unfold year_cell, astype_int. destruct (fillna (Int 0) (to_numeric v)); try discriminate.
  intros [= <-]. eauto.
Qed.

Lemma year_cell_unparseable v : unparseable v = true → year_cell v = Ok (Int 0).
Proof.
  unfold unparseable, year_cell, fillna. intros ->. reflexivity.
Qed.

(** The loader returns a frame exactly on a file whose frame has a Year
    column with finite years and, the legacy columns apart, the columns
    Entity and Code. *)
Lemma load_data_Ok file out d :
  load_data file = (out, Ok d) →
  ∃ d0 ys, file = Contents d0 ∧ "Year" ∈ columns d0 ∧
           mapM_result year_cell (column "Year" d0) = Ok ys ∧
           d = cleaned d0 ys ∧
           forallb is_warning out = true ∧
           Forall (λ c, c ∈ columns d) ["Entity"; "Code"; "Year"].
Proof.
  destruct file as [|msg|d0]; [discriminate..|].
  destruct (decide ("Year" ∈ columns d0)) as [HY|HY].
  2:{ unfold load_data, load_data_try, read_csv, lift.
      unfold mbind at 1. unfold M_bind at 1. cbn beta iota.
      rewrite bool_decide_false by done. discriminate. }
  destruct (load_data_try_Contents d0 HY) as (o & Hw & Htry).
  unfold load_data. rewrite Htry.
  destruct (mapM_result year_cell (column "Year" d0)) as [ys|e] eqn:Hys.
  - destruct (filter _ ["Entity"; "Code"; "Year"]) eqn:Hm.
    + intros [= <- <-]. exists d0, ys. repeat split; try done.
      unfold cleaned. cbn [columns].
      apply Forall_forall. intros c Hc.
      destruct (decide (c ∈ filter (λ c0, c0 ∉ legacy_columns) (columns d0))) as [|Hn]; [done|].
      assert (c ∈ filter (λ c, c ∉ filter (λ c0, c0 ∉ legacy_columns) (columns d0))
                     ["Entity"; "Code"; "Year"]) as Hin.
      { apply list_elem_of_filter. done. }
      rewrite Hm in Hin. by apply elem_of_nil in Hin.
    + discriminate.
  - apply mapM_result_Raise in Hys as (v & _ & Hv).
    unfold year_cell, astype_int in Hv.
    destruct (fillna _ _); try discriminate; injection Hv as <-; discriminate.
Qed.

Lemma cleaned_row_cells d0 ys r :
  r ∈ rows (cleaned d0 ys) →
  notna (cell r "Entity") = true ∧ notna (cell r "Code") = true ∧
  notna (cell r "Year") = true.
Proof.
  unfold cleaned. cbn [rows]. rewrite list_elem_of_In. intros [_ H]%filter_In.
  cbn in H. rewrite !andb_true_iff in H. tauto.
Qed.

Lemma load_data_halts file :
  snd (load_data file) = Raise StopException ↔
  file = Absent ∨
  (∃ d0, file = Contents d0 ∧ "Year" ∉ columns d0) ∨
  (∃ e, is_Exception e = true ∧ e ≠ FileNotFoundError ∧
        snd (load_data_try file) = Raise e).
Proof.
  destruct file as [|msg|d0].
  - split; [by left|reflexivity].
  - split; [|reflexivity]. intros _. right. right.
    exists (OtherError msg). done.
  - destruct (decide ("Year" ∈ columns d0)) as [HY|HY].
    + destruct (load_data_try_Contents d0 HY) as (o & Hw & Htry).
      unfold load_data. rewrite Htry.
      destruct (mapM_result year_cell (column "Year" d0)) as [ys|e] eqn:Hys.
      * destruct (filter _ ["Entity"; "Code"; "Year"]) eqn:Hm; cbn.
        -- split; [discriminate|]. intros [|[(d & [= <-] & Hn)|(e & _ & _ & ?)]]; done.
        -- split; [|done]. intros _. right. right. exists (KeyError (s :: l)). done.
      * apply mapM_result_Raise in Hys as (v & _ & Hv).
        assert (is_Exception e = true ∧ e ≠ FileNotFoundError ∧ e ≠ StopException) as (He1 & He2 & He3).
        { unfold year_cell, astype_int in Hv.
          destruct (fillna _ _); try discriminate; injection Hv as <-; done. }
        split.
        -- intros _. right. right. exists e. done.
        -- intros _. cbn. destruct e; done.
    + assert (load_data_try (Contents d0)
              = ([StError "Column 'Year' not found in the dataset. Please check your CSV."],
                 Raise StopException)) as Htry.
      { unfold load_data_try, read_csv, lift.
        unfold mbind at 1. unfold M_bind at 1. cbn beta iota.
        rewrite bool_decide_false by done. reflexivity. }
      unfold load_data. rewrite Htry. cbn. split; [|done].
      intros _. right. left. eauto.
Qed.

Lemma load_data_outcome file :
  (∃ ws d, load_data file = (ws, Ok d) ∧ forallb is_warning ws = true) ∨
  (∃ ws msg, load_data file = (ws ++ [StError msg], Raise StopException) ∧
             forallb is_warning ws = true).
Proof.
  destruct file as [|msg|d0].
  - right. exists [], "Error: 'final_renewables_dataset.csv' not found. Please ensure it's in the same directory as app.py.". done.
  - right. exists []. eexists. split; [reflexivity|done].
  - destruct (decide ("Year" ∈ columns d0)) as [HY|HY].
    + destruct (load_data_try_Contents d0 HY) as (o & Hw & Htry).
      unfold load_data. rewrite Htry.
      destruct (mapM_result year_cell (column "Year" d0)) as [ys|e] eqn:Hys.
      * destruct (filter _ ["Entity"; "Code"; "Year"]) eqn:Hm; cbn.
        -- left. eauto.
        -- right. exists o. eexists. split; [reflexivity|done].
      * apply mapM_result_Raise in Hys as (v & _ & Hv).
        assert (is_Exception e = true ∧ e ≠ FileNotFoundError) as (He1 & He2).
        { unfold year_cell, astype_int in Hv.
          destruct (fillna _ _); try discriminate; injection Hv as <-; done. }
        right. exists []. eexists. cbn. destruct e; try done; split; done.
    + right. exists []. eexists.
      unfold load_data, load_data_try, read_csv, lift.
      unfold mbind at 1. unfold M_bind at 1. cbn beta iota.
      rewrite bool_decide_false by done. split; [reflexivity|done].
Qed.

(** Claim C5.  [load_data] halts the script exactly when the file is
    absent, the [Year] column is absent, or the body of its [try] raises
    another exception.  When it halts, the page ends with the error
    message, with nothing but warnings before it, and neither script
    shows anything after it.  Otherwise it returns a table, with nothing
    but warnings on the page: no table comes with a halt. *)
Theorem load_data_fatal file :
  (snd (load_data file) = Raise StopException ↔
     file = Absent ∨
     (∃ d0, file = Contents d0 ∧ "Year" ∉ columns d0) ∨
     (∃ e, is_Exception e = true ∧ e ≠ FileNotFoundError ∧
           snd (load_data_try file) = Raise e))
  ∧ (snd (load_data file) = Raise StopException →
       (∃ ws msg, fst (load_data file) = ws ++ [StError msg] ∧
                  forallb is_warning ws = true)
       ∧ ∀ year country,
           App.script file year country = (fst (load_data file), Raise StopException)
           ∧ Checkpoint.script file year country
             = (fst (load_data file), Raise StopException))
  ∧ ((∃ d, snd (load_data file) = Ok d ∧ forallb is_warning (fst (load_data file)) = true)
     ∨ snd (load_data file) = Raise StopException).
Proof.
  split; [apply load_data_halts|]. split.
  - intros Hstop.
    destruct (load_data_outcome file) as [(ws & d & H & Hw)|(ws & msg & H & Hw)].
    { rewrite H in Hstop. discriminate. }
    split; [rewrite H; eauto|].
    intros year country. unfold App.script, Checkpoint.script.
    rewrite H. done.
  - destruct (load_data_outcome file) as [(ws & d & H & Hw)|(ws & msg & H & Hw)];
      rewrite H; eauto.
Qed.

(** Claim C4.  Every row of a table returned by [load_data] has its
    [Entity], [Code] and [Year]: the rows returned are the cleaned rows
    of the file that have all three, in the order of the file, and the
    others are dropped. *)
Theorem loaded_rows_identified file out d :
  load_data file = (out, Ok d) →
  Forall (λ r, cell r "Entity" ≠ NaN ∧ cell r "Code" ≠ NaN ∧ cell r "Year" ≠ NaN)
         (rows d)
  ∧ ∃ d0 ys,
      file = Contents d0 ∧
      mapM_result year_cell (column "Year" d0) = Ok ys ∧
      rows d = List.filter
                 (λ r, notna (cell r "Entity") && notna (cell r "Code")
                       && notna (cell r "Year"))
                 (zip_with (λ r y, clean_row (filter (λ c, c ∈ columns d0) numeric_cols) y r)
                           (rows d0) ys).
Proof.
  intros (d0 & ys & -> & HY & Hys & -> & Hw & Hcols)%load_data_Ok. split.
  - apply Forall_forall. intros r Hr.
    apply cleaned_row_cells in Hr as (H1 & H2 & H3).
    repeat split; intros E; rewrite E in *; discriminate.
  - exists d0, ys. repeat split; [done|].
    unfold cleaned. cbn [rows]. apply filter_ext. intros r.
    cbn. by rewrite andb_true_r, andb_assoc.
Qed.

Lemma loaded_rows_identified_witness :
  Forall (λ r, cell r "Entity" ≠ NaN ∧ cell r "Code" ≠ NaN ∧ cell r "Year" ≠ NaN)
         (rows (loaded years_example))
  ∧ ∃ d0 ys,
      years_example = Contents d0 ∧
      mapM_result year_cell (column "Year" d0) = Ok ys ∧
      rows (loaded years_example)
      = List.filter
          (λ r, notna (cell r "Entity") && notna (cell r "Code")
                && notna (cell r "Year"))
          (zip_with (λ r y, clean_row (filter (λ c, c ∈ columns d0) numeric_cols) y r)
                    (rows d0) ys).
Proof.
  apply (loaded_rows_identified years_example (fst (load_data years_example))).
  vm_compute. reflexivity.
Defined.

(** Claim C1, at its failing input.  For the year fields 2020, bad and
    the empty field the loader stores the years 2020, 0 and 0, as the
    claim says, and then returns all three rows: the rows whose year was
    unparseable are not excluded by the later [dropna]. *)
Theorem unparseable_years_kept :
  column "Year" (loaded years_example) = [Int 2020; Int 0; Int 0]
  ∧ column "Entity" (loaded years_example) = [Str "Aland"; Str "Borduria"; Str "Cascadia"]
  ∧ snd (load_data years_example) = Ok (loaded years_example).
Proof. vm_compute. done. Qed.

Lemma lookup_foldr_delete (m : gmap string value) cs c :
  foldr delete m cs !! c = if decide (c ∈ cs) then None else m !! c.
Proof.
  induction cs as [|c' cs IH]; cbn.
  - rewrite decide_False; [done|]. apply not_elem_of_nil.
  - destruct (decide (c' = c)) as [->|Hne].
    + rewrite lookup_delete_eq. rewrite decide_True; [done|]. by left.
    + rewrite lookup_delete_ne by done. rewrite IH.
      destruct (decide (c ∈ cs)).
      * rewrite decide_True; [done|]. by right.
      * rewrite decide_False; [done|]. rewrite elem_of_cons. by intros [|].
Qed.

Lemma lookup_foldl_coerce (m : gmap string value) cs c :
  c ∉ cs →
  foldl (λ r c, <[c := to_numeric (cell r c)]> r) m cs !! c = m !! c.
Proof.
  revert m. induction cs as [|c' cs IH]; intros m Hc; cbn; [done|].
  rewrite not_elem_of_cons in Hc. destruct Hc as [Hne Hc].
  rewrite IH by done. by rewrite lookup_insert_ne.
Qed.

Lemma clean_row_other present y r c :
  c ∉ legacy_columns → c ∉ present → c ≠ "Year" →
  cell (clean_row present y r) c = cell r c.
Proof.
  intros H1 H2 H3. unfold cell, clean_row.
  rewrite lookup_foldr_delete, decide_False by done.
  rewrite lookup_foldl_coerce by done. by rewrite lookup_insert_ne.
Qed.

Lemma clean_row_year present y r :
  present ⊆ numeric_cols →
  cell (clean_row present y r) "Year" = y.
Proof.
  intros Hp. unfold cell, clean_row.
  rewrite lookup_foldr_delete, decide_False.
  2:{ apply (bool_decide_unpack _). by vm_compute. }
  rewrite lookup_foldl_coerce.
  2:{ intros H%Hp. revert H. apply (bool_decide_unpack _). by vm_compute. }
  by rewrite lookup_insert_eq.
Qed.

Lemma present_numeric (cols : list string) :
  filter (λ c, c ∈ cols) numeric_cols ⊆ numeric_cols.
Proof. intros c [_ ?]%list_elem_of_filter. done. Qed.

Lemma Int_inj a b : Int a = Int b → a = b.
Proof. by intros [= ?]. Qed.

Lemma loaded_year_cells file out d :
  load_data file = (out, Ok d) →
  Forall (λ r, ∃ z, cell r "Year" = Int z) (rows d).
Proof.
  intros (d0 & ys & -> & HY & Hys & -> & Hw & Hcols)%load_data_Ok.
  apply mapM_result_Ok in Hys.
  assert (Forall (λ y, ∃ z, y = Int z) ys) as Hint.
  { clear -Hys. induction Hys as [|v y l ys Hy _ IH]; constructor; [|done].
    by eapply year_cell_Int. }
  unfold cleaned. cbn [rows]. apply Forall_forall. intros r Hr.
  apply list_elem_of_In, filter_In in Hr as [Hr _]. apply list_elem_of_In in Hr.
  apply elem_of_zip_with in Hr as (r0 & y & -> & _ & Hy).
  rewrite clean_row_year by apply present_numeric.
  by eapply Forall_forall in Hint.
Qed.

Lemma compare_Int a b : compare_value true (Int a) (Int b) = (a ?= b)%Z.
Proof. cbn. unfold Qcompare. cbn. by rewrite !Z.mul_1_r. Qed.

Lemma value_eqb_Int a b : value_eqb (Int a) (Int b) = true ↔ a = b.
Proof.
  unfold value_eqb. rewrite compare_Int.
  destruct (Z.compare_spec a b); split; try done; lia.
Qed.

Lemma py_int_Int z : py_int (Int z) = Ok z.
Proof. cbn. by rewrite Z.quot_1_r. Qed.

Lemma py_min_Int l :
  l ≠ [] → Forall is_Int l →
  ∃ z, py_min l = Ok (Int z) ∧ Int z ∈ l ∧ ∀ w, Int w ∈ l → (z ≤ w)%Z.
Proof.
  destruct l as [|v l]; [done|]. intros _ Hl.
  apply Forall_cons in Hl as [[m ->] Hl]. cbn [py_min].
  enough (∀ m, ∃ z, foldl (λ m x, match compare_value true x m with Lt => x | _ => m end)
                      (Int m) l = Int z
                    ∧ (z = m ∨ Int z ∈ l) ∧ (z ≤ m)%Z ∧ ∀ w, Int w ∈ l → (z ≤ w)%Z) as H.
  { destruct (H m) as (z & -> & Hz & Hzm & Hmin). exists z. split; [done|]. split.
    - destruct Hz as [->|?]; [by left|by right].
    - intros w [->%Int_inj|?]%elem_of_cons; [done|by apply Hmin]. }
  clear m. induction Hl as [|v l [x ->] _ IH]; intros m; cbn [foldl].
  - exists m. split; [done|]. split; [by left|]. split; [lia|].
    intros w Hw. by apply elem_of_nil in Hw.
  - rewrite compare_Int. destruct (Z.compare_spec x m) as [->|Hlt|Hgt].
    + destruct (IH m) as (z & -> & Hz & Hzm & Hmin). exists z. split; [done|].
      split; [destruct Hz; [by left|right; by right]|]. split; [done|].
      intros w [->%Int_inj|?]%elem_of_cons; [done|by apply Hmin].
    + destruct (IH x) as (z & -> & Hz & Hzm & Hmin). exists z. split; [done|].
      split; [right; destruct Hz as [->|]; [by left|by right]|]. split; [lia|].
      intros w [->%Int_inj|?]%elem_of_cons; [done|by apply Hmin].
    + destruct (IH m) as (z & -> & Hz & Hzm & Hmin). exists z. split; [done|].
      split; [destruct Hz; [by left|right; by right]|]. split; [done|].
      intros w [->%Int_inj|?]%elem_of_cons; [lia|by apply Hmin].
Qed.

Lemma py_max_Int l :
  l ≠ [] → Forall is_Int l →
  ∃ z, py_max l = Ok (Int z) ∧ Int z ∈ l ∧ ∀ w, Int w ∈ l → (w ≤ z)%Z.
Proof.
  destruct l as [|v l]; [done|]. intros _ Hl.
  apply Forall_cons in Hl as [[m ->] Hl]. cbn [py_max].
  enough (∀ m, ∃ z, foldl (λ m x, match compare_value true x m with Gt => x | _ => m end)
                      (Int m) l = Int z
                    ∧ (z = m ∨ Int z ∈ l) ∧ (m ≤ z)%Z ∧ ∀ w, Int w ∈ l → (w ≤ z)%Z) as H.
  { destruct (H m) as (z & -> & Hz & Hzm & Hmin). exists z. split; [done|]. split.
    - destruct Hz as [->|?]; [by left|by right].
    - intros w [->%Int_inj|?]%elem_of_cons; [done|by apply Hmin]. }
  clear m. induction Hl as [|v l [x ->] _ IH]; intros m; cbn [foldl].
  - exists m. split; [done|]. split; [by left|]. split; [lia|].
    intros w Hw. by apply elem_of_nil in Hw.
  - rewrite compare_Int. destruct (Z.compare_spec x m) as [->|Hlt|Hgt].
    + destruct (IH m) as (z & -> & Hz & Hzm & Hmin). exists z. split; [done|].
      split; [destruct Hz; [by left|right; by right]|]. split; [done|].
      intros w [->%Int_inj|?]%elem_of_cons; [done|by apply Hmin].
    + destruct (IH m) as (z & -> & Hz & Hzm & Hmin). exists z. split; [done|].
      split; [destruct Hz; [by left|right; by right]|]. split; [done|].
      intros w [->%Int_inj|?]%elem_of_cons; [lia|by apply Hmin].
    + destruct (IH x) as (z & -> & Hz & Hzm & Hmin). exists z. split; [done|].
      split; [right; destruct Hz as [->|]; [by left|by right]|]. split; [lia|].
      intros w [->%Int_inj|?]%elem_of_cons; [done|by apply Hmin].
Qed.

Lemma insert_sorted_Permutation {A} (cmp : A → A → comparison) x l :
  insert_sorted cmp x l ≡ₚ x :: l.
Proof.
  induction l as [|y l IH]; cbn; [done|].
  destruct (cmp y x); try done. rewrite IH. apply Permutation_swap.
Qed.

Lemma stable_sort_Permutation {A} (cmp : A → A → comparison) l :
  stable_sort cmp l ≡ₚ l.
Proof.
  induction l as [|x l IH]; cbn; [done|].
  rewrite insert_sorted_Permutation. by rewrite IH.
Qed.

Lemma unique_subseteq l : unique l ⊆ l.
Proof.
  induction l as [|v l IH]; cbn; [done|].
  intros x [->|Hx]%elem_of_cons; [by left|].
  apply list_elem_of_In, filter_In in Hx as [Hx%list_elem_of_In _]. right. by apply IH.
Qed.

Lemma unique_Int l z :
  Forall is_Int l → Int z ∈ l → Int z ∈ unique l.
Proof.
  induction 1 as [|v l [m ->] _ IH]; cbn; [done|].
  intros [Hz|Hz]%elem_of_cons.
  - rewrite Hz. by left.
  - destruct (decide (m = z)) as [->|Hne]; [by left|]. right.
    apply list_elem_of_In, filter_In. split; [by apply list_elem_of_In, IH|].
    apply negb_true_iff, not_true_iff_false. by rewrite value_eqb_Int.
Qed.

Lemma year_bounds_loaded file out d :
  load_data file = (out, Ok d) → rows d ≠ [] →
  ∃ lo hi, year_bounds d = Ok (lo, hi)
           ∧ (∃ r, r ∈ rows d ∧ cell r "Year" = Int lo)
           ∧ (∃ r, r ∈ rows d ∧ cell r "Year" = Int hi)
           ∧ ∀ r z, r ∈ rows d → cell r "Year" = Int z → (lo ≤ z ≤ hi)%Z.
Proof.
  intros Hload Hne.
  pose proof (loaded_year_cells _ _ _ Hload) as Hint.
  apply load_data_Ok in Hload as (d0 & ys & -> & HY & Hys & Hd & Hw & Hcols).
  assert ("Year" ∈ columns d) as HYd.
  { rewrite !Forall_cons in Hcols. tauto. }
  unfold year_bounds, sorted_unique, require.
  replace (filter (λ c, c ∉ columns d) ["Year"]) with (@nil string).
  2:{ rewrite filter_cons_False; [done|]. by intros []. }
  cbn [mbind result_bind].
  set (years := stable_sort _ _).
  assert (∀ x, x ∈ years ↔ x ∈ unique (List.filter notna (column "Year" d))) as Hyears.
  { intros x. unfold years. by rewrite stable_sort_Permutation. }
  assert (Forall is_Int (column "Year" d)) as Hcol.
  { unfold column. apply Forall_fmap. eapply Forall_impl; [exact Hint|]. done. }
  assert (List.filter notna (column "Year" d) = column "Year" d) as Hfil.
  { clear -Hcol. induction Hcol as [|v l [z ->] _ IH]; cbn; [done|]. by rewrite IH. }
  rewrite Hfil in Hyears.
  assert (∀ z, Int z ∈ years ↔ ∃ r, r ∈ rows d ∧ cell r "Year" = Int z) as Hmem.
  { intros z. rewrite Hyears. split.
    - intros H%unique_subseteq. unfold column in H.
      apply list_elem_of_fmap in H as (r & Hr & ?). eauto.
    - intros (r & Hr & Hz). apply unique_Int; [done|]. unfold column.
      apply list_elem_of_fmap. eauto. }
  assert (Forall is_Int years) as Hyint.
  { apply Forall_forall. intros x Hx%Hyears%unique_subseteq.
    by eapply Forall_forall in Hcol. }
  assert (years ≠ []) as Hyne.
  { assert (∃ r, r ∈ rows d) as [r Hin].
    { clear -Hne. destruct (rows d) as [|r rs]; [done|]. exists r. by left. }
    pose proof (proj1 (Forall_forall _ _) Hint r Hin) as [z Hz].
    assert (Int z ∈ years) as Hzy by (apply Hmem; eauto).
    intros E. rewrite E in Hzy. by apply elem_of_nil in Hzy. }
  destruct (py_min_Int years Hyne Hyint) as (lo & -> & Hlo & Hmin).
  destruct (py_max_Int years Hyne Hyint) as (hi & -> & Hhi & Hmax).
  cbn [mbind result_bind]. rewrite !py_int_Int. cbn [mbind result_bind].
  exists lo, hi. split; [done|]. split; [by apply Hmem|]. split; [by apply Hmem|].
  intros r z Hr Hz. assert (Int z ∈ years) by (apply Hmem; eauto).
  split; [by apply Hmin|by apply Hmax].
Qed.

(** Claim C9 fails as stated: a file with an unparseable year and the
    year -3 loads, and the minimum handed to the year slider is -3. *)
Lemma minimum_year_below_zero :
  (∃ d0 r0, negative_year_example = Contents d0 ∧ (r0 ∈ rows d0) ∧
            cell r0 "Entity" ≠ NaN ∧ cell r0 "Code" ≠ NaN ∧
            unparseable (cell r0 "Year") = true)
  ∧ snd (load_data negative_year_example) = Ok (loaded negative_year_example)
  ∧ year_bounds (loaded negative_year_example) = Ok ((-3)%Z, 0%Z).
Proof.
  split; [|by vm_compute]. eexists _, _. split; [reflexivity|].
  split; [by left|]. by vm_compute.
Qed.

Lemma clean_row_key d0 y r c :
  c ∈ ["Entity"; "Code"] →
  cell (clean_row (filter (λ c, c ∈ columns d0) numeric_cols) y r) c = cell r c.
Proof.
  intros Hc.
  assert ((c ∉ legacy_columns) ∧ (c ∉ numeric_cols) ∧ c ≠ "Year") as (H1 & H2 & H3).
  { rewrite !elem_of_cons, elem_of_nil in Hc.
    destruct Hc as [->|[->|[]]]; repeat split;
      apply (bool_decide_unpack _); by vm_compute. }
  apply clean_row_other; [done| |done].
  by intros Hp%present_numeric.
Qed.

(** Claim C9, as amended.  A row of the file with [Entity] and [Code]
    present and an unparseable [Year] is in the loaded table, cleaned
    and with the year 0; the minimum handed to the year slider is then
    at most 0, and it is 0 when no row of the table has a negative
    year. *)
Theorem unparseable_year_becomes_zero d0 r0 out d :
  r0 ∈ rows d0 →
  cell r0 "Entity" ≠ NaN → cell r0 "Code" ≠ NaN →
  unparseable (cell r0 "Year") = true →
  load_data (Contents d0) = (out, Ok d) →
  (∃ r, r ∈ rows d ∧
        r = clean_row (filter (λ c, c ∈ columns d0) numeric_cols) (Int 0) r0 ∧
        cell r "Year" = Int 0 ∧
        cell r "Entity" = cell r0 "Entity" ∧ cell r "Code" = cell r0 "Code")
  ∧ ∃ lo hi, year_bounds d = Ok (lo, hi) ∧ (lo ≤ 0)%Z ∧
             (Forall (λ r, ∀ z, cell r "Year" = Int z → (0 ≤ z)%Z) (rows d) → lo = 0%Z).
Proof.
  intros Hr0 HE HC HY Hload.
  set (present := filter (λ c, c ∈ columns d0) numeric_cols).
  set (r := clean_row present (Int 0) r0).
  assert (cell r "Year" = Int 0) as H1 by (apply clean_row_year, present_numeric).
  assert (cell r "Entity" = cell r0 "Entity") as H2 by (apply clean_row_key; by left).
  assert (cell r "Code" = cell r0 "Code") as H3 by (apply clean_row_key; right; by left).
  assert (r ∈ rows d) as Hin.
  { pose proof Hload as (d0' & ys & [= <-] & _ & Hys & -> & _)%load_data_Ok.
    unfold cleaned. cbn [rows]. apply list_elem_of_In, filter_In. split.
    - apply list_elem_of_In. apply mapM_result_Ok in Hys.
      apply list_elem_of_lookup in Hr0 as [i Hi].
      assert (column "Year" d0 !! i = Some (cell r0 "Year")) as Hv.
      { unfold column. by rewrite list_lookup_fmap, Hi. }
      destruct (Forall2_lookup_l _ _ _ _ _ Hys Hv) as (y & Hy & Hcell).
      rewrite year_cell_unparseable in Hcell by done. injection Hcell as <-.
      apply list_elem_of_lookup. exists i.
      by rewrite lookup_zip_with, Hi, Hy.
    - cbn [forallb]. fold present. fold r. rewrite H1, H2, H3.
      destruct (cell r0 "Entity"), (cell r0 "Code"); done. }
  split; [exists r; done|].
  destruct (year_bounds_loaded _ _ _ Hload) as (lo & hi & Hb & (rlo & Hrlo & Hlo) & _ & Hrange).
  { intros E. rewrite E in Hin. by apply elem_of_nil in Hin. }
  exists lo, hi. split; [done|]. split.
  - by apply (Hrange r 0%Z Hin H1).
  - intros Hpos. pose proof (proj1 (Forall_forall _ _) Hpos rlo Hrlo lo Hlo).
    pose proof (Hrange r 0%Z Hin H1). lia.
Qed.

Lemma unparseable_year_becomes_zero_witness :
  ∃ out d r0,
    load_data (Contents bad_year_frame) = (out, Ok d) ∧
    ((∃ r, r ∈ rows d ∧
           r = clean_row (filter (λ c, c ∈ columns bad_year_frame) numeric_cols) (Int 0) r0 ∧
           cell r "Year" = Int 0 ∧
           cell r "Entity" = cell r0 "Entity" ∧ cell r "Code" = cell r0 "Code")
     ∧ ∃ lo hi, year_bounds d = Ok (lo, hi) ∧ (lo ≤ 0)%Z ∧
                (Forall (λ r, ∀ z, cell r "Year" = Int z → (0 ≤ z)%Z) (rows d) → lo = 0%Z)).
Proof.
  eexists _, _, _. split; [by vm_compute|].
  eapply (unparseable_year_becomes_zero bad_year_frame).
  - by left.
  - by vm_compute.
  - by vm_compute.
  - by vm_compute.
  - by vm_compute.
Defined.

(** ** Numeric columns of a loaded frame *)

Lemma to_numeric_numeric v : numeric (to_numeric v).
Proof.
  intros s. destruct v as [|t|q|b]; cbn; try done.
  unfold parse_number. destruct (read_sign _) as [neg r].
  destruct (_ || _); [done|]. destruct (String.eqb _ "nan"); [done|].
  by destruct (read_decimal r).
Qed.

Lemma to_numeric_id v : numeric v → to_numeric v = v.
Proof. destruct v; try done. intros H. by destruct (H s). Qed.

Lemma lookup_foldl_coerce_in (m : gmap string value) cs c :
  c ∈ cs →
  ∃ v, foldl (λ r c, <[c := to_numeric (cell r c)]> r) m cs !! c = Some (to_numeric v).
Proof.
  revert m. induction cs as [|c' cs IH] using rev_ind; intros m Hc.
  - by apply elem_of_nil in Hc.
  - rewrite foldl_app. cbn [foldl].
    destruct (decide (c' = c)) as [->|Hne].
    + rewrite lookup_insert_eq. eauto.
    + rewrite lookup_insert_ne by done. apply IH.
      apply elem_of_app in Hc as [?|Hc]; [done|].
      apply list_elem_of_singleton in Hc. congruence.
Qed.

Lemma loaded_numeric_lookup file out d r c :
  load_data file = (out, Ok d) →
  r ∈ rows d → c ∈ numeric_cols → c ∈ columns d →
  ∃ v, r !! c = Some v ∧ numeric v.
Proof.
  intros (d0 & ys & -> & HY & Hys & -> & Hw & Hcols)%load_data_Ok Hr Hc Hcd.
  unfold cleaned in Hr, Hcd. cbn [rows columns] in Hr, Hcd.
  apply list_elem_of_filter in Hcd as [Hleg Hc0].
  apply list_elem_of_In, filter_In in Hr as [Hr _]. apply list_elem_of_In in Hr.
  apply elem_of_zip_with in Hr as (r0 & y & -> & _ & _).
  unfold clean_row. rewrite lookup_foldr_delete, decide_False by done.
  destruct (lookup_foldl_coerce_in (<["Year" := y]> r0)
              (filter (λ c, c ∈ columns d0) numeric_cols) c) as [v ->].
  { by apply list_elem_of_filter. }
  eexists. split; [done|]. apply to_numeric_numeric.
Qed.

Lemma loaded_numeric file out d r c :
  load_data file = (out, Ok d) →
  r ∈ rows d → c ∈ numeric_cols → c ∈ columns d →
  numeric (cell r c).
Proof.
  intros Hload Hr Hc Hcd.
  destruct (loaded_numeric_lookup _ _ _ _ _ Hload Hr Hc Hcd) as (v & Hv & Hnum).
  unfold cell. by rewrite Hv.
Qed.

(** ** Views of [app.py] *)

Lemma series_of_lookup df r c :
  series_of df r !! c = if decide (c ∈ columns df) then Some (cell r c) else None.
Proof.
  unfold series_of. induction (columns df) as [|c' cs IH]; cbn.
  - rewrite lookup_empty. rewrite decide_False; [done|]. apply not_elem_of_nil.
  - destruct (decide (c' = c)) as [->|Hne].
    + rewrite lookup_insert_eq. rewrite decide_True; [done|]. by left.
    + rewrite lookup_insert_ne by done. rewrite IH.
      destruct (decide (c ∈ cs)).
      * rewrite decide_True; [done|]. by right.
      * rewrite decide_False; [done|]. rewrite elem_of_cons. by intros [|].
Qed.

Lemma get_series_of df r c dflt :
  get (series_of df r) c dflt = if decide (c ∈ columns df) then cell r c else dflt.
Proof. unfold get. rewrite series_of_lookup. by destruct (decide _). Qed.

Lemma where_Ok cs p df d :
  where_ cs p df = Ok d → d = select p df ∧ Forall (λ c, c ∈ columns df) cs.
Proof.
  unfold where_, require.
  destruct (filter (λ c, c ∉ columns df) cs) eqn:Hm; [|discriminate].
  intros [= <-]. split; [done|]. apply Forall_forall. intros c Hc.
  destruct (decide (c ∈ columns df)) as [|Hn]; [done|].
  assert (c ∈ filter (λ c, c ∉ columns df) cs) as H by (by apply list_elem_of_filter).
  rewrite Hm in H. by apply elem_of_nil in H.
Qed.

Lemma metrics_cards country_row v1 v2 v3 v4 v5 :
  mapM_result (App.metric_value country_row) metric_columns = Ok [v1; v2; v3; v4; v5] →
  App.metrics country_row
  = ([StMetric "Total Solar (GW)" v1; StMetric "Total Wind (GW)" v2;
      StMetric "Total Hydro (GW)" v3; StMetric "Total Renewable (GW)" v4;
      StMetric "Per Capita Capacity (kW)" v5], Ok tt).
Proof.
  unfold metric_columns, App.metrics. cbn [mapM_result].
  destruct (App.metric_value country_row "Solar_GW"); [|discriminate].
  destruct (App.metric_value country_row "Wind_GW"); [|discriminate].
  destruct (App.metric_value country_row "Hydro_GW"); [|discriminate].
  destruct (App.metric_value country_row "Total_GW"); [|discriminate].
  destruct (App.metric_value country_row "Capacity_per_Capita_kW"); [|discriminate].
  by intros [= -> -> -> -> ->].
Qed.

(** Claim C2, as amended.  The text of a metric card is the cell of the
    matched row under the card's column, formatted to two decimals; 0 is
    substituted, and 0.00 shown, only when the table has no such column.
    A missing cell of a column that is present is shown as nan. *)
Theorem metric_value_shown d year country filtered r rest col :
  App.filtered_country_data d year country = Ok filtered →
  rows filtered = r :: rest →
  App.metric_value (series_of filtered r) col
  = (if decide (col ∈ columns d) then format_fixed 2 (cell r col) else Ok "0.00")
  ∧ (col ∈ columns d → cell r col = NaN →
     App.metric_value (series_of filtered r) col = Ok "nan").
Proof.
  intros [-> _]%where_Ok _. unfold App.metric_value.
  rewrite get_series_of. cbn [select columns].
  destruct (decide (col ∈ columns d)); [|done].
  split; [done|]. by intros _ ->.
Qed.

(** Claim C2 fails as stated: the matched row of this loaded table has
    no solar figure, and its first metric card reads nan, not 0.00. *)
Lemma missing_cell_shows_nan :
  snd (load_data missing_solar_example) = Ok (loaded missing_solar_example)
  ∧ (∃ filtered r,
       App.filtered_country_data (loaded missing_solar_example) 2023 "Testland"
       = Ok filtered
       ∧ rows filtered = [r] ∧ cell r "Solar_GW" = NaN
       ∧ App.metric_value (series_of filtered r) "Solar_GW" = Ok "nan")
  ∧ head (App.render (loaded missing_solar_example) 2023 "Testland").1
    = Some (StMetric "Total Solar (GW)" "nan").
Proof.
  split; [by vm_compute|]. split; [|by vm_compute].
  eexists _, _. split; [by vm_compute|]. split; [reflexivity|]. by vm_compute.
Qed.

Lemma metric_value_shown_witness :
  ∃ filtered r,
    App.filtered_country_data (loaded missing_solar_example) 2023 "Testland" = Ok filtered
    ∧ rows filtered = [r]
    ∧ (App.metric_value (series_of filtered r) "Solar_GW"
       = (if decide ("Solar_GW" ∈ columns (loaded missing_solar_example))
          then format_fixed 2 (cell r "Solar_GW") else Ok "0.00")
       ∧ ("Solar_GW" ∈ columns (loaded missing_solar_example) → cell r "Solar_GW" = NaN →
          App.metric_value (series_of filtered r) "Solar_GW" = Ok "nan")).
Proof.
  eexists _, _. split; [by vm_compute|]. split; [reflexivity|].
  eapply (metric_value_shown (loaded missing_solar_example) 2023 "Testland").
  - by vm_compute.
  - reflexivity.
Defined.

Lemma dropna_Ok cs df d :
  dropna cs df = Ok d →
  d = select (λ r, forallb (λ c, notna (cell r c)) cs) df
  ∧ filter (λ c, c ∉ columns df) cs = [].
Proof.
  unfold dropna. destruct (filter _ cs); [|discriminate]. by intros [= <-].
Qed.

Lemma df_comp_any_year d y1 y2 d1 :
  App.df_comp d y1 = Ok d1 → ∃ d2, App.df_comp d y2 = Ok d2.
Proof.
  unfold App.df_comp, where_. destruct (require _ d); [|discriminate].
  cbn [mbind result_bind]. intros [_ Hm]%dropna_Ok.
  unfold dropna. cbn [select columns] in *. rewrite Hm. eauto.
Qed.

(** The checkpoint script shows nothing at all in that case. *)
Lemma checkpoint_comparison_silent d df_2010 :
  Checkpoint.df_year d 2010 = Ok df_2010 →
  rows df_2010 = [] →
  Checkpoint.comparison_view d = ([], Ok tt).
Proof.
  intros H2010 Hempty.
  destruct (df_comp_any_year d 2010 2023 _ H2010) as [d2023 H2023].
  unfold Checkpoint.comparison_view, Checkpoint.year_2010, Checkpoint.year_2023, lift.
  change (Checkpoint.df_year d) with (App.df_comp d) in *.
  rewrite H2010, H2023. unfold mbind, M_bind. cbn beta iota.
  unfold empty. rewrite Hempty. reflexivity.
Qed.

Lemma gt0_positive v : gt0 v = true ↔ positive v.
Proof.
  unfold positive. destruct v as [|s|q|[]]; cbn.
  - split; [done|]. by intros [(? & ? & _)|?].
  - split; [done|]. by intros [(? & ? & _)|?].
  - rewrite negb_true_iff, <-not_true_iff_false, Qle_bool_iff. split.
    + intros H. left. exists q. split; [done|]. by apply Qnot_le_lt.
    + intros [(q' & [= <-] & Hq)|?]; [|done]. by apply Qlt_not_le.
  - split; [done|]. by intros [(? & ? & _)|?].
  - split; [by right|done].
Qed.

Lemma mix_melt (s w h : value) :
  melt [] ["Solar (GW)"; "Wind (GW)"; "Hydro (GW)"] "Source" "Capacity_GW"
       (frame_of_dict [("Solar (GW)", s); ("Wind (GW)", w); ("Hydro (GW)", h)])
  = Ok {| columns := ["Source"; "Capacity_GW"];
          rows := [mix_row "Solar (GW)" s; mix_row "Wind (GW)" w;
                   mix_row "Hydro (GW)" h] |}.
Proof. vm_compute. reflexivity. Qed.

Lemma mix_row_capacity source v : cell (mix_row source v) "Capacity_GW" = v.
Proof. reflexivity. Qed.

Lemma mix_row_source source v : cell (mix_row source v) "Source" = Str source.
Proof. reflexivity. Qed.

Lemma mix_df_rows country_row :
  App.mix_df country_row
  = Ok {| columns := ["Source"; "Capacity_GW"];
          rows := List.filter (λ r, gt0 (cell r "Capacity_GW"))
                    ((λ p, mix_row (fst p) (snd p)) <$> App.mix_data country_row) |}.
Proof.
  unfold App.mix_df, App.mix_data.
  change (columns (frame_of_dict _)) with ["Solar (GW)"; "Wind (GW)"; "Hydro (GW)"].
  rewrite mix_melt. reflexivity.
Qed.

Lemma vadd_positive a v : nonnegative a → positive v → positive (vadd a v).
Proof.
  intros [(p & -> & Hp)| -> ] [(q & -> & Hq)| -> ]; cbn.
  - left. eexists. split; [done|]. lra.
  - by right.
  - by right.
  - by right.
Qed.

Lemma positive_nonnegative v : positive v → nonnegative v.
Proof. intros [(q & -> & Hq)| -> ]; [left|by right]. eexists. split; [done|]. lra. Qed.

Lemma positive_notna v : positive v → notna v = true.
Proof. by intros [(q & -> & Hq)| -> ]. Qed.

Lemma vsum_positive vs :
  vs ≠ [] → Forall positive vs → positive (vsum vs).
Proof.
  intros Hne Hpos. unfold vsum.
  assert (List.filter notna vs = vs) as ->.
  { clear Hne. induction Hpos as [|v l Hv _ IH]; cbn; [done|].
    by rewrite positive_notna, IH. }
  destruct Hpos as [|v vs Hv Hvs]; [done|]. cbn [foldl].
  assert (positive (vadd (Int 0) v)) as Hacc.
  { apply vadd_positive; [|done]. left. exists 0%Q. split; [done|]. lra. }
  clear Hne Hv. revert Hacc. generalize (vadd (Int 0) v).
  induction Hvs as [|w l Hw _ IH]; intros acc Hacc; cbn [foldl]; [done|].
  apply IH. apply vadd_positive; [by apply positive_nonnegative|done].
Qed.

Lemma positive_slices_sum mix :
  Forall (λ r, gt0 (cell r "Capacity_GW") = true) (rows mix) →
  negb (empty mix) && gt0 (vsum (column "Capacity_GW" mix)) = negb (empty mix).
Proof.
  intros Hpos. unfold empty, column. destruct (rows mix) as [|s slices] eqn:Hs; [done|].
  cbn [negb andb]. apply gt0_positive, vsum_positive; [done|].
  apply Forall_fmap. eapply Forall_impl; [exact Hpos|].
  intros x Hx. by apply gt0_positive.
Qed.

Lemma energy_mix_cases country_row mix :
  App.mix_df country_row = Ok mix →
  App.energy_mix country_row
  = if negb (empty mix)
    then ([StChart (Pie mix)], Ok tt)
    else ([StInfo "No renewable energy mix data available for the selected country and year."],
          Ok tt).
Proof.
  intros Hmix. unfold App.energy_mix. rewrite Hmix. unfold lift, mbind, M_bind.
  rewrite positive_slices_sum.
  - by destruct (negb (empty mix)).
  - rewrite mix_df_rows in Hmix.
    apply (f_equal (λ m, match m with Ok d => rows d | Raise _ => [] end)) in Hmix.
    cbn beta iota in Hmix. cbn [rows] in Hmix. rewrite <-Hmix.
    apply Forall_forall. intros x Hx.
    by apply list_elem_of_In, filter_In in Hx as [_ Hx].
Qed.

(** Claim C10.  For the matched row of a loaded table, the frame behind
    the pie chart of [app.py] has a slice for exactly the sources
    (solar, wind, hydro) whose value is strictly positive; a value that
    is zero, negative or missing gives no slice, and so does a column
    the table lacks, which reads as 0.  The chart is drawn when some
    source is strictly positive, and the informational message is shown
    when none is. *)
Theorem energy_mix_positive_sources file out d year country filtered r rest :
  load_data file = (out, Ok d) →
  App.filtered_country_data d year country = Ok filtered →
  rows filtered = r :: rest →
  ∃ mix,
    App.mix_df (series_of filtered r) = Ok mix
    ∧ (∀ source v,
         (∃ slice, slice ∈ rows mix ∧ cell slice "Source" = Str source
                   ∧ cell slice "Capacity_GW" = v)
         ↔ ((source, v) ∈ App.mix_data (series_of filtered r) ∧ positive v))
    ∧ ((∃ source v, (source, v) ∈ App.mix_data (series_of filtered r) ∧ positive v) →
       App.energy_mix (series_of filtered r) = ([StChart (Pie mix)], Ok tt))
    ∧ ((∀ source v, (source, v) ∈ App.mix_data (series_of filtered r) → ¬ positive v) →
       App.energy_mix (series_of filtered r)
       = ([StInfo "No renewable energy mix data available for the selected country and year."],
          Ok tt))
    ∧ App.mix_data (series_of filtered r)
      = [("Solar (GW)", if decide ("Solar_GW" ∈ columns d) then cell r "Solar_GW" else Int 0);
         ("Wind (GW)", if decide ("Wind_GW" ∈ columns d) then cell r "Wind_GW" else Int 0);
         ("Hydro (GW)", if decide ("Hydro_GW" ∈ columns d) then cell r "Hydro_GW" else Int 0)]
    ∧ (∀ source v, (source, v) ∈ App.mix_data (series_of filtered r) → numeric v).
Proof.
  intros Hload [-> _]%where_Ok Hrows.
  assert (r ∈ rows d) as Hr.
  { cbn [select rows] in Hrows.
    assert (r ∈ List.filter (λ r, year_is year r && entity_is country r) (rows d)) as Hr
      by (rewrite Hrows; by left).
    by apply list_elem_of_In, filter_In in Hr as [Hr%list_elem_of_In _]. }
  set (row := series_of _ r).
  eexists. split; [apply mix_df_rows|].
  rewrite (energy_mix_cases row _ (mix_df_rows row)). unfold empty. cbn [rows].
  set (slices := List.filter (λ r : gmap string value, gt0 (cell r "Capacity_GW"))
                   ((λ p, mix_row p.1 p.2) <$> App.mix_data row)).
  assert (∀ slice, slice ∈ slices ↔
            ∃ source v, (source, v) ∈ App.mix_data row ∧ positive v
                        ∧ slice = mix_row source v) as Hin.
  { intros slice. unfold slices. rewrite list_elem_of_In, filter_In, <-list_elem_of_In.
    rewrite list_elem_of_fmap. split.
    - intros [([source v] & -> & Hin) Hpos]. rewrite mix_row_capacity in Hpos.
      exists source, v. by rewrite <-gt0_positive.
    - intros (source & v & Hin & Hpos & ->). rewrite mix_row_capacity. split.
      + by exists (source, v).
      + by apply gt0_positive. }
  split; [|split; [|split; [|split]]].
  - intros source v. split.
    + intros (slice & (s' & v' & Hmem & Hpos & ->)%Hin & Hs & Hv).
      rewrite mix_row_source in Hs. rewrite mix_row_capacity in Hv.
      injection Hs as ->. by subst v'.
    + intros [Hmem Hpos]. exists (mix_row source v). split; [|done].
      apply Hin. eauto.
  - intros (source & v & Hmem & Hpos).
    assert (mix_row source v ∈ slices) as Hs by (apply Hin; eauto).
    destruct slices; [by apply elem_of_nil in Hs|done].
  - intros Hnone. destruct slices as [|slice l]; [done|]. exfalso.
    destruct (proj1 (Hin slice)) as (source & v & Hmem & Hpos & _); [by left|].
    by eapply Hnone.
  - unfold App.mix_data, row. rewrite !get_series_of. reflexivity.
  - intros source v. unfold App.mix_data, row. rewrite !get_series_of.
    cbn [select columns]. rewrite !elem_of_cons, elem_of_nil.
    intros [Hv|[Hv|[Hv|[]]]]; injection Hv as _ ->;
      (destruct (decide _) as [Hc|_]; [|done]);
      (eapply loaded_numeric; [exact Hload|exact Hr| |exact Hc]);
      apply (bool_decide_unpack _); by vm_compute.
Qed.

Lemma energy_mix_positive_sources_witness :
  ∃ filtered r,
    App.filtered_country_data (loaded missing_solar_example) 2023 "Testland" = Ok filtered
    ∧ rows filtered = [r]
    ∧ ∃ mix,
        App.mix_df (series_of filtered r) = Ok mix
        ∧ (∀ source v,
             (∃ slice, slice ∈ rows mix ∧ cell slice "Source" = Str source
                       ∧ cell slice "Capacity_GW" = v)
             ↔ ((source, v) ∈ App.mix_data (series_of filtered r) ∧ positive v))
        ∧ ((∃ source v, (source, v) ∈ App.mix_data (series_of filtered r) ∧ positive v) →
           App.energy_mix (series_of filtered r) = ([StChart (Pie mix)], Ok tt))
        ∧ ((∀ source v, (source, v) ∈ App.mix_data (series_of filtered r) → ¬ positive v) →
           App.energy_mix (series_of filtered r)
           = ([StInfo "No renewable energy mix data available for the selected country and year."],
              Ok tt))
        ∧ App.mix_data (series_of filtered r)
          = [("Solar (GW)",
              if decide ("Solar_GW" ∈ columns (loaded missing_solar_example))
              then cell r "Solar_GW" else Int 0);
             ("Wind (GW)",
              if decide ("Wind_GW" ∈ columns (loaded missing_solar_example))
              then cell r "Wind_GW" else Int 0);
             ("Hydro (GW)",
              if decide ("Hydro_GW" ∈ columns (loaded missing_solar_example))
              then cell r "Hydro_GW" else Int 0)]
        ∧ (∀ source v, (source, v) ∈ App.mix_data (series_of filtered r) → numeric v).
Proof.
  eexists _, _. split; [by vm_compute|]. split; [reflexivity|].
  eapply (energy_mix_positive_sources missing_solar_example
            (load_data missing_solar_example).1
            (loaded missing_solar_example) 2023 "Testland").
  - by vm_compute.
  - by vm_compute.
  - reflexivity.
Defined.

Example energy_mix_drawn :
  (App.row1 (loaded missing_solar_example) 2023 "Testland").1
  = [StMetric "Total Solar (GW)" "nan"; StMetric "Total Wind (GW)" "3.00";
     StMetric "Total Hydro (GW)" "2.00"; StMetric "Total Renewable (GW)" "10.00";
     StMetric "Per Capita Capacity (kW)" "1.50";
     StChart (Pie {| columns := ["Source"; "Capacity_GW"];
                     rows := [mix_row "Wind (GW)" (Int 3); mix_row "Hydro (GW)" (Int 2)] |})].
Proof. by vm_compute. Qed.

(** ** Stable insertion sort *)

Section stable_sort.
Context {A : Type} (cmp : A → A → comparison).
Hypothesis cmp_antisym : ∀ x y, cmp y x = CompOpp (cmp x y).
Hypothesis cmp_trans : ∀ x y z, cmp x y ≠ Gt → cmp y z ≠ Gt → cmp x z ≠ Gt.

Lemma insert_sorted_elem x y l : y ∈ insert_sorted cmp x l ↔ y = x ∨ y ∈ l.
Proof. by rewrite insert_sorted_Permutation, elem_of_cons. Qed.

Lemma insert_sorted_sorted x l :
  StronglySorted (λ a b, cmp a b ≠ Gt) l →
  StronglySorted (λ a b, cmp a b ≠ Gt) (insert_sorted cmp x l).
Proof using cmp_antisym cmp_trans.
  induction 1 as [|y l Hl IH Hy]; cbn.
  - repeat constructor.
  - destruct (cmp y x) eqn:Hyx.
    + assert (cmp x y ≠ Gt) as Hxy by (rewrite cmp_antisym, Hyx; done).
      constructor; [by constructor|]. constructor; [done|].
      eapply Forall_impl; [exact Hy|]. intros z Hz. by eapply cmp_trans.
    + constructor; [done|]. apply Forall_forall. intros z Hz.
      apply insert_sorted_elem in Hz as [->|Hz].
      * by rewrite Hyx.
      * by eapply Forall_forall in Hy.
    + assert (cmp x y ≠ Gt) as Hxy by (rewrite cmp_antisym, Hyx; done).
      constructor; [by constructor|]. constructor; [done|].
      eapply Forall_impl; [exact Hy|]. intros z Hz. by eapply cmp_trans.
Qed.

Lemma stable_sort_sorted l :
  StronglySorted (λ a b, cmp a b ≠ Gt) (stable_sort cmp l).
Proof using cmp_antisym cmp_trans.
  induction l as [|x l IH]; [constructor|].
  change (stable_sort cmp (x :: l)) with (insert_sorted cmp x (stable_sort cmp l)).
  by apply insert_sorted_sorted.
Qed.

(** Rows that are never strictly ordered keep their relative order. *)
Lemma insert_sorted_stable (P : A → bool) x l :
  (∀ y, P x = true → P y = true → cmp y x ≠ Lt) →
  List.filter P (insert_sorted cmp x l) = List.filter P (x :: l).
Proof.
  intros HP. induction l as [|y l IH]; cbn; [done|].
  destruct (cmp y x) eqn:Hyx; cbn; try done.
  rewrite IH. cbn. destruct (P x) eqn:Hx, (P y) eqn:Hy; try done.
  by destruct (HP y).
Qed.

Lemma stable_sort_stable (P : A → bool) l :
  (∀ x y, P x = true → P y = true → cmp y x ≠ Lt) →
  List.filter P (stable_sort cmp l) = List.filter P l.
Proof.
  intros HP. induction l as [|x l IH]; [done|].
  change (stable_sort cmp (x :: l)) with (insert_sorted cmp x (stable_sort cmp l)).
  rewrite insert_sorted_stable by (intros y; apply HP).
  cbn [List.filter]. by rewrite IH.
Qed.
End stable_sort.

(** ** The order on cells *)

Lemma string_compare_refl s : String.compare s s = Eq.
Proof.
  pose proof (String.compare_antisym s s) as H. by destruct (String.compare s s).
Qed.

Lemma string_compare_trans s t u :
  String.compare s t ≠ Gt → String.compare t u ≠ Gt → String.compare s u ≠ Gt.
Proof.
  intros Hst Htu.
  destruct (String.compare s t) eqn:Est; [| |done].
  { by apply String.compare_eq_iff in Est as ->. }
  destruct (String.compare t u) eqn:Etu; [| |done].
  { apply String.compare_eq_iff in Etu as <-. by rewrite Est. }
  apply String_as_OT.cmp_lt in Est, Etu.
  pose proof (String_as_OT.lt_trans _ _ _ Est Etu) as H.
  apply String_as_OT.cmp_lt in H. unfold String_as_OT.cmp in H. by rewrite H.
Qed.

Lemma compare_value_antisym asc a b :
  compare_value asc b a = CompOpp (compare_value asc a b).
Proof.
  destruct a as [|s|p|[]], b as [|t|q|[]], asc; cbn;
    try done; try apply String.compare_antisym;
    try (by rewrite <-Qcompare_antisym).
Qed.

Lemma compare_value_trans asc a b c :
  compare_value asc a b ≠ Gt → compare_value asc b c ≠ Gt →
  compare_value asc a c ≠ Gt.
Proof.
  destruct a as [|s|p|[]], b as [|t|q|[]], c as [|u|r|[]], asc; cbn;
    try done; try apply string_compare_trans;
    rewrite <-?Qle_alt; try (intros; lra).
  - intros H1 H2. eapply string_compare_trans; eauto.
Qed.

Lemma compare_value_flip a b :
  a ≠ NaN → b ≠ NaN → compare_value false a b = compare_value true b a.
Proof. destruct a as [|s|p|[]], b as [|t|q|[]]; done. Qed.

Lemma compare_value_tie asc a b v :
  compare_value true a v = Eq → compare_value true b v = Eq →
  compare_value asc b a = Eq.
Proof.
  destruct a as [|s|p|[]], b as [|t|q|[]], v as [|u|r|[]], asc; cbn; try done.
  - intros ->%String.compare_eq_iff ->%String.compare_eq_iff. apply string_compare_refl.
  - intros ->%String.compare_eq_iff ->%String.compare_eq_iff. apply string_compare_refl.
  - rewrite <-!Qeq_alt. intros H1 H2. by rewrite H1, H2.
  - rewrite <-!Qeq_alt. intros H1 H2. by rewrite H1, H2.
Qed.

Lemma StronglySorted_impl_in {A} (R R' : A → A → Prop) l :
  (∀ x y, x ∈ l → y ∈ l → R x y → R' x y) →
  StronglySorted R l → StronglySorted R' l.
Proof.
  intros HR. induction 1 as [|x l Hl IH Hx]; constructor.
  - apply IH. intros a b Ha Hb. apply HR; by right.
  - apply Forall_forall. intros y Hy. apply HR; [by left|by right|].
    by eapply Forall_forall in Hx.
Qed.

Lemma filter_filter_andb {A} (p q : A → bool) l :
  List.filter q (List.filter p l) = List.filter (λ x, p x && q x) l.
Proof.
  induction l as [|x l IH]; cbn; [done|].
  destruct (p x); cbn; [|done]. destruct (q x); by rewrite IH.
Qed.

Lemma require_Ok cs df : Forall (λ c, c ∈ columns df) cs → require cs df = Ok tt.
Proof.
  intros H. unfold require.
  replace (filter (λ c, c ∉ columns df) cs) with (@nil string); [done|].
  symmetry. induction H as [|c cs Hc _ IH]; [done|].
  by rewrite filter_cons_False by (by intros []).
Qed.

Lemma sort_values_Ok by_ asc df :
  by_ ∈ columns df →
  sort_values by_ asc df
  = Ok {| columns := columns df;
          rows := stable_sort (λ r1 r2, compare_value asc (cell r1 by_) (cell r2 by_))
                              (rows df) |}.
Proof.
  intros H. unfold sort_values. rewrite require_Ok; [done|]. by repeat constructor.
Qed.

Lemma dropna_columns cs df d : dropna cs df = Ok d → Forall (λ c, c ∈ columns d) cs.
Proof.
  intros [-> Hm]%dropna_Ok. cbn [select columns]. apply Forall_forall. intros c Hc.
  destruct (decide (c ∈ columns df)) as [|Hn]; [done|].
  assert (c ∈ filter (λ c, c ∉ columns df) cs) as H by (by apply list_elem_of_filter).
  rewrite Hm in H. by apply elem_of_nil in H.
Qed.

Example leaderboard_fifteen_countries :
  length (rows leaderboard_latest) = 15
  ∧ (nlargest 10 "Total_GW" leaderboard_latest
       ≫= λ top, Ok (column "Entity" top, column "Total_GW" top))
    = Ok ([Str "Orsinia"; Str "Markovia"; Str "Borduria"; Str "Drusselstein";
           Str "Illyria"; Str "Freedonia"; Str "Genovia"; Str "Jumbostan";
           Str "Aland"; Str "Kamistan"],
          [Int 11; Int 10; Int 9; Int 9; Int 8; Int 7; Int 7; Int 6; Int 5; Int 4])
  ∧ (Checkpoint.top_10 (loaded leaderboard_example) 2023
       ≫= λ top, Ok (column "Entity" top))
    = Ok [Str "Kamistan"; Str "Aland"; Str "Jumbostan"; Str "Freedonia";
          Str "Genovia"; Str "Illyria"; Str "Borduria"; Str "Drusselstein";
          Str "Markovia"; Str "Orsinia"].
Proof. by vm_compute. Qed.

(** ** The two scripts side by side *)

Lemma assign_to_numeric_id c d' :
  c ∈ columns d' →
  Forall (λ r, ∃ v, r !! c = Some v ∧ numeric v) (rows d') →
  assign c (to_numeric <$> column c d') d' = d'.
Proof.
  intros Hc Hrows. destruct d' as [cols rs]. unfold assign, column. cbn [columns rows] in *.
  rewrite bool_decide_true by done. f_equal.
  rewrite <-list_fmap_compose, zip_with_fmap_r, zip_with_diag.
  induction Hrows as [|r rs (v & Hv & Hnum) _ IH]; [done|].
  rewrite fmap_cons, IH. f_equal. cbn. unfold cell. rewrite Hv. cbn.
  rewrite to_numeric_id by done. by apply insert_id.
Qed.

Lemma comparison_data_agree file out d top10 :
  load_data file = (out, Ok d) →
  App.comparison_data d top10 = Checkpoint.comparison_data d top10.
Proof.
  intros Hload. unfold App.comparison_data, Checkpoint.comparison_data.
  change Checkpoint.year_2010 with App.year_2010.
  change Checkpoint.year_2023 with App.year_2023.
  destruct (where_ _ _ d) as [d'|e] eqn:Hw; [|done]. cbn [mbind result_bind].
  apply where_Ok in Hw as [-> _].
  set (d' := select _ d).
  destruct (decide ("Capacity_per_Capita_kW" ∈ columns d')) as [Hc|Hc].
  - rewrite require_Ok by (by repeat constructor). cbn [mbind result_bind].
    rewrite assign_to_numeric_id; [done|done|].
    apply Forall_forall. intros r Hr.
    eapply loaded_numeric_lookup; [exact Hload| | |exact Hc].
    + unfold d' in Hr. cbn [select rows] in Hr.
      by apply list_elem_of_In, filter_In in Hr as [Hr%list_elem_of_In _].
    + apply (bool_decide_unpack _). by vm_compute.
  - unfold require, dropna.
    rewrite (filter_cons_True (λ c : string, c ∉ columns d') _ _ Hc). done.
Qed.

Lemma top_entities_nonempty n col d top :
  0 < n → rows d ≠ [] →
  (top' ← nlargest n col d; require ["Entity"] top';; Ok (column "Entity" top')) = Ok top →
  top ≠ [].
Proof.
  intros Hn Hne. unfold nlargest, sort_values.
  destruct (require [col] d); [|discriminate]. cbn [mbind result_bind].
  destruct (require ["Entity"] _); [|discriminate]. cbn [mbind result_bind].
  intros [= <-]. unfold column. cbn [rows]. intros E.
  apply (f_equal length) in E. rewrite length_fmap, length_take in E.
  rewrite stable_sort_Permutation in E.
  destruct (rows d); [done|]. cbn in E. lia.
Qed.

(** Claim C3, as amended.  On a loaded table the two scripts compute the
    same matched rows, map rows, trend sums, scatter rows and comparison
    rows, for every selection. *)
Theorem scripts_share_views file out d year country :
  load_data file = (out, Ok d) →
  App.filtered_country_data d year country
  = Checkpoint.filtered_country_data d year country
  ∧ map_rows (App.derived d year country) = map_rows (Checkpoint.derived d year country)
  ∧ trend (App.derived d year country) = trend (Checkpoint.derived d year country)
  ∧ scatter_rows (App.derived d year country)
    = scatter_rows (Checkpoint.derived d year country)
  ∧ comparison_rows (App.derived d year country)
    = comparison_rows (Checkpoint.derived d year country).
Proof.
  intros Hload. split_and!; try reflexivity.
  cbn [comparison_rows App.derived Checkpoint.derived].
  change (Checkpoint.df_year d) with (App.df_comp d).
  change Checkpoint.year_2010 with App.year_2010.
  change Checkpoint.year_2023 with App.year_2023.
  destruct (App.df_comp d App.year_2010) as [d10|e]; [|done]. cbn [mbind result_bind].
  destruct (App.df_comp d App.year_2023) as [d23|e]; [|done]. cbn [mbind result_bind].
  destruct (negb (empty d10) && negb (empty d23)) eqn:Hne; [|done].
  change (Checkpoint.top10_2023 d23) with (App.top10_2023_entities d23).
  destruct (App.top10_2023_entities d23) as [top10|e] eqn:Htop; [|done].
  cbn [mbind result_bind].
  rewrite <-(comparison_data_agree _ _ _ top10 Hload).
  destruct top10 as [|e top10]; [|done].
  exfalso. eapply (top_entities_nonempty 10 _ d23 []); [lia| |exact Htop|done].
  apply andb_true_iff in Hne as [_ Hne]. unfold empty in Hne. by destruct (rows d23).
Qed.

Lemma scripts_share_views_witness :
  App.filtered_country_data (loaded two_years_example) 2023 "Testland"
  = Checkpoint.filtered_country_data (loaded two_years_example) 2023 "Testland"
  ∧ map_rows (App.derived (loaded two_years_example) 2023 "Testland")
    = map_rows (Checkpoint.derived (loaded two_years_example) 2023 "Testland")
  ∧ trend (App.derived (loaded two_years_example) 2023 "Testland")
    = trend (Checkpoint.derived (loaded two_years_example) 2023 "Testland")
  ∧ scatter_rows (App.derived (loaded two_years_example) 2023 "Testland")
    = scatter_rows (Checkpoint.derived (loaded two_years_example) 2023 "Testland")
  ∧ comparison_rows (App.derived (loaded two_years_example) 2023 "Testland")
    = comparison_rows (Checkpoint.derived (loaded two_years_example) 2023 "Testland").
Proof.
  apply (scripts_share_views two_years_example (load_data two_years_example).1).
  by vm_compute.
Defined.

(** Claim C3 fails as stated: on this loaded table and selection the
    two scripts show different metric texts, different mix slices, and
    different rows in their ranking charts. *)
Lemma scripts_differ :
  (load_data two_years_example).2 = Ok (loaded two_years_example)
  ∧ metric_values (App.derived (loaded two_years_example) 2023 "Testland")
    = Ok ["5.00"; "0.00"; "2.00"; "7.00"; "1.50"]
  ∧ metric_values (Checkpoint.derived (loaded two_years_example) 2023 "Testland")
    = Ok ["5.0"; "0.0"; "2.0"; "7.0"; "1.50"]
  ∧ mix_slices (App.derived (loaded two_years_example) 2023 "Testland")
    = Ok [Int 5; Int 2]
  ∧ mix_slices (Checkpoint.derived (loaded two_years_example) 2023 "Testland")
    = Ok [Int 5; Int 0; Int 2]
  ∧ (∃ series top,
       ranking (App.derived (loaded two_years_example) 2023 "Testland") = Ok (Some series)
       ∧ ranking (Checkpoint.derived (loaded two_years_example) 2023 "Testland")
         = Ok (Some top)
       ∧ column "Year" series = [Int 2010; Int 2023]
       ∧ column "Year" top = [Int 2023]
       ∧ (App.render (loaded two_years_example) 2023 "Testland").1 !! 8
         = Some (StChart (Line series))
       ∧ (Checkpoint.render (loaded two_years_example) 2023 "Testland").1 !! 8
         = Some (StChart (Bar top None))).
Proof.
  split; [by vm_compute|]. split; [by vm_compute|]. split; [by vm_compute|].
  split; [by vm_compute|]. split; [by vm_compute|].
  eexists _, _. split; [by vm_compute|]. split; [by vm_compute|].
  split; [by vm_compute|]. split; [by vm_compute|].
  split; by vm_compute.
Qed.

(** ** Frames as objects: what a run can change *)

Section keeps.
Variable df : nat.

Lemma keeps_ret {A} (Q : A → Prop) a : Q a → keeps df Q (mret a).
Proof. intros Ha σ Hσ. cbn. done. Qed.

Lemma keeps_bind {A B} (Q : A → Prop) (R : B → Prop) (m : Prog A) (k : A → Prog B) :
  keeps df Q m → (∀ a, Q a → keeps df R (k a)) → keeps df R (m ≫= k).
Proof.
  intros Hm Hk σ Hσ. destruct (Hm σ Hσ) as (Hn & Hdf & HQ).
  unfold mbind, Prog_bind. destruct (m σ) as [[σ1 out] [a|e]]; cbn in *; [|done].
  destruct (Hk a HQ σ1 ltac:(lia)) as (Hn' & Hdf' & HR).
  destruct (k a σ1) as [[σ2 out'] r]; cbn in *.
  split; [lia|]. split; [congruence|done].
Qed.

Lemma keeps_mono {A} (Q Q' : A → Prop) m :
  (∀ a, Q a → Q' a) → keeps df Q m → keeps df Q' m.
Proof.
  intros HQ Hm σ Hσ. destruct (Hm σ Hσ) as (Hn & Hdf & Ha).
  split; [done|]. split; [done|]. destruct ((m σ).2); auto.
Qed.

Lemma keeps_run {A} (m : M A) : keeps df (λ _, True) (run m).
Proof. intros σ Hσ. cbn. by destruct m.2. Qed.

Lemma keeps_new d : keeps df (λ l, df < l) (new d).
Proof.
  intros σ Hσ. cbn. split; [lia|]. split; [|done].
  apply lookup_insert_ne. lia.
Qed.

Lemma keeps_deref l : keeps df (λ _, True) (deref l).
Proof. intros σ Hσ. unfold deref. by destruct (objs σ !! l). Qed.

Lemma keeps_update l d : df < l → keeps df (λ _, True) (update l d).
Proof.
  intros Hl σ Hσ. cbn. split; [done|]. split; [|done].
  apply lookup_insert_ne. lia.
Qed.

(** A method that returns a new frame may be called on any frame, the
    cached table included. *)
Lemma keeps_method f l : keeps df (λ l', df < l') (method f l).
Proof.
  unfold method. eapply keeps_bind; [apply keeps_deref|]. intros d _.
  eapply keeps_bind; [apply keeps_run|]. intros d' _. apply keeps_new.
Qed.

Lemma keeps_copy l : keeps df (λ l', df < l') (copy l).
Proof. apply keeps_method. Qed.

(** A method that works in place keeps the cached table when it is
    called on another frame. *)
Lemma keeps_inplace f l : df < l → keeps df (λ _, True) (inplace f l).
Proof.
  intros Hl. unfold inplace. eapply keeps_bind; [apply keeps_deref|]. intros d _.
  eapply keeps_bind; [apply keeps_run|]. intros d' _. by apply keeps_update.
Qed.
End keeps.

Ltac keeps_step :=
  lazymatch goal with
  | |- keeps _ _ (mret _) => by apply keeps_ret
  | |- keeps _ _ (run _) => eapply keeps_mono; [|apply keeps_run]; done
  | |- keeps _ _ (inplace _ _) =>
      eapply keeps_mono; [|apply keeps_inplace; assumption]; done
  | |- keeps _ _ (if ?b then _ else _) => destruct b
  | |- keeps _ _ (match ?x with _ => _ end) => destruct x
  | |- keeps _ _ (_ ≫= _) =>
      eapply keeps_bind;
      [ first [ apply keeps_method | apply keeps_copy | apply keeps_deref
              | apply keeps_run | apply keeps_inplace; assumption ]
      | intros ? ? ]
  end.

Lemma keeps_row1 df y c : keeps df (λ _, True) (AppObjects.row1 df y c).
Proof. unfold AppObjects.row1. repeat keeps_step. Qed.

Lemma keeps_map_view df y : keeps df (λ _, True) (AppObjects.map_view df y).
Proof. unfold AppObjects.map_view. repeat keeps_step. Qed.

Lemma keeps_trend_view df : keeps df (λ _, True) (AppObjects.trend_view df).
Proof. unfold AppObjects.trend_view. repeat keeps_step. Qed.

Lemma keeps_top5_view df y : keeps df (λ _, True) (AppObjects.top5_view df y).
Proof. unfold AppObjects.top5_view. repeat keeps_step. Qed.

Lemma keeps_scatter_view df y : keeps df (λ _, True) (AppObjects.scatter_view df y).
Proof. unfold AppObjects.scatter_view. repeat keeps_step. Qed.

Lemma keeps_df_comp df y : keeps df (λ l, df < l) (AppObjects.df_comp df y).
Proof.
  unfold AppObjects.df_comp.
  eapply keeps_bind; [apply keeps_method|]. intros ? _.
  eapply keeps_bind; [apply keeps_method|]. intros ? _.
  apply keeps_copy.
Qed.

Lemma keeps_comparison_view df : keeps df (λ _, True) (AppObjects.comparison_view df).
Proof.
  unfold AppObjects.comparison_view.
  eapply keeps_bind; [apply keeps_df_comp|]. intros ? ?.
  eapply keeps_bind; [apply keeps_df_comp|]. intros ? ?.
  repeat keeps_step.
Qed.

Lemma keeps_render df y c : keeps df (λ _, True) (AppObjects.render df y c).
Proof.
  unfold AppObjects.render.
  eapply keeps_bind; [apply keeps_row1|]. intros _ _.
  eapply keeps_bind; [apply keeps_map_view|]. intros _ _.
  eapply keeps_bind; [apply keeps_trend_view|]. intros _ _.
  eapply keeps_bind; [apply keeps_top5_view|]. intros _ _.
  eapply keeps_bind; [apply keeps_scatter_view|]. intros _ _.
  apply keeps_comparison_view.
Qed.

(** ** The script on objects computes what the script on values computes *)

Lemma method_run f l σ d :
  objs σ !! l = Some d →
  method f l σ = match f d with
                 | Ok d' => (alloc σ d', [], Ok (next σ))
                 | Raise e => (σ, [], Raise e)
                 end.
Proof.
  intros H. unfold method, mbind, Prog_bind, deref, run, new, lift. rewrite H. cbn.
  by destruct (f d).
Qed.

Lemma inplace_run f l σ d :
  objs σ !! l = Some d →
  inplace f l σ = match f d with
                  | Ok d' => (store_set σ l d', [], Ok tt)
                  | Raise e => (σ, [], Raise e)
                  end.
Proof.
  intros H. unfold inplace, mbind, Prog_bind, deref, run, update, lift. rewrite H. cbn.
  by destruct (f d).
Qed.

Lemma deref_run l σ d : objs σ !! l = Some d → deref l σ = (σ, [], Ok d).
Proof. intros H. unfold deref. by rewrite H. Qed.

Lemma bind_run {A B} (m : Prog A) (k : A → Prog B) σ :
  (m ≫= k) σ = match m σ with
               | (σ1, out, Ok a) =>
                   match k a σ1 with (σ2, out', r) => (σ2, out ++ out', r) end
               | (σ1, out, Raise e) => (σ1, out, Raise e)
               end.
Proof. reflexivity. Qed.

Lemma lookup_alloc_eq σ d : objs (alloc σ d) !! next σ = Some d.
Proof. apply lookup_insert_eq. Qed.

Lemma lookup_alloc_ne σ d l : l < next σ → objs (alloc σ d) !! l = objs σ !! l.
Proof. intros. apply lookup_insert_ne. lia. Qed.

Lemma next_alloc σ d : next (alloc σ d) = S (next σ).
Proof. reflexivity. Qed.

Lemma lookup_set_eq σ l d : objs (store_set σ l d) !! l = Some d.
Proof. apply lookup_insert_eq. Qed.

Lemma lookup_set_ne σ l d l' : l' ≠ l → objs (store_set σ l d) !! l' = objs σ !! l'.
Proof. intros. by apply lookup_insert_ne. Qed.

Lemma next_set σ l d : next (store_set σ l d) = next σ.
Proof. reflexivity. Qed.

Lemma copy_run l σ d :
  objs σ !! l = Some d → copy l σ = (alloc σ d, [], Ok (next σ)).
Proof. intros H. unfold copy. by rewrite (method_run _ _ _ _ H). Qed.

Ltac next_lia := cbn [next alloc store_set]; lia.

Ltac store_lookup :=
  repeat first
    [ rewrite lookup_alloc_eq
    | rewrite lookup_set_eq
    | rewrite lookup_alloc_ne by next_lia
    | rewrite lookup_set_ne by next_lia ];
  try done.

Ltac simp := repeat (progress (cbv beta iota; cbn [fst snd])).

Ltac exec :=
  unfold mbind, Prog_bind, M_bind, result_bind, mret, Prog_ret, M_ret, lift, run,
    st_info, st_plotly_chart, write;
  simp.

Ltac step :=
  first [ erewrite method_run by store_lookup
        | erewrite copy_run by store_lookup
        | erewrite inplace_run by store_lookup
        | erewrite deref_run by store_lookup ];
  simp.

Ltac case_call :=
  match goal with
  | |- context [match ?x with Ok _ => _ | Raise _ => _ end] =>
      lazymatch x with
      | context [match _ with _ => _ end] => fail
      | _ => destruct x eqn:?
      end
  end;
  simp.

Ltac finish :=
  cbn [fst snd app];
  split_and!; [try done|try done|store_lookup|next_lia].

Lemma agrees_map_view df d y :
  agrees df d (AppObjects.map_view df y) (App.map_view d y).
Proof.
  intros σ Hdf Hlt. unfold AppObjects.map_view, App.map_view, App.map_data. exec.
  step. case_call; [|finish].
  step. case_call; [|finish].
  step. destruct (negb (empty _)); finish.
Qed.

Ltac case_if :=
  match goal with
  | |- context [if ?b then _ else _] => destruct b eqn:?
  end;
  simp.

Ltac case_list :=
  match goal with
  | |- context [match ?x with [] => _ | _ :: _ => _ end] => destruct x eqn:?
  end;
  simp.

Ltac case_page :=
  match goal with
  | |- context [(?m).2] =>
      lazymatch type of m with
      | M _ => destruct m as [? [?|?]]
      end
  end;
  simp.

Lemma agrees_row1 df d y c :
  agrees df d (AppObjects.row1 df y c) (App.row1 d y c).
Proof.
  intros σ Hdf Hlt. unfold AppObjects.row1, App.row1, App.filtered_country_data. exec.
  step. case_call; [|finish].
  step. case_list; [finish|].
  case_page; [|finish]. case_page; finish.
Qed.

Lemma agrees_trend_view df d :
  agrees df d (AppObjects.trend_view df) (App.trend_view d).
Proof.
  intros σ Hdf Hlt.
  unfold AppObjects.trend_view, App.trend_view, App.global_mix_long,
    App.global_trend_data, App.global_trend_sums. exec.
  step. case_call; [|finish].
  step. case_call; [|finish].
  step. step. case_call; [|finish].
  step. case_call; [|finish].
  step. case_if; finish.
Qed.

Lemma agrees_scatter_view df d y :
  agrees df d (AppObjects.scatter_view df y) (App.scatter_view d y).
Proof.
  intros σ Hdf Hlt. unfold AppObjects.scatter_view, App.scatter_view, App.scatter_data. exec.
  step. case_call; [|finish].
  step. step. case_call; [|finish].
  step. case_if; finish.
Qed.

Lemma agrees_top5_view df d y :
  agrees df d (AppObjects.top5_view df y) (App.top5_view d y).
Proof.
  intros σ Hdf Hlt.
  unfold AppObjects.top5_view, App.top5_view, App.latest_year_data,
    App.country_total_renewable, App.top_5_entities, App.top5_time_series. exec.
  step. case_call; [|finish].
  step. case_call; [|finish].
  step. case_call; [|finish].
  step. step. case_if; [|finish].
  step. case_call; [|finish].
  step. case_call; [|finish].
  step. case_call; [|finish].
  case_list; [finish|].
  step. case_call; [|finish].
  step. case_call; [|finish].
  step. step. case_call; [|finish].
  step. case_if; finish.
Qed.

Lemma agrees_comparison_view df d :
  agrees df d (AppObjects.comparison_view df) (App.comparison_view d).
Proof.
  intros σ Hdf Hlt.
  unfold AppObjects.comparison_view, AppObjects.df_comp, App.comparison_view,
    App.df_comp, App.comparison_data. exec.
  step. case_call; [|finish].
  step. case_call; [|finish].
  step.
  step. case_call; [|finish].
  step. case_call; [|finish].
  step.
  step. step. case_if; [|finish].
  case_call; [|finish].
  case_list; [finish|].
  step. case_call; [|finish].
  step.
  step. case_call; [|finish].
  step. case_call; [|finish].
  step. case_if; [|finish].
  case_call; finish.
Qed.

Lemma agrees_bind df d {A B} (m : Prog A) (p : M A) (k : A → Prog B) (q : A → M B) :
  agrees df d m p → (∀ a, agrees df d (k a) (q a)) → agrees df d (m ≫= k) (p ≫= q).
Proof.
  intros Hm Hk σ Hdf Hlt. destruct (Hm σ Hdf Hlt) as (Ho & Hr & Hdf' & Hn).
  unfold mbind, Prog_bind, M_bind.
  destruct (m σ) as [[σ1 out] r], p as [out' r']. cbn [fst snd] in *. subst.
  destruct r' as [a|e]; [|done].
  destruct (Hk a σ1 Hdf' ltac:(lia)) as (Ho & Hr & Hdf'' & Hn').
  destruct (k a σ1) as [[σ2 out2] r2], (q a) as [out2' r2']. cbn [fst snd] in *. subst.
  split_and!; try done. lia.
Qed.

Lemma agrees_render df d y c :
  agrees df d (AppObjects.render df y c) (App.render d y c).
Proof.
  unfold AppObjects.render, App.render.
  apply agrees_bind; [apply agrees_row1|]. intros _.
  apply agrees_bind; [apply agrees_map_view|]. intros _.
  apply agrees_bind; [apply agrees_trend_view|]. intros _.
  apply agrees_bind; [apply agrees_top5_view|]. intros _.
  apply agrees_bind; [apply agrees_scatter_view|]. intros _.
  apply agrees_comparison_view.
Qed.

(** Claim C8.  Rendering all views of [app.py] from a store that holds
    the loaded table under [df] leaves that table under [df] as it was;
    the page and the outcome of the run are those of [App.render] on
    the table. *)
Theorem render_keeps_table file out d σ df year country :
  load_data file = (out, Ok d) →
  objs σ !! df = Some d → df < next σ →
  objs (AppObjects.render df year country σ).1.1 !! df = Some d
  ∧ (AppObjects.render df year country σ).1.2 = (App.render d year country).1
  ∧ (AppObjects.render df year country σ).2 = (App.render d year country).2.
Proof.
  intros _ Hdf Hlt.
  destruct (agrees_render df d year country σ Hdf Hlt) as (? & ? & ? & _). done.
Qed.

Lemma render_keeps_table_witness :
  objs (AppObjects.render 0 2023 "Testland" (store_of two_years_example)).1.1 !! 0
  = Some (loaded two_years_example)
  ∧ (AppObjects.render 0 2023 "Testland" (store_of two_years_example)).1.2
    = (App.render (loaded two_years_example) 2023 "Testland").1
  ∧ (AppObjects.render 0 2023 "Testland" (store_of two_years_example)).2
    = (App.render (loaded two_years_example) 2023 "Testland").2.
Proof.
  apply (render_keeps_table two_years_example (load_data two_years_example).1).
  - by vm_compute.
  - reflexivity.
  - cbn. lia.
Defined.

(** * Further properties *)

(** ** The loader, in full *)

Lemma coerce_columns_out cols df :
  (coerce_columns cols df).1
  = missing_column_warning <$> filter (λ c, c ∉ columns df) cols.
Proof.
  revert df. induction cols as [|c cols IH]; intros df; [done|].
  cbn [coerce_columns]. case_bool_decide as Hc.
  - rewrite filter_cons_False by (by intros []).
    unfold mbind, M_bind, mret, M_ret. cbn beta iota.
    specialize (IH (assign c (to_numeric <$> column c df) df)).
    destruct (coerce_columns cols _) as [o r]. cbn [fst] in *.
    rewrite IH. unfold assign. rewrite bool_decide_true by done. done.
  - rewrite filter_cons_True by done.
    unfold mbind, M_bind, mret, M_ret, st_warning, write. cbn beta iota.
    specialize (IH df). destruct (coerce_columns cols df) as [o r]. cbn [fst] in *.
    rewrite IH. done.
Qed.

Lemma coerce_columns_eq cols df :
  coerce_columns cols df =
    (missing_column_warning <$> filter (λ c, c ∉ columns df) cols,
     Ok {| columns := columns df;
           rows := (λ r, foldl (λ r c, <[c := to_numeric (cell r c)]> r) r
                           (filter (λ c, c ∈ columns df) cols)) <$> rows df |}).
Proof.
  destruct (coerce_columns_spec cols df) as (out & H & _).
  pose proof (coerce_columns_out cols df) as Ho. rewrite H in Ho. cbn [fst] in Ho.
  by rewrite H, Ho.
Qed.

Lemma filter_iff_in {A} (P Q : A → Prop) `{!∀ x, Decision (P x), !∀ x, Decision (Q x)} (l : list A) :
  (∀ x, x ∈ l → P x ↔ Q x) → filter P l = filter Q l.
Proof.
  induction l as [|x l IH]; intros Hl; [done|].
  rewrite !filter_cons. rewrite IH by (intros y Hy; apply Hl; by right).
  assert (P x ↔ Q x) as Hx by (apply Hl; by left).
  destruct (decide (P x)) as [HP|HP], (decide (Q x)) as [HQ|HQ]; try done; tauto.
Qed.

Lemma load_data_try_exact d0 :
  "Year" ∈ columns d0 →
  load_data_try (Contents d0) =
    match mapM_result year_cell (column "Year" d0) with
    | Ok ys =>
        (missing_column_warning <$> filter (λ c, c ∉ columns d0) numeric_cols,
         match filter (λ c, c ∉ columns d0) ["Entity"; "Code"] with
         | [] => Ok (cleaned d0 ys)
         | missing => Raise (KeyError missing)
         end)
    | Raise e => ([], Raise e)
    end.
Proof.
  intros HY. destruct (load_data_try_Contents d0 HY) as (o & _ & Htry).
  assert (filter (λ c, c ∉ filter (λ c, c ∉ legacy_columns) (columns d0))
                 ["Entity"; "Code"; "Year"]
          = filter (λ c, c ∉ columns d0) ["Entity"; "Code"]) as Hm.
  { rewrite (filter_iff_in _ (λ c, c ∉ columns d0)).
    - rewrite !filter_cons, filter_nil. by rewrite (decide_False (P := "Year" ∉ columns d0)) by tauto.
    - intros c Hc. rewrite list_elem_of_filter.
      assert (c ∉ legacy_columns); [|tauto].
      apply (Forall_forall (λ c, c ∉ legacy_columns) ["Entity"; "Code"; "Year"]); [|done].
      repeat constructor; apply (bool_decide_unpack _); by vm_compute. }
  rewrite Hm in Htry. rewrite Htry.
  destruct (mapM_result year_cell (column "Year" d0)) as [ys|e] eqn:Hys; [|done].
  assert (o = missing_column_warning <$> filter (λ c, c ∉ columns d0) numeric_cols) as ->.
  { assert ((load_data_try (Contents d0)).1
            = missing_column_warning <$> filter (λ c, c ∉ columns d0) numeric_cols) as H1.
    { unfold load_data_try, read_csv, lift.
      unfold mbind at 1. unfold M_bind at 1. cbn beta iota.
      rewrite bool_decide_true by done.
      assert (mapM_result astype_int (fillna (Int 0) <$> (to_numeric <$> column "Year" d0))
              = Ok ys) as ->.
      { rewrite <-Hys. generalize (column "Year" d0). intros l.
        induction l as [|v l IH]; [done|].
        rewrite !fmap_cons. cbn [mapM_result]. by rewrite IH. }
      unfold mbind, M_bind, mret, M_ret. cbn beta iota.
      rewrite coerce_columns_eq. cbn beta iota.
      destruct (dropna _ _); cbn; rewrite app_nil_r; unfold assign;
        by rewrite bool_decide_true. }
    rewrite Htry in H1. by destruct (filter _ ["Entity"; "Code"]). }
  by destruct (filter _ ["Entity"; "Code"]).
Qed.

Lemma lookup_foldl_coerce_eq (m : gmap string value) cs c :
  NoDup cs → c ∈ cs →
  foldl (λ r c, <[c := to_numeric (cell r c)]> r) m cs !! c
  = Some (to_numeric (cell m c)).
Proof.
  intros Hnd. revert m. induction Hnd as [|c' cs Hc' _ IH]; intros m Hc.
  - by apply elem_of_nil in Hc.
  - cbn [foldl]. destruct (decide (c = c')) as [->|Hne].
    + rewrite lookup_foldl_coerce by done. by rewrite lookup_insert_eq.
    + apply elem_of_cons in Hc as [?|Hc]; [done|].
      rewrite IH by done. unfold cell. by rewrite lookup_insert_ne.
Qed.

Lemma clean_row_lookup present y r c :
  NoDup present → "Year" ∉ present →
  clean_row present y r !! c =
    if decide (c ∈ legacy_columns) then None
    else if decide (c ∈ present) then Some (to_numeric (cell r c))
    else if decide (c = "Year") then Some y else r !! c.
Proof.
  intros Hnd HY. unfold clean_row. rewrite lookup_foldr_delete.
  destruct (decide (c ∈ legacy_columns)); [done|].
  destruct (decide (c ∈ present)) as [Hc|Hc].
  - rewrite lookup_foldl_coerce_eq by done. unfold cell.
    rewrite lookup_insert_ne; [done|]. by intros <-.
  - rewrite lookup_foldl_coerce by done.
    destruct (decide (c = "Year")) as [->|Hne].
    + by rewrite lookup_insert_eq.
    + by rewrite lookup_insert_ne.
Qed.

Lemma numeric_cols_NoDup : NoDup numeric_cols.
Proof. apply (bool_decide_unpack _). by vm_compute. Qed.

Lemma present_NoDup (cols : list string) :
  NoDup (filter (λ c, c ∈ cols) numeric_cols).
Proof. apply NoDup_filter, numeric_cols_NoDup. Qed.

Lemma present_no_year (cols : list string) :
  "Year" ∉ filter (λ c, c ∈ cols) numeric_cols.
Proof.
  intros H%present_numeric. revert H. apply (bool_decide_unpack _). by vm_compute.
Qed.

Lemma numeric_not_legacy c : c ∈ numeric_cols → c ∉ legacy_columns.
Proof.
  intros Hc. apply (Forall_forall (λ c, c ∉ legacy_columns) numeric_cols); [|done].
  repeat constructor; apply (bool_decide_unpack _); by vm_compute.
Qed.

Lemma loaded_no_legacy file out d r c :
  load_data file = (out, Ok d) → r ∈ rows d → c ∈ legacy_columns → r !! c = None.
Proof.
  intros (d0 & ys & -> & _ & _ & -> & _ & _)%load_data_Ok Hr Hc.
  unfold cleaned in Hr. cbn [rows] in Hr.
  apply list_elem_of_In, filter_In in Hr as [Hr%list_elem_of_In _].
  apply elem_of_zip_with in Hr as (r0 & y & -> & _ & _).
  rewrite clean_row_lookup by (apply present_NoDup || apply present_no_year).
  by rewrite decide_True.
Qed.

Lemma load_data_Contents d0 :
  "Year" ∈ columns d0 →
  load_data (Contents d0) =
    match mapM_result year_cell (column "Year" d0) with
    | Ok ys =>
        match filter (λ c, c ∉ columns d0) ["Entity"; "Code"] with
        | [] => (missing_column_warning <$> filter (λ c, c ∉ columns d0) numeric_cols,
                 Ok (cleaned d0 ys))
        | missing =>
            ((missing_column_warning <$> filter (λ c, c ∉ columns d0) numeric_cols)
               ++ [loading_error (KeyError missing)],
             Raise StopException)
        end
    | Raise e => ([loading_error IntCastingNaNError], Raise StopException)
    end.
Proof.
  intros HY. unfold load_data. rewrite load_data_try_exact by done.
  destruct (mapM_result year_cell (column "Year" d0)) as [ys|e] eqn:Hys.
  - by destruct (filter _ ["Entity"; "Code"]).
  - apply mapM_result_Raise in Hys as (v & _ & Hv).
    unfold year_cell in Hv. pose proof (to_numeric_numeric v) as Hn.
    destruct (to_numeric v) as [|s|q|b]; try discriminate.
    + by destruct (Hn s).
    + by injection Hv as <-.
Qed.

Lemma filter_nil_Forall {A} (P : A → Prop) `{!∀ x, Decision (P x)} (l : list A) :
  filter P l = [] ↔ Forall (λ x, ¬ P x) l.
Proof.
  induction l as [|x l IH]; [done|].
  rewrite filter_cons, Forall_cons. destruct (decide (P x)); [|tauto].
  split; [done|tauto].
Qed.

Lemma loaded_columns_numeric d0 :
  Forall (λ c, c ∈ filter (λ c, c ∉ legacy_columns) (columns d0)) numeric_cols
  ↔ filter (λ c, c ∉ columns d0) numeric_cols = [].
Proof.
  rewrite filter_nil_Forall, !Forall_forall. split.
  - intros H c Hc. apply H, list_elem_of_filter in Hc. tauto.
  - intros H c Hc. apply list_elem_of_filter. split; [by apply numeric_not_legacy|].
    destruct (decide (c ∈ columns d0)); [done|]. by destruct (H c Hc).
Qed.

Lemma no_warning_iff_complete file out d :
  load_data file = (out, Ok d) →
  out = [] ↔ Forall (λ c, c ∈ columns d) numeric_cols.
Proof.
  intros Hload.
  destruct (load_data_Ok _ _ _ Hload) as (d0 & ys & -> & HY & _).
  rewrite load_data_Contents in Hload by done.
  destruct (mapM_result year_cell _) as [ys'|]; [|discriminate].
  destruct (filter _ ["Entity"; "Code"]); [|discriminate].
  injection Hload as <- <-.
  cbn [cleaned columns]. rewrite loaded_columns_numeric.
  split; [apply fmap_nil_inv|by intros ->].
Qed.

(** Property X1.  When the file loads, the page holds one warning for
    each numeric column the file lacks, in the order of [numeric_cols],
    and nothing else; the table keeps the columns of the file in their
    order, the legacy columns apart.  No warning is shown exactly when
    the table has all seven numeric columns. *)
Theorem load_data_warnings d0 out d :
  load_data (Contents d0) = (out, Ok d) →
  out = missing_column_warning <$> filter (λ c, c ∉ columns d0) numeric_cols
  ∧ columns d = filter (λ c, c ∉ legacy_columns) (columns d0)
  ∧ (out = [] ↔ Forall (λ c, c ∈ columns d) numeric_cols).
Proof.
  intros Hload. split; [|split]; [| |by eapply no_warning_iff_complete].
  - destruct (load_data_Ok _ _ _ Hload) as (? & ? & [= <-] & HY & _).
    rewrite load_data_Contents in Hload by done.
    destruct (mapM_result year_cell _) as [ys|]; [|discriminate].
    destruct (filter _ ["Entity"; "Code"]); [|discriminate].
    by injection Hload as <- _.
  - by apply load_data_Ok in Hload as (? & ? & [= <-] & _ & _ & -> & _).
Qed.

Lemma load_data_warnings_witness :
  (load_data (Contents bad_year_frame)).1
  = missing_column_warning <$> numeric_cols
  ∧ columns (loaded (Contents bad_year_frame)) = ["Entity"; "Code"; "Year"]
  ∧ ((load_data (Contents bad_year_frame)).1 = [] ↔
     Forall (λ c, c ∈ columns (loaded (Contents bad_year_frame))) numeric_cols).
Proof.
  apply (load_data_warnings bad_year_frame). by vm_compute.
Defined.

Lemma year_cell_finite v :
  (∀ b, to_numeric v ≠ Inf b) → ∃ z, year_cell v = Ok (Int z).
Proof.
  intros Hfin. unfold year_cell. pose proof (to_numeric_numeric v) as Hn.
  destruct (to_numeric v) as [|s|q|b]; cbn; eauto.
  - by destruct (Hn s).
  - by destruct (Hfin b).
Qed.

Lemma years_finite l :
  Forall (λ v, ∀ b, to_numeric v ≠ Inf b) l ↔ ∃ ys, mapM_result year_cell l = Ok ys.
Proof.
  split.
  - induction 1 as [|v l Hv _ [ys IH]]; [by exists []|].
    destruct (year_cell_finite v Hv) as [z Hz].
    exists (Int z :: ys). cbn [mapM_result]. rewrite Hz. cbn. by rewrite IH.
  - intros [ys Hys]. apply mapM_result_Ok in Hys.
    induction Hys as [|v y l ys Hy _ IH]; constructor; [|done].
    intros b Hb. unfold year_cell in Hy. by rewrite Hb in Hy.
Qed.

Lemma infinite_reads_Inf v : infinite v → ∃ b, to_numeric v = Inf b.
Proof.
  intros [[b ->]|(s & -> & Hs)]; [by exists b|].
  revert s Hs. apply Forall_forall.
  repeat constructor; eexists; vm_compute; reflexivity.
Qed.

(** Property X4.  A file with a [Year] column in which some year is an
    infinity, or text that spells one, halts: the page shows the
    loader's error message, around the text of the exception, and
    nothing else.  [fillna(0)] leaves the infinity in place and
    [astype(int)] refuses it. *)
Theorem infinite_year_halts d0 v :
  "Year" ∈ columns d0 → v ∈ column "Year" d0 → infinite v →
  ∃ text,
    load_data (Contents d0)
    = ([StError ("Error loading or processing data: " ++ text ++
                 ". Please check your CSV file's format and column names.")],
       Raise StopException).
Proof.
  intros HY Hv [b Hinf]%infinite_reads_Inf. exists (exn_str IntCastingNaNError).
  rewrite load_data_Contents by done.
  destruct (mapM_result year_cell (column "Year" d0)) as [ys|] eqn:Hys; [|done].
  assert (Forall (λ v, ∀ b, to_numeric v ≠ Inf b) (column "Year" d0)) as Hfin
    by (apply years_finite; eauto).
  eapply Forall_forall in Hfin; [|done]. by destruct (Hfin b).
Qed.

Lemma infinite_year_halts_witness :
  ∃ text,
    load_data (Contents infinite_year_frame)
    = ([StError ("Error loading or processing data: " ++ text ++
                 ". Please check your CSV file's format and column names.")],
       Raise StopException).
Proof.
  apply (infinite_year_halts infinite_year_frame (Str "-Infinity")).
  - apply (bool_decide_unpack _). by vm_compute.
  - apply (list_elem_of_lookup_2 _ 1). by vm_compute.
  - right. exists "-Infinity". split; [done|].
    apply (bool_decide_unpack _). by vm_compute.
Defined.

(** Property X5.  A file with finite years that lacks [Entity] or
    [Code] halts at the final [dropna]: after the warnings for the
    numeric columns it lacks, the page shows the error message with the
    list of the missing labels. *)
Theorem missing_identifier_halts d0 :
  "Year" ∈ columns d0 →
  Forall (λ v, ∀ b, to_numeric v ≠ Inf b) (column "Year" d0) →
  "Entity" ∉ columns d0 ∨ "Code" ∉ columns d0 →
  load_data (Contents d0)
  = ((missing_column_warning <$> filter (λ c, c ∉ columns d0) numeric_cols)
       ++ [loading_error (KeyError (filter (λ c, c ∉ columns d0) ["Entity"; "Code"]))],
     Raise StopException).
Proof.
  intros HY [ys Hys]%years_finite Hmiss. rewrite load_data_Contents by done.
  rewrite Hys. destruct (filter _ ["Entity"; "Code"]) eqn:Hm; [|done].
  apply filter_nil_Forall in Hm. rewrite !Forall_cons in Hm. tauto.
Qed.

Lemma missing_identifier_halts_witness :
  load_data (Contents no_code_frame)
  = ((missing_column_warning <$>
        ["Solar_GW"; "Wind_GW"; "Hydro_GW"; "Population"; "GDP_per_Capita";
         "Capacity_per_Capita_kW"])
       ++ [StError "Error loading or processing data: ['Code']. Please check your CSV file's format and column names."],
     Raise StopException).
Proof.
  apply (missing_identifier_halts no_code_frame).
  - apply (bool_decide_unpack _). by vm_compute.
  - repeat constructor. intros b. by vm_compute.
  - right. apply (bool_decide_unpack _). by vm_compute.
Defined.

Lemma year_cell_Int_id z : year_cell (Int z) = Ok (Int z).
Proof. unfold year_cell, Int. cbn. by rewrite Z.quot_1_r. Qed.

Lemma clean_row_fixed (cols : list string) r z :
  r !! "Year" = Some (Int z) →
  (∀ c, c ∈ numeric_cols → c ∈ cols → ∃ v, r !! c = Some v ∧ numeric v) →
  (∀ c, c ∈ legacy_columns → r !! c = None) →
  clean_row (filter (λ c, c ∈ cols) numeric_cols) (Int z) r = r.
Proof.
  intros HY Hnum Hleg. apply map_eq. intros c.
  rewrite clean_row_lookup by (apply present_NoDup || apply present_no_year).
  destruct (decide (c ∈ legacy_columns)) as [Hc|Hc]; [by rewrite Hleg|].
  destruct (decide (c ∈ filter _ numeric_cols)) as [Hp|Hp].
  - apply list_elem_of_filter in Hp as [Hp1 Hp2].
    destruct (Hnum c Hp2 Hp1) as (v & Hv & Hn).
    unfold cell. rewrite Hv. cbn. by rewrite to_numeric_id.
  - destruct (decide (c = "Year")) as [->|]; [by rewrite HY|done].
Qed.

Lemma filter_all {A} (p : A → bool) l :
  Forall (λ x, p x = true) l → List.filter p l = l.
Proof. induction 1 as [|x l Hx _ IH]; cbn; [done|]. by rewrite Hx, IH. Qed.

Lemma filter_filter_same {A} (P : A → Prop) `{!∀ x, Decision (P x)} (l : list A) :
  filter P (filter P l) = filter P l.
Proof.
  induction l as [|x l IH]; [done|]. rewrite filter_cons.
  destruct (decide (P x)); [|done]. rewrite filter_cons_True by done. by rewrite IH.
Qed.

(** Property X3.  Loading is idempotent: a file that holds the loaded
    table loads to the same table, with the same warnings. *)
Theorem load_data_idempotent file out d :
  load_data file = (out, Ok d) → load_data (Contents d) = (out, Ok d).
Proof.
  intros Hload.
  pose proof (loaded_year_cells _ _ _ Hload) as Hyears.
  destruct (load_data_Ok _ _ _ Hload) as (d0 & ys & -> & HY0 & Hys & Hd & _ & Hcols).
  pose proof (λ r c, loaded_numeric_lookup _ _ _ r c Hload) as Hnum.
  pose proof (λ r c, loaded_no_legacy _ _ _ r c Hload) as Hlegacy.
  assert (out = missing_column_warning <$> filter (λ c, c ∉ columns d0) numeric_cols)
    as Hout.
  { rewrite load_data_Contents in Hload by done. rewrite Hys in Hload.
    destruct (filter _ ["Entity"; "Code"]); [|discriminate]. by injection Hload as <- _. }
  assert (columns d = filter (λ c, c ∉ legacy_columns) (columns d0)) as Hcolumns
    by (by rewrite Hd).
  rewrite !Forall_cons in Hcols. destruct Hcols as (HE & HC & HY & _).
  rewrite load_data_Contents by done.
  assert (mapM_result year_cell (column "Year" d) = Ok (column "Year" d)) as ->.
  { apply mapM_result_Ok. unfold column. apply Forall2_fmap_l, Forall2_fmap_r.
    apply Forall_Forall2_diag. eapply Forall_impl; [exact Hyears|].
    intros r [z Hz]. unfold compose. rewrite Hz. apply year_cell_Int_id. }
  replace (filter (λ c, c ∉ columns d) ["Entity"; "Code"]) with (@nil string).
  2:{ symmetry. apply filter_nil_Forall. repeat constructor; tauto. }
  f_equal.
  - rewrite Hout. f_equal. apply filter_iff_in. intros c Hc.
    rewrite Hcolumns, list_elem_of_filter. pose proof (numeric_not_legacy c Hc). tauto.
  - f_equal. unfold cleaned.
    assert (Forall (λ r, (∀ c, c ∈ legacy_columns → r !! c = None)
                         ∧ notna (cell r "Entity") = true
                         ∧ notna (cell r "Code") = true) (rows d)) as Hrows.
    { rewrite Hd. apply Forall_forall. intros r Hr.
      pose proof (cleaned_row_cells _ _ _ Hr) as (H1 & H2 & _).
      split; [|done]. rewrite <-Hd in Hr. intros c. by apply Hlegacy. }
    assert (zip_with (λ r y, clean_row (filter (λ c, c ∈ columns d) numeric_cols) y r)
                     (rows d) (column "Year" d) = rows d) as ->.
    { unfold column. clear Hlegacy Hcolumns Hd.
      induction (rows d) as [|r rs IH]; [done|]. cbn [fmap list_fmap zip_with].
      apply Forall_cons in Hyears as [[z Hz] Hyears].
      apply Forall_cons in Hrows as [(Hl & _) Hrows].
      rewrite IH; [|done| |done].
      2:{ intros r' c Hr'. apply Hnum. by right. }
      f_equal. rewrite Hz. apply clean_row_fixed; [|intros c Hc1 Hc2|done].
      - unfold cell in Hz. by destruct (r !! "Year") as [v|]; [cbn in Hz; subst|].
      - apply Hnum; [by left|done|done]. }
    rewrite filter_all.
    2:{ apply Forall_forall. intros r Hr. cbn [forallb].
        pose proof (proj1 (Forall_forall _ _) Hrows r Hr) as (_ & -> & ->).
        pose proof (proj1 (Forall_forall _ _) Hyears r Hr) as [z ->]. done. }
    rewrite Hcolumns at 1. rewrite filter_filter_same. rewrite <-Hcolumns.
    by destruct d.
Qed.

Lemma load_data_idempotent_witness :
  load_data (Contents (loaded years_example))
  = ((load_data years_example).1, Ok (loaded years_example)).
Proof.
  apply (load_data_idempotent years_example). by vm_compute.
Defined.

Lemma List_filter_filter {A} (p : A → bool) (P : A → Prop) `{!∀ x, Decision (P x)}
    (l : list A) :
  (∀ x, p x = true ↔ P x) → List.filter p l = filter P l.
Proof.
  intros Hp. induction l as [|x l IH]; [done|].
  cbn [List.filter]. rewrite filter_cons. destruct (decide (P x)) as [HP|HP].
  - apply Hp in HP. by rewrite HP, IH.
  - destruct (p x) eqn:Hx; [|done]. by apply Hp in Hx.
Qed.

Lemma notna_present v : notna v = true ↔ v ≠ NaN.
Proof. destruct v; cbn; split; done. Qed.

Lemma unparseable_NaN v : unparseable v = true → to_numeric v = NaN.
Proof. unfold unparseable. by destruct (to_numeric v). Qed.

Lemma year_cell_whole v z : to_numeric v = Int z → year_cell v = Ok (Int z).
Proof. unfold year_cell. intros ->. apply year_cell_Int_id. Qed.

Lemma clean_row_cleans d0 r0 y :
  year_cell (cell r0 "Year") = Ok y →
  cleans d0 r0 (clean_row (filter (λ c, c ∈ columns d0) numeric_cols) y r0).
Proof.
  intros Hy. set (present := filter _ numeric_cols).
  pose proof (λ c, clean_row_lookup present y r0 c (present_NoDup _) (present_no_year _))
    as Hl.
  assert (cell (clean_row present y r0) "Year" = y) as HY
    by apply clean_row_year, present_numeric.
  unfold cleans. rewrite HY. split; [|split; [|split; [|split; [|split]]]].
  - destruct (year_cell_Int _ _ Hy) as [z ->]. by exists z.
  - intros Hu%unparseable_NaN. unfold year_cell in Hy. rewrite Hu in Hy.
    by injection Hy as <-.
  - intros z Hz _. rewrite (year_cell_whole _ _ Hz) in Hy. by injection Hy as <-.
  - intros c Hc Hc0. exists (to_numeric (cell r0 c)). split; [|split; [|split; [|split]]].
    + rewrite Hl. rewrite decide_False by by apply numeric_not_legacy.
      rewrite decide_True; [done|]. by apply list_elem_of_filter.
    + apply to_numeric_numeric.
    + apply to_numeric_id.
    + apply unparseable_NaN.
    + by intros z -> _.
  - intros c Hc. rewrite Hl. by rewrite decide_True.
  - intros c Hne Hleg Hnum. rewrite Hl. rewrite decide_False by done.
    rewrite decide_False.
    2:{ intros [? ?]%list_elem_of_filter. by apply Hnum. }
    by rewrite decide_False.
Qed.

(** Property X2.  Let every year field of the file be in the range of
    the integer cast.  When the file loads, the table holds, in the
    order of the file, the rows of the file whose [Entity] and [Code]
    are not missing, whatever their year, each one cleaned as [cleans]
    says: the year an integer, zero for a field that reads as no number;
    the numeric columns present free of text, with the missing marker
    for a field that reads as no number; the legacy columns gone; every
    other cell as in the file. *)
Theorem loaded_rows_cleaned d0 out d :
  forallb year_in_range (column "Year" d0) = true →
  load_data (Contents d0) = (out, Ok d) →
  Forall2 (cleans d0)
          (filter (λ r0, cell r0 "Entity" ≠ NaN ∧ cell r0 "Code" ≠ NaN) (rows d0))
          (rows d).
Proof.
  intros _ Hload.
  apply load_data_Ok in Hload as (d0' & ys & [= <-] & HY & Hys & -> & _ & _).
  apply mapM_result_Ok in Hys. unfold column in Hys. apply Forall2_fmap_l in Hys.
  rewrite <-(List_filter_filter (λ r0, notna (cell r0 "Entity") && notna (cell r0 "Code"))).
  2:{ intros r0. by rewrite andb_true_iff, !notna_present. }
  unfold cleaned. cbn [rows].
  induction Hys as [|r0 y rs ys Hy Hys IH]; [constructor|].
  cbn [zip_with List.filter forallb].
  rewrite !clean_row_key by (set_unfold; tauto).
  rewrite clean_row_year by apply present_numeric.
  destruct (year_cell_Int _ _ Hy) as [z ->].
  change (notna (Int z)) with true. rewrite !andb_true_r.
  destruct (notna (cell r0 "Entity") && notna (cell r0 "Code")); [|done].
  constructor; [|done]. by apply clean_row_cleans.
Qed.

Lemma loaded_rows_cleaned_witness :
  Forall2 (cleans messy_frame)
          (filter (λ r0, cell r0 "Entity" ≠ NaN ∧ cell r0 "Code" ≠ NaN)
                  (rows messy_frame))
          (rows (loaded (Contents messy_frame))).
Proof.
  apply (loaded_rows_cleaned messy_frame (load_data (Contents messy_frame)).1).
  - by vm_compute.
  - by vm_compute.
Defined.

(** The example, cell by cell: the third row is dropped, the bad year
    is zero, the total that does not parse is missing, the legacy
    column is gone and the unknown column is kept. *)
Example messy_frame_loaded :
  (λ r, (r !! "Entity", r !! "Year", r !! "Total_GW", r !! "Country", r !! "Region"))
    <$> rows (loaded (Contents messy_frame))
  = [(Some (Str "Aland"), Some (Int 2020), Some (Int 7), None, Some (Str "North"));
     (Some (Str "Borduria"), Some (Int 0), Some NaN, None, Some (Str "South"))].
Proof. by vm_compute. Qed.

(** ** The sidebar *)

Lemma compare_value_refl asc v : compare_value asc v v = Eq.
Proof.
  pose proof (compare_value_antisym asc v v) as H.
  by destruct (compare_value asc v v).
Qed.

Lemma value_eqb_refl v : value_eqb v v = true.
Proof. unfold value_eqb. by rewrite compare_value_refl. Qed.

Lemma value_eqb_sym a b : value_eqb a b = value_eqb b a.
Proof.
  unfold value_eqb. rewrite (compare_value_antisym true a b).
  by destruct (compare_value true a b).
Qed.

Lemma value_eqb_trans a b c :
  value_eqb a b = true → value_eqb b c = true → value_eqb a c = true.
Proof.
  unfold value_eqb. intros Hab Hbc.
  destruct (compare_value true a b) eqn:E1; try done.
  destruct (compare_value true b c) eqn:E2; try done.
  assert (compare_value true c b = Eq) as E3.
  { by rewrite (compare_value_antisym true b c), E2. }
  by rewrite (compare_value_tie true c a b E3 E1).
Qed.

Lemma value_eqb_Str v s : value_eqb v (Str s) = true ↔ v = Str s.
Proof.
  split; [|intros ->; apply value_eqb_refl].
  unfold value_eqb. destruct v as [|t|q|[]]; cbn; try done.
  destruct (String.compare t s) eqn:E; try done.
  by apply String.compare_eq_iff in E as ->.
Qed.

Lemma unique_rep l e : e ∈ l → ∃ e', e' ∈ unique l ∧ value_eqb e' e = true.
Proof.
  induction l as [|v l IH]; [by intros ?%elem_of_nil|].
  cbn [unique]. intros [->|He]%elem_of_cons.
  - exists v. split; [by left|apply value_eqb_refl].
  - destruct (IH He) as (e' & He' & Heq).
    destruct (value_eqb v e') eqn:Hv.
    + exists v. split; [by left|]. by eapply value_eqb_trans.
    + exists e'. split; [|done]. right.
      apply list_elem_of_In, filter_In. split; [by apply list_elem_of_In|].
      by rewrite Hv.
Qed.

Lemma py_index_lookup s l :
  py_in (Str s) l = true → ∃ i, py_index s l = Ok i ∧ l !! i = Some (Str s).
Proof.
  induction l as [|v l IH]; [done|]. cbn [py_in existsb py_index].
  destruct (value_eqb v (Str s)) eqn:Hv.
  - intros _. exists 0%nat. split; [done|]. by apply value_eqb_Str in Hv as ->.
  - cbn [orb]. intros (i & -> & Hi)%IH. by exists (S i).
Qed.

Lemma py_in_elem s l : py_in (Str s) l = true ↔ Str s ∈ l.
Proof.
  unfold py_in. rewrite existsb_exists. split.
  - intros (v & Hv%list_elem_of_In & ->%value_eqb_Str). done.
  - intros H. exists (Str s). split; [by apply list_elem_of_In|apply value_eqb_refl].
Qed.

Lemma sorted_unique_Ok c d :
  c ∈ columns d →
  ∃ l, sorted_unique c d = Ok l
       ∧ l ≡ₚ unique (List.filter notna (column c d))
       ∧ StronglySorted (λ a b, compare_value true a b ≠ Gt) l.
Proof.
  intros Hc. unfold sorted_unique. rewrite require_Ok by (by repeat constructor).
  eexists. split; [done|]. split; [apply stable_sort_Permutation|].
  apply stable_sort_sorted.
  - intros x y. apply compare_value_antisym.
  - intros x y z. apply compare_value_trans.
Qed.

Lemma rows_nonempty d n : length (rows d) = S n → rows d ≠ [].
Proof. by intros H E; rewrite E in H. Qed.

(** Property X6.  For a loaded table with at least one row the bounds
    of the year slider are computed: they are the least and the greatest
    year of the table, both are years of rows, and the year of every row
    lies between them. *)
Theorem year_slider_bounds file out d :
  load_data file = (out, Ok d) → rows d ≠ [] →
  ∃ lo hi,
    year_bounds d = Ok (lo, hi) ∧ (lo ≤ hi)%Z
    ∧ Forall (λ r, ∃ z, cell r "Year" = Int z ∧ (lo ≤ z ≤ hi)%Z) (rows d)
    ∧ Exists (λ r, cell r "Year" = Int lo) (rows d)
    ∧ Exists (λ r, cell r "Year" = Int hi) (rows d).
Proof.
  intros Hload Hne.
  destruct (year_bounds_loaded _ _ _ Hload Hne)
    as (lo & hi & Hb & (r1 & Hr1 & Hlo) & (r2 & Hr2 & Hhi) & Hall).
  exists lo, hi. split; [done|]. split; [by apply (Hall r1 lo)|].
  split; [|split].
  - pose proof (loaded_year_cells _ _ _ Hload) as Hint.
    apply Forall_forall. intros r Hr.
    destruct (proj1 (Forall_forall _ _) Hint r Hr) as [z Hz]. eauto.
  - apply Exists_exists. eauto.
  - apply Exists_exists. eauto.
Qed.

Lemma year_slider_bounds_witness :
  ∃ lo hi,
    year_bounds (loaded two_years_example) = Ok (lo, hi) ∧ (lo ≤ hi)%Z
    ∧ Forall (λ r, ∃ z, cell r "Year" = Int z ∧ (lo ≤ z ≤ hi)%Z)
             (rows (loaded two_years_example))
    ∧ Exists (λ r, cell r "Year" = Int lo) (rows (loaded two_years_example))
    ∧ Exists (λ r, cell r "Year" = Int hi) (rows (loaded two_years_example)).
Proof.
  apply (year_slider_bounds two_years_example (load_data two_years_example).1).
  - by vm_compute.
  - apply (rows_nonempty _ 1). by vm_compute.
Defined.

(** Property X7.  A file that loads to a table with no row stops both
    scripts at the year slider: [min] of the empty list of years raises
    [ValueError], after the loader's warnings and before any view. *)
Theorem empty_table_stops_at_slider file out d year country :
  load_data file = (out, Ok d) → rows d = [] →
  ∃ msg, App.script file year country = (out, Raise (ValueError msg))
         ∧ Checkpoint.script file year country = (out, Raise (ValueError msg)).
Proof.
  intros Hload Hrows.
  assert (year_bounds d = Raise (ValueError "min() arg is an empty sequence")) as Hb.
  { apply load_data_Ok in Hload as (d0 & ys & _ & _ & _ & _ & _ & Hcols).
    rewrite !Forall_cons in Hcols. destruct Hcols as (_ & _ & HY & _).
    unfold year_bounds, sorted_unique, column.
    rewrite require_Ok by (by repeat constructor). by rewrite Hrows. }
  eexists. unfold App.script, Checkpoint.script. rewrite Hload.
  unfold mbind, M_bind, lift. cbn beta iota. rewrite Hb.
  by rewrite app_nil_r.
Qed.

Lemma empty_table_stops_at_slider_witness :
  ∃ msg, App.script header_only_example 2023 "World" = ([], Raise (ValueError msg))
         ∧ Checkpoint.script header_only_example 2023 "World"
           = ([], Raise (ValueError msg)).
Proof.
  apply (empty_table_stops_at_slider header_only_example [] (loaded header_only_example)).
  - by vm_compute.
  - by vm_compute.
Defined.

Lemma default_country_loaded file out d :
  load_data file = (out, Ok d) → rows d ≠ [] →
  ∃ v, default_country d = Ok (Some v)
       ∧ Exists (λ r, cell r "Entity" = v) (rows d)
       ∧ (v = Str "World" ↔ Exists (λ r, cell r "Entity" = Str "World") (rows d))
       ∧ (v ≠ Str "World" →
          Forall (λ r, compare_value true v (cell r "Entity") ≠ Gt) (rows d)).
Proof.
  intros Hload Hne.
  destruct (load_data_Ok _ _ _ Hload) as (d0 & ys & _ & _ & _ & Hd & _ & Hcols).
  rewrite !Forall_cons in Hcols. destruct Hcols as (HE & _).
  assert (Forall (λ r, notna (cell r "Entity") = true) (rows d)) as Hna.
  { rewrite Hd. apply Forall_forall. intros r Hr.
    by apply cleaned_row_cells in Hr as (? & _). }
  destruct (sorted_unique_Ok "Entity" d HE) as (cs & Hcs & Hperm & Hsorted).
  assert (List.filter notna (column "Entity" d) = column "Entity" d) as Hfil.
  { unfold column. apply filter_all, Forall_fmap. by eapply Forall_impl. }
  rewrite Hfil in Hperm.
  assert (∀ v, v ∈ cs → Exists (λ r, cell r "Entity" = v) (rows d)) as Hin.
  { intros v Hv. rewrite Hperm in Hv. apply unique_subseteq in Hv.
    unfold column in Hv. apply list_elem_of_fmap in Hv as (r & -> & Hr).
    apply Exists_exists. eauto. }
  assert (∀ r, r ∈ rows d → ∃ v, v ∈ cs ∧ value_eqb v (cell r "Entity") = true) as Hrep.
  { intros r Hr. destruct (unique_rep (column "Entity" d) (cell r "Entity")) as (v & Hv & Heq).
    - unfold column. apply list_elem_of_fmap. eauto.
    - exists v. by rewrite Hperm. }
  assert (Str "World" ∈ cs ↔ Exists (λ r, cell r "Entity" = Str "World") (rows d)) as Hworld.
  { split; [apply Hin|]. intros (r & Hr & Hw)%Exists_exists.
    destruct (Hrep r Hr) as (v & Hv & Heq). rewrite Hw in Heq.
    by apply value_eqb_Str in Heq as <-. }
  unfold default_country, countries. rewrite Hcs. cbn [mbind result_bind].
  unfold default_index. destruct (py_in (Str "World") cs) eqn:Hpy.
  - destruct (py_index_lookup "World" cs Hpy) as (i & -> & Hi).
    cbn [mbind result_bind]. rewrite Hi. exists (Str "World").
    apply py_in_elem in Hpy.
    split; [done|]. split; [by apply Hin|]. split; [|done].
    split; [intros _; by apply Hworld|done].
  - cbn [mbind result_bind].
    assert (Str "World" ∉ cs) as Hnw.
    { intros H%py_in_elem. by rewrite H in Hpy. }
    destruct cs as [|v cs].
    { exfalso. destruct (rows d) as [|r rs] eqn:Er; [done|].
      destruct (Hrep r) as (v & Hv & _); [by left|]. by apply elem_of_nil in Hv. }
    exists v. split; [done|]. split; [apply Hin; by left|]. split.
    + split.
      * intros ->. destruct Hnw. by left.
      * intros H%Hworld. by destruct Hnw.
    + intros _. apply Forall_forall. intros r Hr.
      destruct (Hrep r Hr) as (v' & Hv' & Heq).
      apply StronglySorted_inv in Hsorted as [_ Hle].
      assert (compare_value true v v' ≠ Gt) as H1.
      { apply elem_of_cons in Hv' as [->|Hv']; [by rewrite compare_value_refl|].
        by eapply Forall_forall in Hle. }
      eapply compare_value_trans; [exact H1|].
      unfold value_eqb in Heq. by destruct (compare_value true v' (cell r "Entity")).
Qed.

(** Property X8.  For a loaded table with at least one row whose
    entities are text, the country selector starts at World when some
    row has that entity, and otherwise at the first entity in the order
    of strings; in both cases at the entity of some row. *)
Theorem default_country_of_table file out d :
  load_data file = (out, Ok d) → rows d ≠ [] →
  Forall (λ r, ∃ s, cell r "Entity" = Str s) (rows d) →
  ∃ s, default_country d = Ok (Some (Str s))
       ∧ Exists (λ r, cell r "Entity" = Str s) (rows d)
       ∧ (s = "World" ↔ Exists (λ r, cell r "Entity" = Str "World") (rows d))
       ∧ (s ≠ "World" →
          Forall (λ r, ∃ t, cell r "Entity" = Str t ∧ String.compare s t ≠ Gt) (rows d)).
Proof.
  intros Hload Hne Hstr.
  destruct (default_country_loaded _ _ _ Hload Hne) as (v & Hv & Hin & Hworld & Hleast).
  assert (∃ s, v = Str s) as [s ->].
  { apply Exists_exists in Hin as (r & Hr & <-). by eapply Forall_forall in Hstr. }
  exists s. split; [done|]. split; [done|]. split.
  - rewrite <-Hworld. split; [by intros ->|by intros [= ->]].
  - intros Hs. assert (Str s ≠ Str "World") as Hn by (by intros [= ->]).
    specialize (Hleast Hn). apply Forall_forall. intros r Hr.
    destruct (proj1 (Forall_forall _ _) Hstr r Hr) as [t Ht]. exists t. split; [done|].
    pose proof (proj1 (Forall_forall _ _) Hleast r Hr) as Hle. cbn beta in Hle.
    rewrite Ht in Hle. exact Hle.
Qed.

Lemma default_country_of_table_witness :
  ∃ s, default_country (loaded leaderboard_example) = Ok (Some (Str s))
       ∧ Exists (λ r, cell r "Entity" = Str s) (rows (loaded leaderboard_example))
       ∧ (s = "World" ↔
          Exists (λ r, cell r "Entity" = Str "World") (rows (loaded leaderboard_example)))
       ∧ (s ≠ "World" →
          Forall (λ r, ∃ t, cell r "Entity" = Str t ∧ String.compare s t ≠ Gt)
                 (rows (loaded leaderboard_example))).
Proof.
  apply (default_country_of_table leaderboard_example (load_data leaderboard_example).1).
  - by vm_compute.
  - apply (rows_nonempty _ 15). by vm_compute.
  - assert (forallb (λ r, match cell r "Entity" with Str _ => true | _ => false end)
                    (rows (loaded leaderboard_example)) = true) as Hb by (by vm_compute).
    rewrite forallb_forall in Hb. apply Forall_forall. intros r Hr%list_elem_of_In.
    specialize (Hb r Hr). destruct (cell r "Entity"); try discriminate. eauto.
Defined.

(** ** Views that return and views that stop *)

Ltac present := repeat constructor; assumption.

(** ** Steps that return and steps that stop *)

Lemma lift_bind_Ok {A B} (r : result A) (k : A → M B) a :
  r = Ok a → lift r ≫= k = k a.
Proof. intros ->. unfold lift, mbind, M_bind. by destruct (k a). Qed.

Lemma lift_bind_Raise {A B} (r : result A) (k : A → M B) e :
  r = Raise e → lift r ≫= k = ([], Raise e).
Proof. by intros ->. Qed.

Lemma outcome_seq {A B} b1 b2 (m : M A) (k : M B) :
  outcome b1 m → outcome b2 k → outcome (b1 && b2) (m ;; k).
Proof.
  destruct b1; cbn [andb outcome].
  - intros (o1 & a & ->) Hk. unfold mbind, M_bind.
    destruct b2; destruct Hk as (o2 & x & ->); by repeat eexists.
  - intros (o1 & l & ->) _. by repeat eexists.
Qed.

Lemma succeeds_write e : succeeds (write e).
Proof. by repeat eexists. Qed.

Lemma succeeds_chart_or_info (b : bool) fig msg :
  succeeds (if b then st_plotly_chart fig else st_info msg).
Proof. destruct b; apply succeeds_write. Qed.

Lemma succeeds_chart_or_nothing (b : bool) fig :
  succeeds (if b then st_plotly_chart fig else mret tt).
Proof. destruct b; [apply succeeds_write|by repeat eexists]. Qed.

(** ** Labels found and labels missing *)

Lemma where_cols cs p df :
  Forall (λ c, c ∈ columns df) cs → where_ cs p df = Ok (select p df).
Proof. intros H. unfold where_. by rewrite require_Ok. Qed.

Lemma dropna_cols cs df :
  Forall (λ c, c ∈ columns df) cs →
  dropna cs df = Ok (select (λ r, forallb (λ c, notna (cell r c)) cs) df).
Proof.
  intros H. unfold dropna.
  replace (filter (λ c, c ∉ columns df) cs) with (@nil string); [done|].
  symmetry. apply filter_nil_Forall. eapply Forall_impl; [exact H|]. tauto.
Qed.

Lemma dropna_missing cs df :
  ¬ Forall (λ c, c ∈ columns df) cs → ∃ labels, dropna cs df = Raise (KeyError labels).
Proof.
  intros H. unfold dropna. destruct (filter _ cs) eqn:E; [|eauto].
  destruct H. apply filter_nil_Forall in E. eapply Forall_impl; [exact E|].
  intros c Hc. cbn in Hc. by destruct (decide (c ∈ columns df)); [|destruct Hc].
Qed.

Lemma require_missing cs df :
  ¬ Forall (λ c, c ∈ columns df) cs → ∃ labels, require cs df = Raise (KeyError labels).
Proof.
  intros H. unfold require. destruct (filter _ cs) eqn:E; [|eauto].
  destruct H. apply filter_nil_Forall in E. eapply Forall_impl; [exact E|].
  intros c Hc. cbn in Hc. by destruct (decide (c ∈ columns df)); [|destruct Hc].
Qed.

Lemma groupby_sum_cols keys cols df :
  Forall (λ c, c ∈ columns df) (keys ++ cols) →
  ∃ t, groupby_sum keys cols df = Ok t ∧ columns t = keys ++ cols.
Proof. intros H. unfold groupby_sum. rewrite require_Ok by done. by eexists. Qed.

Lemma groupby_sum_missing keys cols df :
  ¬ Forall (λ c, c ∈ columns df) (keys ++ cols) →
  ∃ labels, groupby_sum keys cols df = Raise (KeyError labels).
Proof.
  intros H. unfold groupby_sum. destruct (require_missing _ _ H) as [l ->]. eauto.
Qed.

Lemma melt_cols ids vars var_name value_name df :
  Forall (λ c, c ∈ columns df) (ids ++ vars) →
  ∃ t, melt ids vars var_name value_name df = Ok t
       ∧ columns t = ids ++ [var_name; value_name].
Proof. intros H. unfold melt. rewrite require_Ok by done. by eexists. Qed.

Lemma nlargest_cols n col df :
  col ∈ columns df →
  ∃ t, nlargest n col df = Ok t ∧ columns t = columns df.
Proof. intros H. unfold nlargest. rewrite sort_values_Ok by done. by eexists. Qed.

Lemma sort_values_cols by_ asc df :
  by_ ∈ columns df →
  ∃ t, sort_values by_ asc df = Ok t ∧ columns t = columns df.
Proof. intros H. rewrite sort_values_Ok by done. by eexists. Qed.

(** ** The views of [app.py], one by one *)

Section outcomes.
Variable d : DataFrame.
Hypothesis HE : "Entity" ∈ columns d.
Hypothesis HC : "Code" ∈ columns d.
Hypothesis HY : "Year" ∈ columns d.

Lemma app_map_view_outcome y :
  outcome (has d "Total_GW") (App.map_view d y).
Proof using HE HC HY.
  unfold App.map_view, App.map_data. rewrite where_cols by present.
  cbn [mbind result_bind]. unfold has. case_bool_decide as HT.
  - rewrite dropna_cols by present. erewrite lift_bind_Ok by done.
    apply succeeds_chart_or_info.
  - destruct (dropna_missing ["Total_GW"; "Code"] (select (λ r, year_is y r && not_world r) d))
      as [l Hl].
    { rewrite !Forall_cons. cbn [select columns]. tauto. }
    erewrite lift_bind_Raise by done. by repeat eexists.
Qed.

Lemma app_scatter_view_outcome y :
  outcome (has d "GDP_per_Capita" && has d "Capacity_per_Capita_kW" && has d "Population")
          (App.scatter_view d y).
Proof using HE HY.
  unfold App.scatter_view, App.scatter_data. rewrite where_cols by present.
  cbn [mbind result_bind].
  destruct (decide (Forall (λ c, c ∈ columns d)
                           ["GDP_per_Capita"; "Capacity_per_Capita_kW"; "Population"]))
    as [Hall|Hnot].
  - rewrite dropna_cols by done. erewrite lift_bind_Ok by done.
    rewrite !Forall_cons in Hall. destruct Hall as (? & ? & ? & _).
    unfold has. rewrite !bool_decide_true by done. apply succeeds_chart_or_info.
  - destruct (dropna_missing _ (select (λ r, year_is y r && not_world r) d) Hnot) as [l Hl].
    erewrite lift_bind_Raise by done.
    rewrite !Forall_cons in Hnot. unfold has.
    repeat case_bool_decide; cbn [andb outcome]; try (by repeat eexists).
    destruct Hnot. repeat split; done.
Qed.

Lemma app_trend_view_outcome :
  outcome (has d "Solar_GW" && has d "Wind_GW" && has d "Hydro_GW") (App.trend_view d).
Proof using HE HY.
  unfold App.trend_view, App.global_mix_long, App.global_trend_data, App.global_trend_sums.
  rewrite where_cols by present. cbn [mbind result_bind].
  destruct (decide (Forall (λ c, c ∈ columns d) (["Year"] ++ ["Solar_GW"; "Wind_GW"; "Hydro_GW"])))
    as [Hall|Hnot].
  - destruct (groupby_sum_cols ["Year"] ["Solar_GW"; "Wind_GW"; "Hydro_GW"]
                (select not_world d) Hall) as (t & -> & Ht).
    cbn [mbind result_bind].
    destruct (melt_cols ["Year"] App.stacked_cols "Source" "Capacity_GW"
                (rename [("Solar_GW", "Solar (GW)"); ("Wind_GW", "Wind (GW)");
                         ("Hydro_GW", "Hydro (GW)")] t)) as (long & -> & Hlong).
    { cbn [rename columns]. rewrite Ht. apply (bool_decide_unpack _). by vm_compute. }
    cbn [mbind result_bind]. rewrite dropna_cols.
    2:{ rewrite Hlong. apply (bool_decide_unpack _). by vm_compute. }
    erewrite lift_bind_Ok by done.
    cbn [app] in Hall. rewrite !Forall_cons in Hall. destruct Hall as (_ & ? & ? & ? & _).
    unfold has. rewrite !bool_decide_true by done. apply succeeds_chart_or_info.
  - destruct (groupby_sum_missing _ _ (select not_world d) Hnot) as [l ->].
    cbn [mbind result_bind]. erewrite lift_bind_Raise by done.
    cbn [app] in Hnot. rewrite !Forall_cons in Hnot. unfold has.
    repeat case_bool_decide; cbn [andb outcome]; try (by repeat eexists).
    destruct Hnot. repeat split; done.
Qed.

Lemma app_top5_view_outcome y :
  outcome (has d "Total_GW") (App.top5_view d y).
Proof using HE HY.
  unfold App.top5_view, App.latest_year_data, App.country_total_renewable.
  unfold has. case_bool_decide as HT.
  - destruct (groupby_sum_cols ["Entity"; "Year"] ["Total_GW"] d) as (t & -> & Ht).
    { cbn [app]. present. }
    cbn [mbind result_bind].
    rewrite where_cols by (rewrite Ht; apply (bool_decide_unpack _); by vm_compute).
    cbn [mbind result_bind].
    rewrite where_cols by (cbn [select columns]; rewrite Ht; apply (bool_decide_unpack _); by vm_compute).
    erewrite lift_bind_Ok by done.
    set (latest := select (year_is y) (select not_world t)).
    destruct (negb (empty latest)); [|apply succeeds_write].
    unfold App.top_5_entities.
    rewrite require_Ok by (cbn [latest select columns]; rewrite Ht; apply (bool_decide_unpack _); by vm_compute).
    cbn [mbind result_bind].
    set (filled := assign "Total_GW" _ latest).
    assert (columns filled = ["Entity"; "Year"; "Total_GW"]) as Hfilled.
    { unfold filled, assign. cbn [columns latest select]. rewrite Ht.
      by rewrite bool_decide_true by (apply (bool_decide_unpack _); by vm_compute). }
    destruct (nlargest_cols 5 "Total_GW" filled) as (top & -> & Htop).
    { rewrite Hfilled. apply (bool_decide_unpack _). by vm_compute. }
    cbn [mbind result_bind].
    rewrite require_Ok by (rewrite Htop, Hfilled; apply (bool_decide_unpack _); by vm_compute).
    cbn [mbind result_bind]. erewrite lift_bind_Ok by done.
    destruct (column "Entity" top) as [|e es]; [apply succeeds_write|].
    unfold App.top5_time_series. rewrite where_cols by present.
    cbn [mbind result_bind].
    destruct (sort_values_cols "Year" true (select (λ r, isin (e :: es) (cell r "Entity")) d))
      as (sorted & -> & Hsorted); [done|].
    cbn [mbind result_bind]. rewrite dropna_cols by (rewrite Hsorted; present).
    erewrite lift_bind_Ok by done. apply succeeds_chart_or_info.
  - destruct (groupby_sum_missing ["Entity"; "Year"] ["Total_GW"] d) as [l ->].
    { cbn [app]. rewrite !Forall_cons. tauto. }
    cbn [mbind result_bind]. erewrite lift_bind_Raise by done. by repeat eexists.
Qed.

Lemma app_comparison_view_outcome :
  outcome (has d "Capacity_per_Capita_kW") (App.comparison_view d).
Proof using HE HY.
  unfold App.comparison_view, App.df_comp. rewrite !where_cols by present.
  cbn [mbind result_bind]. unfold has. case_bool_decide as HT.
  - rewrite !dropna_cols by present. erewrite !lift_bind_Ok by done.
    set (df_comp_2010 := select _ (select _ d)).
    set (df_comp_2023 := select _ (select (λ r, year_is App.year_2023 r && not_world r) d)).
    destruct (negb (empty df_comp_2010) && negb (empty df_comp_2023)); [|apply succeeds_write].
    unfold App.top10_2023_entities.
    destruct (nlargest_cols 10 "Capacity_per_Capita_kW" df_comp_2023) as (top & -> & Htop);
      [done|].
    cbn [mbind result_bind]. rewrite require_Ok by (rewrite Htop; present).
    cbn [mbind result_bind]. erewrite lift_bind_Ok by done.
    destruct (column "Entity" top) as [|e es]; [apply succeeds_write|].
    unfold App.comparison_data. rewrite where_cols by present.
    cbn [mbind result_bind]. rewrite require_Ok by present.
    cbn [mbind result_bind]. rewrite dropna_cols.
    2:{ unfold assign. cbn [columns select]. rewrite bool_decide_true by done. present. }
    erewrite lift_bind_Ok by done.
    set (data := select _ (assign _ _ _)).
    destruct (negb (empty data)); [|apply succeeds_write].
    unfold App.category_order.
    destruct (sort_values_cols "Capacity_per_Capita_kW" true
                {| columns := columns df_comp_2023;
                   rows := flat_map (λ e0, List.filter (λ r, value_eqb (cell r "Entity") e0)
                                             (rows df_comp_2023)) (e :: es) |})
      as (sorted & -> & _); [done|].
    cbn [mbind result_bind]. erewrite lift_bind_Ok by done. apply succeeds_write.
  - destruct (dropna_missing ["Capacity_per_Capita_kW"]
                (select (λ r, year_is App.year_2010 r && not_world r) d)) as [l ->].
    { rewrite !Forall_cons. cbn [select columns]. tauto. }
    erewrite lift_bind_Raise by done. by repeat eexists.
Qed.
End outcomes.

Section outcomes_checkpoint.
Variable d : DataFrame.
Hypothesis HE : "Entity" ∈ columns d.
Hypothesis HC : "Code" ∈ columns d.
Hypothesis HY : "Year" ∈ columns d.

Lemma checkpoint_map_view_outcome y :
  outcome (has d "Total_GW") (Checkpoint.map_view d y).
Proof using HE HC HY.
  unfold Checkpoint.map_view, Checkpoint.map_data. rewrite where_cols by present.
  cbn [mbind result_bind]. unfold has. case_bool_decide as HT.
  - rewrite dropna_cols by present. erewrite lift_bind_Ok by done.
    apply succeeds_chart_or_nothing.
  - destruct (dropna_missing ["Total_GW"; "Code"] (select (λ r, year_is y r && not_world r) d))
      as [l Hl].
    { rewrite !Forall_cons. cbn [select columns]. tauto. }
    erewrite lift_bind_Raise by done. by repeat eexists.
Qed.

Lemma checkpoint_trend_view_outcome :
  outcome (has d "Solar_GW" && has d "Wind_GW" && has d "Hydro_GW")
          (Checkpoint.trend_view d).
Proof using HE HY.
  unfold Checkpoint.trend_view, Checkpoint.global_trend_data.
  rewrite where_cols by present. cbn [mbind result_bind].
  destruct (decide (Forall (λ c, c ∈ columns d) (["Year"] ++ ["Solar_GW"; "Wind_GW"; "Hydro_GW"])))
    as [Hall|Hnot].
  - destruct (groupby_sum_cols ["Year"] ["Solar_GW"; "Wind_GW"; "Hydro_GW"]
                (select not_world d) Hall) as (t & -> & Ht).
    erewrite lift_bind_Ok by done.
    cbn [app] in Hall. rewrite !Forall_cons in Hall. destruct Hall as (_ & ? & ? & ? & _).
    unfold has. rewrite !bool_decide_true by done. apply succeeds_chart_or_nothing.
  - destruct (groupby_sum_missing _ _ (select not_world d) Hnot) as [l ->].
    erewrite lift_bind_Raise by done.
    cbn [app] in Hnot. rewrite !Forall_cons in Hnot. unfold has.
    repeat case_bool_decide; cbn [andb outcome]; try (by repeat eexists).
    destruct Hnot. repeat split; done.
Qed.

Lemma checkpoint_leaders_view_outcome y :
  outcome (has d "Total_GW") (Checkpoint.leaders_view d y).
Proof using HE HY.
  unfold Checkpoint.leaders_view, Checkpoint.top_10, Checkpoint.latest_data.
  rewrite where_cols by present. cbn [mbind result_bind].
  unfold has. case_bool_decide as HT.
  - rewrite dropna_cols by present. cbn [mbind result_bind].
    set (latest := select _ (select _ d)).
    destruct (nlargest_cols 10 "Total_GW" latest) as (top & -> & Htop); [done|].
    cbn [mbind result_bind].
    destruct (sort_values_cols "Total_GW" true top) as (sorted & -> & _);
      [by rewrite Htop|].
    erewrite lift_bind_Ok by done. apply succeeds_chart_or_nothing.
  - destruct (dropna_missing ["Total_GW"] (select (λ r, year_is y r && not_world r) d))
      as [l ->].
    { rewrite !Forall_cons. cbn [select columns]. tauto. }
    erewrite lift_bind_Raise by done. by repeat eexists.
Qed.

Lemma checkpoint_scatter_view_outcome y :
  outcome (has d "GDP_per_Capita" && has d "Capacity_per_Capita_kW" && has d "Population")
          (Checkpoint.scatter_view d y).
Proof using HE HY.
  unfold Checkpoint.scatter_view, Checkpoint.scatter_data. rewrite where_cols by present.
  cbn [mbind result_bind].
  destruct (decide (Forall (λ c, c ∈ columns d)
                           ["GDP_per_Capita"; "Capacity_per_Capita_kW"; "Population"]))
    as [Hall|Hnot].
  - rewrite dropna_cols by done. erewrite lift_bind_Ok by done.
    rewrite !Forall_cons in Hall. destruct Hall as (? & ? & ? & _).
    unfold has. rewrite !bool_decide_true by done. apply succeeds_chart_or_nothing.
  - destruct (dropna_missing _ (select (λ r, year_is y r && not_world r) d) Hnot) as [l Hl].
    erewrite lift_bind_Raise by done.
    rewrite !Forall_cons in Hnot. unfold has.
    repeat case_bool_decide; cbn [andb outcome]; try (by repeat eexists).
    destruct Hnot. repeat split; done.
Qed.

Lemma checkpoint_comparison_view_outcome :
  outcome (has d "Capacity_per_Capita_kW") (Checkpoint.comparison_view d).
Proof using HE HY.
  unfold Checkpoint.comparison_view, Checkpoint.df_year. rewrite !where_cols by present.
  cbn [mbind result_bind]. unfold has. case_bool_decide as HT.
  - rewrite !dropna_cols by present. erewrite !lift_bind_Ok by done.
    set (df_2010 := select _ (select _ d)).
    set (df_2023 := select _ (select (λ r, year_is Checkpoint.year_2023 r && not_world r) d)).
    destruct (negb (empty df_2010) && negb (empty df_2023)); [|by repeat eexists].
    unfold Checkpoint.top10_2023.
    destruct (nlargest_cols 10 "Capacity_per_Capita_kW" df_2023) as (top & -> & Htop);
      [done|].
    cbn [mbind result_bind]. rewrite require_Ok by (rewrite Htop; present).
    cbn [mbind result_bind]. erewrite lift_bind_Ok by done.
    unfold Checkpoint.comparison_data. rewrite where_cols by present.
    cbn [mbind result_bind]. rewrite dropna_cols by present.
    erewrite lift_bind_Ok by done. apply succeeds_chart_or_nothing.
  - destruct (dropna_missing ["Capacity_per_Capita_kW"]
                (select (λ r, year_is Checkpoint.year_2010 r && not_world r) d)) as [l ->].
    { rewrite !Forall_cons. cbn [select columns]. tauto. }
    erewrite lift_bind_Raise by done. by repeat eexists.
Qed.
End outcomes_checkpoint.

(** ** The point lookup *)

Lemma format_fixed_numeric n v : numeric v → ∃ s, format_fixed n v = Ok s.
Proof. destruct v as [|s|q|b]; cbn; eauto. intros H. by destruct (H s). Qed.

Lemma matched_cell_numeric file out d (p : gmap string value → bool) r col :
  load_data file = (out, Ok d) → r ∈ rows d → col ∈ numeric_cols →
  numeric (get (series_of (select p d) r) col (Int 0)).
Proof.
  intros Hload Hr Hcol. rewrite get_series_of. cbn [select columns].
  destruct (decide (col ∈ columns d)); [by eapply loaded_numeric|done].
Qed.

Lemma metric_columns_numeric : metric_columns ⊆ numeric_cols.
Proof. apply (bool_decide_unpack _). by vm_compute. Qed.

Lemma point_lookup_succeeds file out d year country :
  load_data file = (out, Ok d) →
  succeeds (App.row1 d year country) ∧ succeeds (Checkpoint.key_insights d year country).
Proof.
  intros Hload.
  destruct (load_data_Ok _ _ _ Hload) as (_ & _ & _ & _ & _ & _ & _ & Hcols).
  rewrite !Forall_cons in Hcols. destruct Hcols as (HE & _ & HY & _).
  unfold App.row1, Checkpoint.key_insights.
  unfold App.filtered_country_data, Checkpoint.filtered_country_data.
  rewrite where_cols by (repeat constructor; assumption).
  erewrite !lift_bind_Ok by done.
  set (p := λ r, year_is year r && entity_is country r).
  destruct (rows (select p d)) as [|r rest] eqn:Hrows.
  { split; by repeat eexists. }
  assert (r ∈ rows d) as Hr.
  { cbn [select rows] in Hrows. apply list_elem_of_In.
    eapply (proj1 (filter_In p r (rows d))). rewrite Hrows. by left. }
  assert (∀ n col, col ∈ metric_columns →
                   ∃ s, format_fixed n (get (series_of (select p d) r) col (Int 0)) = Ok s)
    as Hfmt.
  { intros n col Hcol%metric_columns_numeric.
    by eapply format_fixed_numeric, matched_cell_numeric. }
  assert (Forall (λ col, col ∈ metric_columns) metric_columns) as Hall
    by by apply Forall_forall.
  unfold metric_columns in Hall at 2. rewrite !Forall_cons in Hall.
  destruct Hall as (H1 & H2 & H3 & H4 & H5 & _).
  split.
  - apply (outcome_seq true true).
    + unfold App.metrics, App.metric_value.
      destruct (Hfmt 2%nat _ H1) as [s1 ->], (Hfmt 2%nat _ H2) as [s2 ->],
        (Hfmt 2%nat _ H3) as [s3 ->], (Hfmt 2%nat _ H4) as [s4 ->],
        (Hfmt 2%nat _ H5) as [s5 ->].
      by repeat eexists.
    + rewrite (energy_mix_cases _ _ (mix_df_rows _)).
      destruct (negb (empty _)); by repeat eexists.
  - apply (outcome_seq true true).
    + unfold Checkpoint.metrics, Checkpoint.metric_value.
      destruct (Hfmt 1%nat _ H1) as [s1 ->], (Hfmt 1%nat _ H2) as [s2 ->],
        (Hfmt 1%nat _ H3) as [s3 ->], (Hfmt 1%nat _ H4) as [s4 ->],
        (Hfmt 2%nat _ H5) as [s5 ->].
      by repeat eexists.
    + unfold Checkpoint.energy_mix. cbv zeta.
      destruct (gt0 _); by repeat eexists.
Qed.

(** ** The whole render *)

Lemma render_outcome file out d year country :
  load_data file = (out, Ok d) →
  outcome (has d "Total_GW" && (has d "Solar_GW" && has d "Wind_GW" && has d "Hydro_GW")
           && (has d "GDP_per_Capita" && has d "Capacity_per_Capita_kW" && has d "Population"))
          (App.render d year country)
  ∧ outcome (has d "Total_GW" && (has d "Solar_GW" && has d "Wind_GW" && has d "Hydro_GW")
             && (has d "GDP_per_Capita" && has d "Capacity_per_Capita_kW" && has d "Population"))
            (Checkpoint.render d year country).
Proof.
  intros Hload.
  destruct (load_data_Ok _ _ _ Hload) as (_ & _ & _ & _ & _ & _ & _ & Hcols).
  rewrite !Forall_cons in Hcols. destruct Hcols as (HE & HC & HY & _).
  destruct (point_lookup_succeeds _ _ _ year country Hload) as [Happ Hcp].
  pose proof (app_map_view_outcome d HE HC HY year) as A2.
  pose proof (app_trend_view_outcome d HE HY) as A3.
  pose proof (app_top5_view_outcome d HE HY year) as A4.
  pose proof (app_scatter_view_outcome d HE HY year) as A5.
  pose proof (app_comparison_view_outcome d HE HY) as A6.
  pose proof (checkpoint_map_view_outcome d HE HC HY year) as C2.
  pose proof (checkpoint_trend_view_outcome d HE HY) as C3.
  pose proof (checkpoint_leaders_view_outcome d HE HY year) as C4.
  pose proof (checkpoint_scatter_view_outcome d HE HY year) as C5.
  pose proof (checkpoint_comparison_view_outcome d HE HY) as C6.
  pose proof (outcome_seq _ _ _ _ A5 A6) as A56.
  pose proof (outcome_seq _ _ _ _ A4 A56) as A46.
  pose proof (outcome_seq _ _ _ _ A3 A46) as A36.
  pose proof (outcome_seq _ _ _ _ A2 A36) as A26.
  pose proof (outcome_seq true _ _ _ Happ A26) as A16.
  pose proof (outcome_seq _ _ _ _ C5 C6) as C56.
  pose proof (outcome_seq _ _ _ _ C4 C56) as C46.
  pose proof (outcome_seq _ _ _ _ C3 C46) as C36.
  pose proof (outcome_seq _ _ _ _ C2 C36) as C26.
  pose proof (outcome_seq true _ _ _ Hcp C26) as C16.
  unfold App.render, Checkpoint.render.
  destruct (has d "Total_GW"), (has d "Solar_GW"), (has d "Wind_GW"), (has d "Hydro_GW"),
    (has d "GDP_per_Capita"), (has d "Capacity_per_Capita_kW"), (has d "Population");
    split; assumption.
Qed.

(** Property X11.  When the loader gives no warning, so that the table
    has all seven numeric columns, no step of the render of either
    script raises, whatever the selection: every label is found and
    every metric is formatted.  What Plotly checks about the arguments
    of a figure is not part of the page. *)
Theorem render_with_every_column file d year country :
  load_data file = ([], Ok d) →
  (∃ page, App.render d year country = (page, Ok tt))
  ∧ (∃ page, Checkpoint.render d year country = (page, Ok tt)).
Proof.
  intros Hload. destruct (render_outcome _ _ _ year country Hload) as [Ha Hc].
  pose proof (no_warning_iff_complete _ _ _ Hload) as Hall.
  assert (Forall (λ c, c ∈ columns d) numeric_cols) as Hcols by by apply Hall.
  unfold numeric_cols in Hcols. rewrite !Forall_cons in Hcols.
  destruct Hcols as (? & ? & ? & ? & ? & ? & ? & _).
  unfold has in Ha, Hc. rewrite !bool_decide_true in Ha, Hc by done.
  destruct Ha as (pa & [] & ->), Hc as (pc & [] & ->). eauto.
Qed.

Lemma render_with_every_column_witness :
  (∃ page, App.render (loaded two_years_example) 2023 "Testland" = (page, Ok tt))
  ∧ (∃ page, Checkpoint.render (loaded two_years_example) 2023 "Testland" = (page, Ok tt)).
Proof.
  apply (render_with_every_column two_years_example). by vm_compute.
Defined.

(** Property X12.  When the loader has warned about a missing numeric
    column, the render of either script stops with a [KeyError] at the
    first view that takes that column by its label, whatever the
    selection: the views after it are not drawn. *)
Theorem render_stops_at_missing_column file out d year country :
  load_data file = (out, Ok d) → out ≠ [] →
  (∃ page labels, App.render d year country = (page, Raise (KeyError labels)))
  ∧ (∃ page labels, Checkpoint.render d year country = (page, Raise (KeyError labels))).
Proof.
  intros Hload Hout. destruct (render_outcome _ _ _ year country Hload) as [Ha Hc].
  pose proof (no_warning_iff_complete _ _ _ Hload) as Hall.
  assert (¬ Forall (λ c, c ∈ columns d) numeric_cols) as Hcols by (by rewrite <-Hall).
  unfold numeric_cols in Hcols. rewrite !Forall_cons in Hcols.
  unfold has in Ha, Hc.
  repeat case_bool_decide; cbn [andb outcome] in Ha, Hc; try (by split).
  destruct Hcols. repeat split; done.
Qed.

Lemma render_stops_at_missing_column_witness :
  (∃ page labels,
     App.render (loaded years_example) 2020 "Aland" = (page, Raise (KeyError labels)))
  ∧ (∃ page labels,
       Checkpoint.render (loaded years_example) 2020 "Aland"
       = (page, Raise (KeyError labels))).
Proof.
  apply (render_stops_at_missing_column years_example (load_data years_example).1).
  - by vm_compute.
  - by vm_compute.
Defined.

(** Property X10.  On a loaded table the point lookup with its metric
    cards and energy mix raises nothing in either script, whichever
    numeric columns the table lacks: a column that is absent reads as 0
    and a cell of a column that is present is never text. *)
Theorem point_lookup_never_raises file out d year country :
  load_data file = (out, Ok d) →
  (∃ page, App.row1 d year country = (page, Ok tt))
  ∧ (∃ page, Checkpoint.key_insights d year country = (page, Ok tt)).
Proof.
  intros Hload.
  destruct (point_lookup_succeeds _ _ _ year country Hload)
    as [(pa & [] & ->) (pc & [] & ->)].
  eauto.
Qed.

Lemma point_lookup_never_raises_witness :
  (∃ page, App.row1 (loaded (Contents bad_year_frame)) 0 "Aland" = (page, Ok tt))
  ∧ (∃ page, Checkpoint.key_insights (loaded (Contents bad_year_frame)) 0 "Aland" = (page, Ok tt)).
Proof.
  apply (point_lookup_never_raises (Contents bad_year_frame) (load_data (Contents bad_year_frame)).1).
  by vm_compute.
Defined.

(** ** The point lookup without a match *)

Lemma write_seq_head {B} e (k : M B) : ∃ o r, (write e ;; k) = (e :: o, r).
Proof. unfold write, mbind, M_bind. destruct k as [o r]. by exists o, r. Qed.

Lemma head_bind {A B} (m : M A) (k : A → M B) e o r :
  m = (e :: o, r) → ∃ o' r', m ≫= k = (e :: o', r').
Proof.
  intros ->. unfold mbind, M_bind. destruct r as [a|x]; [|eauto].
  destruct (k a) as [o' r']. by exists (o ++ o'), r'.
Qed.

Lemma app_metrics_head row :
  (∃ l s o r, App.metrics row = (StMetric l s :: o, r))
  ∨ (∃ e, App.metrics row = ([], Raise e)).
Proof.
  unfold App.metrics. destruct (App.metric_value row "Solar_GW") as [v|e]; [left|by right; eauto].
  erewrite lift_bind_Ok by done.
  destruct (write_seq_head (StMetric "Total Solar (GW)" v)
              (v ← lift (App.metric_value row "Wind_GW");
               st_metric "Total Wind (GW)" v;;
               v ← lift (App.metric_value row "Hydro_GW");
               st_metric "Total Hydro (GW)" v;;
               v ← lift (App.metric_value row "Total_GW");
               st_metric "Total Renewable (GW)" v;;
               v ← lift (App.metric_value row "Capacity_per_Capita_kW");
               st_metric "Per Capita Capacity (kW)" v)) as (o & r & H).
  eauto.
Qed.

Lemma checkpoint_metrics_head row :
  (∃ l s o r, Checkpoint.metrics row = (StMetric l s :: o, r))
  ∨ (∃ e, Checkpoint.metrics row = ([], Raise e)).
Proof.
  unfold Checkpoint.metrics.
  destruct (Checkpoint.metric_value 1 row "Solar_GW") as [v1|e]; [|by right; eauto].
  erewrite lift_bind_Ok by done.
  destruct (Checkpoint.metric_value 1 row "Wind_GW") as [v2|e]; [|by right; eauto].
  erewrite lift_bind_Ok by done.
  destruct (Checkpoint.metric_value 1 row "Hydro_GW") as [v3|e]; [|by right; eauto].
  erewrite lift_bind_Ok by done.
  destruct (Checkpoint.metric_value 1 row "Total_GW") as [v4|e]; [|by right; eauto].
  erewrite lift_bind_Ok by done.
  destruct (Checkpoint.metric_value 2 row "Capacity_per_Capita_kW") as [v5|e];
    [|by right; eauto].
  erewrite lift_bind_Ok by done. left.
  destruct (write_seq_head (StMetric "☀️ Solar Capacity" v1)
              (st_metric "💨 Wind Capacity" v2;;
               st_metric "💧 Hydro Capacity" v3;;
               st_metric "⚡ Total Renewable" v4;;
               st_metric "👤 Per Capita" v5)) as (o & r & H).
  eauto.
Qed.

Lemma metrics_then {B} (m : M unit) (k : M B) :
  (∃ l s o r, m = (StMetric l s :: o, r)) ∨ (∃ e, m = ([], Raise e)) →
  (∃ l s o r, (m ;; k) = (StMetric l s :: o, r)) ∨ (∃ e, (m ;; k) = ([], Raise e)).
Proof.
  intros [(l & s & o & r & H)|(e & ->)]; [left|right; eauto].
  destruct (head_bind m (λ _, k) _ _ _ H) as (o' & r' & ->). eauto.
Qed.

(** Property X9.  The point lookup of [app.py] shows its message, and
    that alone, exactly when no row of the table has the selected year
    and country; the checkpoint script shows nothing at all exactly
    then. *)
Theorem point_lookup_without_match d year country :
  "Year" ∈ columns d → "Entity" ∈ columns d →
  (App.row1 d year country = ([no_detail_message country year], Ok tt)
   ↔ Forall (λ r, matches year country r = false) (rows d))
  ∧ (Checkpoint.key_insights d year country = ([], Ok tt)
     ↔ Forall (λ r, matches year country r = false) (rows d)).
Proof.
  intros HY HE.
  unfold App.row1, Checkpoint.key_insights.
  unfold App.filtered_country_data, Checkpoint.filtered_country_data.
  rewrite where_cols by (repeat constructor; assumption).
  erewrite !lift_bind_Ok by done. cbn [select rows]. fold (matches year country).
  assert (List.filter (matches year country) (rows d) = []
          ↔ Forall (λ r, matches year country r = false) (rows d)) as Hnone.
  { induction (rows d) as [|r rs IH]; [done|]. cbn [List.filter]. rewrite Forall_cons.
    destruct (matches year country r); [split; [done|by intros []]|]. tauto. }
  rewrite <-Hnone. clear Hnone.
  destruct (List.filter (matches year country) (rows d)) as [|r rest].
  { done. }
  set (row := series_of _ r). split; (split; [|done]); intros H; exfalso.
  - destruct (metrics_then _ (App.energy_mix row) (app_metrics_head row))
      as [(l & s & o & x & E)|(e & E)]; rewrite E in H; discriminate.
  - destruct (metrics_then _ (Checkpoint.energy_mix row) (checkpoint_metrics_head row))
      as [(l & s & o & x & E)|(e & E)]; rewrite E in H; discriminate.
Qed.

Lemma point_lookup_without_match_witness :
  (App.row1 (loaded two_years_example) 1900 "Testland"
   = ([no_detail_message "Testland" 1900], Ok tt)
   ↔ Forall (λ r, matches 1900 "Testland" r = false) (rows (loaded two_years_example)))
  ∧ (Checkpoint.key_insights (loaded two_years_example) 1900 "Testland" = ([], Ok tt)
     ↔ Forall (λ r, matches 1900 "Testland" r = false) (rows (loaded two_years_example))).
Proof.
  apply (point_lookup_without_match (loaded two_years_example)).
  - apply (bool_decide_unpack _). by vm_compute.
  - apply (bool_decide_unpack _). by vm_compute.
Defined.

(** ** Rankings that cannot come out empty *)

Lemma app_top5_view_pages d y :
  (App.top5_view d y).1 = []
  ∨ (∃ series, (App.top5_view d y).1 = [StChart (Line series)])
  ∨ (App.top5_view d y).1
    = [StInfo "Insufficient data for selected top 5 countries time series."]
  ∨ (App.top5_view d y).1
    = [StInfo ("No data available for top 5 country growth in " ++ pretty y ++ ".")].
Proof.
  unfold App.top5_view.
  destruct (App.latest_year_data d y) as [latest|e] eqn:Hlatest;
    [|by left; erewrite lift_bind_Raise].
  erewrite lift_bind_Ok by done.
  destruct (negb (empty latest)) eqn:Hne; [|by do 3 right].
  destruct (App.top_5_entities latest) as [top5|e] eqn:Htop;
    [|by left; erewrite lift_bind_Raise].
  erewrite lift_bind_Ok by done.
  destruct top5 as [|e es].
  { exfalso. unfold App.top_5_entities in Htop.
    destruct (require ["Total_GW"] latest); [|discriminate].
    cbn [mbind result_bind] in Htop.
    eapply (top_entities_nonempty 5); [lia| |exact Htop|done].
    unfold assign, column. cbn [rows]. unfold empty in Hne.
    by destruct (rows latest). }
  destruct (App.top5_time_series d (e :: es)) as [series|x];
    [|by left; erewrite lift_bind_Raise].
  erewrite lift_bind_Ok by done.
  destruct (negb (empty series)); [right; left; eauto|by do 2 right; left].
Qed.

Lemma app_comparison_view_pages d :
  (App.comparison_view d).1 = []
  ∨ (∃ data order, (App.comparison_view d).1 = [StChart (Bar data order)])
  ∨ (App.comparison_view d).1
    = [StInfo "No comparison data available for the top 10 countries across both years."]
  ∨ (App.comparison_view d).1
    = [StInfo "Data for 2010 or 2023 is insufficient for comparison chart."].
Proof.
  unfold App.comparison_view.
  destruct (App.df_comp d App.year_2010) as [d10|e];
    [|by left; erewrite lift_bind_Raise].
  erewrite lift_bind_Ok by done.
  destruct (App.df_comp d App.year_2023) as [d23|e];
    [|by left; erewrite lift_bind_Raise].
  erewrite lift_bind_Ok by done.
  destruct (negb (empty d10) && negb (empty d23)) eqn:Hne; [|by do 3 right].
  destruct (App.top10_2023_entities d23) as [top10|e] eqn:Htop;
    [|by left; erewrite lift_bind_Raise].
  erewrite lift_bind_Ok by done.
  destruct top10 as [|e es].
  { exfalso. eapply (top_entities_nonempty 10 _ d23 []); [lia| |exact Htop|done].
    apply andb_true_iff in Hne as [_ Hne]. unfold empty in Hne. by destruct (rows d23). }
  destruct (App.comparison_data d (e :: es)) as [data|x];
    [|by left; erewrite lift_bind_Raise].
  erewrite lift_bind_Ok by done.
  destruct (negb (empty data)); [|by do 2 right; left].
  destruct (App.category_order d23 (e :: es)) as [order|x];
    [|by left; erewrite lift_bind_Raise].
  erewrite lift_bind_Ok by done. right; left. eauto.
Qed.

(** Property X13.  The two messages of [app.py] for a ranking that
    could not be determined are never shown: [nlargest] of a frame with
    a row returns a row, so the list of top entities is never empty
    where the script tests it. *)
Theorem rankings_always_determined d year :
  (no_top5_message year ∉ (App.top5_view d year).1)
  ∧ (no_top10_message ∉ (App.comparison_view d).1).
Proof.
  split.
  - destruct (app_top5_view_pages d year) as [ -> | [ [s ->] | [ -> | -> ] ] ];
      [apply not_elem_of_nil|..]; intros H%list_elem_of_singleton; discriminate.
  - destruct (app_comparison_view_pages d) as [ -> | [ (x & o & ->) | [ -> | -> ] ] ];
      [apply not_elem_of_nil|..]; intros H%list_elem_of_singleton; discriminate.
Qed.

(** ** The donut of the checkpoint script *)

Lemma py_sum_NaN vs : NaN ∈ vs → py_sum vs = NaN.
Proof.
  unfold py_sum. generalize (Int 0). induction vs as [|v vs IH]; intros acc H.
  - by apply elem_of_nil in H.
  - cbn [foldl]. apply elem_of_cons in H as [<-|H]; [|by apply IH].
    assert (vadd acc NaN = NaN) as -> by by destruct acc.
    clear. induction vs as [|w vs IH]; [done|]. cbn [foldl].
    by assert (vadd NaN w = NaN) as -> by done.
Qed.

(** Property X14.  In the checkpoint script a missing value of solar,
    wind or hydro capacity hides the donut: Python's [sum] of the three
    values is then not a number, and the message is shown; [app.py]
    still draws the pie when another source is strictly positive. *)
Theorem missing_source_hides_donut row :
  NaN ∈ (snd <$> Checkpoint.mix_data row) →
  Checkpoint.energy_mix row
  = ([StInfo "🔍 No renewable energy data available for the selected country and year."],
     Ok tt)
  ∧ (Exists positive (snd <$> App.mix_data row) →
     ∃ mix, App.energy_mix row = ([StChart (Pie mix)], Ok tt)).
Proof.
  intros Hnan. split.
  - unfold Checkpoint.energy_mix. cbv zeta. by rewrite (py_sum_NaN _ Hnan).
  - intros (v & Hv & Hpos)%Exists_exists.
    apply list_elem_of_fmap in Hv as ([source v'] & -> & Hin). cbn [snd] in Hpos.
    rewrite (energy_mix_cases _ _ (mix_df_rows row)).
    assert (mix_row source v'
              ∈ List.filter (λ r, gt0 (cell r "Capacity_GW"))
                  ((λ p, mix_row p.1 p.2) <$> App.mix_data row)) as Hslice.
    { apply list_elem_of_In, filter_In. split.
      - apply list_elem_of_In, list_elem_of_fmap. by exists (source, v').
      - rewrite mix_row_capacity. by apply gt0_positive. }
    unfold empty. cbn [rows]. destruct (List.filter _ _) as [|slice slices]; [|eauto].
    by apply elem_of_nil in Hslice.
Qed.

Lemma missing_source_hides_donut_witness :
  Checkpoint.energy_mix
    (list_to_map [("Solar_GW", NaN); ("Wind_GW", Int 3); ("Hydro_GW", Int 2)])
  = ([StInfo "🔍 No renewable energy data available for the selected country and year."],
     Ok tt)
  ∧ (Exists positive
       (snd <$> App.mix_data
                  (list_to_map [("Solar_GW", NaN); ("Wind_GW", Int 3); ("Hydro_GW", Int 2)])) →
     ∃ mix,
       App.energy_mix
         (list_to_map [("Solar_GW", NaN); ("Wind_GW", Int 3); ("Hydro_GW", Int 2)])
       = ([StChart (Pie mix)], Ok tt)).
Proof.
  apply (missing_source_hides_donut
           (list_to_map [("Solar_GW", NaN); ("Wind_GW", Int 3); ("Hydro_GW", Int 2)])).
  apply (list_elem_of_lookup_2 _ 0). by vm_compute.
Defined.

(** ** Grouping by year *)

Lemma compare_keys_refl k : compare_keys k k = Eq.
Proof. induction k as [|v k IH]; [done|]. cbn. by rewrite compare_value_refl. Qed.

Lemma distinct_subseteq l : distinct l ⊆ l.
Proof.
  induction l as [|k l IH]; cbn; [done|].
  intros x [->|Hx]%elem_of_cons; [by left|].
  apply list_elem_of_In, filter_In in Hx as [Hx%list_elem_of_In _]. right. by apply IH.
Qed.

Lemma distinct_NoDup l : NoDup (distinct l).
Proof.
  induction l as [|k l IH]; cbn; constructor.
  - intros [_ H]%list_elem_of_In%filter_In.
    unfold same_key in H. by rewrite compare_keys_refl in H.
  - apply NoDup_ListNoDup, List.NoDup_filter, NoDup_ListNoDup, IH.
Qed.

Lemma compare_year_key a b : compare_keys (year_key a) (year_key b) = (a ?= b)%Z.
Proof.
  unfold year_key. cbn [compare_keys]. rewrite compare_Int. by destruct (a ?= b)%Z.
Qed.

Lemma same_year_key a b : same_key (year_key a) (year_key b) = (a =? b)%Z.
Proof.
  unfold same_key. rewrite compare_year_key.
  destruct (Z.compare_spec a b) as [->| |]; [by rewrite Z.eqb_refl|..];
    symmetry; apply Z.eqb_neq; lia.
Qed.

Lemma distinct_year_keys zs z :
  z ∈ zs → year_key z ∈ distinct (year_key <$> zs).
Proof.
  induction zs as [|a zs IH]; [by intros ?%elem_of_nil|].
  rewrite fmap_cons. cbn [distinct]. intros [->|Hz]%elem_of_cons; [by left|].
  destruct (decide (a = z)) as [->|Hne]; [by left|]. right.
  apply list_elem_of_In, filter_In. split; [by apply list_elem_of_In, IH|].
  rewrite same_year_key. by apply negb_true_iff, Z.eqb_neq.
Qed.

Lemma year_key_inj : Inj (=) (=) year_key.
Proof. intros a b [= H]. done. Qed.

Lemma fmap_preimage {A B} (f : A → B) (l : list B) :
  Forall (λ y, ∃ x, y = f x) l → ∃ xs, l = f <$> xs.
Proof.
  induction 1 as [|y l [x ->] _ [xs ->]]; [by exists []|]. by exists (x :: xs).
Qed.

Lemma insert_sorted_fmap {A B} (f : A → B) cmpA cmpB x l :
  (∀ a b, cmpB (f a) (f b) = cmpA a b) →
  insert_sorted cmpB (f x) (f <$> l) = f <$> insert_sorted cmpA x l.
Proof.
  intros Hf. induction l as [|y l IH]; [done|].
  rewrite fmap_cons. cbn [insert_sorted]. rewrite Hf.
  destruct (cmpA y x); try done. by rewrite IH.
Qed.

Lemma stable_sort_fmap {A B} (f : A → B) cmpA cmpB l :
  (∀ a b, cmpB (f a) (f b) = cmpA a b) →
  stable_sort cmpB (f <$> l) = f <$> stable_sort cmpA l.
Proof.
  intros Hf. induction l as [|x l IH]; [done|].
  rewrite fmap_cons.
  change (stable_sort cmpB (f x :: (f <$> l)))
    with (insert_sorted cmpB (f x) (stable_sort cmpB (f <$> l))).
  change (stable_sort cmpA (x :: l)) with (insert_sorted cmpA x (stable_sort cmpA l)).
  rewrite IH. by apply insert_sorted_fmap.
Qed.

Lemma sorted_NoDup_strict zs :
  StronglySorted (λ a b, (a ?= b)%Z ≠ Gt) zs → NoDup zs → StronglySorted Z.lt zs.
Proof.
  induction 1 as [|a zs Hs IH Ha]; intros Hnd; constructor.
  - apply IH. by apply NoDup_cons in Hnd as [_ ?].
  - apply NoDup_cons in Hnd as [Hnin _].
    apply Forall_forall. intros b Hb.
    pose proof (proj1 (Forall_forall _ _) Ha b Hb) as Hle. cbn in Hle.
    assert (a ≠ b) by (by intros ->).
    destruct (Z.compare_spec a b); [done|done|by destruct Hle].
Qed.

Lemma eq_num_Int a z : eq_num (Int a) z = (a =? z)%Z.
Proof.
  unfold eq_num, Int. destruct (Z.eqb_spec a z) as [->|Hne].
  - by apply Qeq_bool_iff.
  - apply not_true_iff_false. intros H%Qeq_bool_iff. apply Hne. by apply inject_Z_injective.
Qed.

(** Property X15.  The trend table of both scripts has one row for
    each year that some row other than the world's has, the years in
    strictly ascending order; the solar, wind and hydro cell of a year
    is the sum over the rows of that year, the world's apart, with
    missing cells skipped. *)
Theorem global_trend_by_year file out d :
  load_data file = (out, Ok d) →
  Forall (λ c, c ∈ columns d) ["Solar_GW"; "Wind_GW"; "Hydro_GW"] →
  ∃ t years,
    App.global_trend_sums d = Ok t
    ∧ Checkpoint.global_trend_data d = Ok t
    ∧ column "Year" t = Int <$> years
    ∧ StronglySorted Z.lt years
    ∧ (∀ z, z ∈ years ↔
            Exists (λ r, not_world r = true ∧ cell r "Year" = Int z) (rows d))
    ∧ Forall2 (λ z row,
                 ∀ c, c ∈ ["Solar_GW"; "Wind_GW"; "Hydro_GW"] →
                      cell row c
                      = vsum ((λ r, cell r c)
                                <$> List.filter (λ r, not_world r && year_is z r) (rows d)))
              years (rows t).
Proof.
  intros Hload Hcols.
  pose proof (loaded_year_cells _ _ _ Hload) as Hint.
  destruct (load_data_Ok _ _ _ Hload) as (_ & _ & _ & _ & _ & _ & _ & Hid).
  rewrite !Forall_cons in Hid. destruct Hid as (HE & _ & HY & _).
  change (Checkpoint.global_trend_data d) with (App.global_trend_sums d).
  unfold App.global_trend_sums. rewrite where_cols by (by repeat constructor).
  cbn [mbind result_bind]. unfold groupby_sum.
  rewrite require_Ok by (cbn [app select columns]; by constructor).
  cbn [mbind result_bind select rows].
  set (rs0 := List.filter not_world (rows d)).
  assert (Forall (λ r, ∃ z, cell r "Year" = Int z) rs0) as Hint0.
  { apply Forall_forall. intros r [Hr%list_elem_of_In _]%list_elem_of_In%filter_In.
    by eapply Forall_forall in Hint. }
  assert (List.filter (λ r, forallb notna (key_of ["Year"] r)) rs0 = rs0) as Hrs.
  { apply filter_all. eapply Forall_impl; [exact Hint0|].
    intros r [z Hz]. cbn. by rewrite Hz. }
  rewrite Hrs. clear Hrs.
  assert (∃ zs, key_of ["Year"] <$> rs0 = year_key <$> zs
                ∧ ∀ z, z ∈ zs ↔ ∃ r, r ∈ rs0 ∧ cell r "Year" = Int z) as (zs & Hkeys & Hzs).
  { clear -Hint0. induction Hint0 as [|r rs [z Hz] _ (zs & IH & Hmem)].
    - exists []. split; [done|]. intros z. split; [by intros ?%elem_of_nil|].
      by intros (r & ?%elem_of_nil & _).
    - exists (z :: zs). split.
      + rewrite !fmap_cons, IH. f_equal. cbn. by rewrite Hz.
      + intros z'. rewrite elem_of_cons, Hmem. split.
        * intros [->|(r' & Hr' & Hz')]; [exists r; split; [by left|done]|].
          exists r'. split; [by right|done].
        * intros (r' & [->|Hr']%elem_of_cons & Hz').
          -- left. rewrite Hz in Hz'. by injection Hz' as ->.
          -- right. eauto. }
  rewrite Hkeys.
  destruct (fmap_preimage year_key (distinct (year_key <$> zs))) as [us Hus].
  { apply Forall_forall. intros k Hk%distinct_subseteq.
    apply list_elem_of_fmap in Hk as (z & -> & _). eauto. }
  rewrite Hus.
  rewrite (stable_sort_fmap year_key Z.compare compare_keys us compare_year_key).
  set (years := stable_sort Z.compare us).
  assert (∀ z, z ∈ us ↔ z ∈ zs) as Hmem.
  { intros z. split.
    - intros Hz. assert (year_key z ∈ year_key <$> us) as H
        by (apply list_elem_of_fmap; eauto).
      rewrite <-Hus in H. apply distinct_subseteq, list_elem_of_fmap in H as (z' & E & ?).
      by apply year_key_inj in E as ->.
    - intros Hz%distinct_year_keys. rewrite Hus in Hz.
      apply list_elem_of_fmap in Hz as (z' & E & ?). by apply year_key_inj in E as ->. }
  assert (NoDup us) as Hnd.
  { apply (NoDup_fmap_1 year_key). rewrite <-Hus. apply distinct_NoDup. }
  eexists _, years. split; [reflexivity|]. split; [reflexivity|].
  split; [|split; [|split]].
  - unfold column. cbn [rows]. rewrite <-!list_fmap_compose. done.
  - apply sorted_NoDup_strict.
    + apply (stable_sort_sorted Z.compare).
      * intros x y. apply Z.compare_antisym.
      * intros x y z. rewrite !Z.compare_le_iff. lia.
    + unfold years. by rewrite stable_sort_Permutation.
  - intros z. unfold years. rewrite stable_sort_Permutation, Hmem, Hzs.
    rewrite Exists_exists. unfold rs0. split.
    + intros (r & [Hr%list_elem_of_In Hw]%list_elem_of_In%filter_In & Hz). eauto.
    + intros (r & Hr & Hw & Hz). exists r. split; [|done].
      apply list_elem_of_In, filter_In. split; [by apply list_elem_of_In|done].
  - cbn [rows]. rewrite <-list_fmap_compose. apply Forall2_fmap_r, Forall_Forall2_diag.
    apply Forall_forall. intros z _ c Hc.
    assert (List.filter (λ r, same_key (year_key z) (key_of ["Year"] r)) rs0
            = List.filter (λ r, not_world r && year_is z r) (rows d)) as Hgroup.
    { unfold rs0. rewrite filter_filter_andb. apply filter_ext_in.
      intros r Hr%list_elem_of_In. f_equal.
      destruct (proj1 (Forall_forall _ _) Hint r Hr) as [a Ha].
      unfold key_of, year_is. cbn [fmap list_fmap]. rewrite Ha.
      change [Int a] with (year_key a). rewrite same_year_key, eq_num_Int.
      apply Z.eqb_sym. }
    unfold compose. rewrite <-Hgroup.
    rewrite !elem_of_cons, elem_of_nil in Hc.
    destruct Hc as [->|[->|[->|[]]]]; reflexivity.
Qed.

Lemma global_trend_by_year_witness :
  ∃ t years,
    App.global_trend_sums (loaded two_years_example) = Ok t
    ∧ Checkpoint.global_trend_data (loaded two_years_example) = Ok t
    ∧ column "Year" t = Int <$> years
    ∧ StronglySorted Z.lt years
    ∧ (∀ z, z ∈ years ↔
            Exists (λ r, not_world r = true ∧ cell r "Year" = Int z)
                   (rows (loaded two_years_example)))
    ∧ Forall2 (λ z row,
                 ∀ c, c ∈ ["Solar_GW"; "Wind_GW"; "Hydro_GW"] →
                      cell row c
                      = vsum ((λ r, cell r c)
                                <$> List.filter (λ r, not_world r && year_is z r)
                                      (rows (loaded two_years_example))))
              years (rows t).
Proof.
  apply (global_trend_by_year two_years_example (load_data two_years_example).1).
  - by vm_compute.
  - repeat constructor; apply (bool_decide_unpack _); by vm_compute.
Defined.

(** ** The world is left out of the charts of countries *)

Lemma not_world_spec r : not_world r = true ↔ cell r "Entity" ≠ Str "World".
Proof.
  unfold not_world, eq_str. destruct (cell r "Entity") as [|s|q|b]; try done.
  destruct (String.eqb_spec s "World") as [->|Hne]; cbn; [split; [done|by intros []]|].
  split; [|done]. by intros _ [= ->].
Qed.

Lemma spares_world_nil : spares_world [].
Proof. constructor. Qed.

Lemma spares_world_lift_bind {A B} (r : result A) (k : A → M B) :
  (∀ a, r = Ok a → spares_world (k a).1) → spares_world (lift r ≫= k).1.
Proof.
  intros H. destruct r as [a|e]; [|apply spares_world_nil].
  erewrite lift_bind_Ok by done. by apply H.
Qed.

Lemma spares_world_seq {A B} (m : M A) (k : M B) :
  spares_world m.1 → spares_world k.1 → spares_world (m ;; k).1.
Proof.
  destruct m as [o1 [a|e]], k as [o2 r]; unfold mbind, M_bind; cbn [fst]; [|done].
  intros H1 H2. by apply Forall_app.
Qed.

Lemma spares_world_info msg : spares_world (st_info msg).1.
Proof. repeat constructor. intros fig r [=]. Qed.

Lemma spares_world_chart fig :
  (∀ r, r ∈ country_rows fig → cell r "Entity" ≠ Str "World") →
  spares_world (st_plotly_chart fig).1.
Proof. intros H. repeat constructor. intros fig' r [= <-]. apply H. Qed.

Lemma spares_world_chart_or_info (b : bool) fig msg :
  (∀ r, r ∈ country_rows fig → cell r "Entity" ≠ Str "World") →
  spares_world (if b then st_plotly_chart fig else st_info msg).1.
Proof. destruct b; [apply spares_world_chart|intros _; apply spares_world_info]. Qed.

Lemma spares_world_chart_or_nothing (b : bool) fig :
  (∀ r, r ∈ country_rows fig → cell r "Entity" ≠ Str "World") →
  spares_world (if b then st_plotly_chart fig else (mret tt : M unit)).1.
Proof. destruct b; [apply spares_world_chart|intros _; apply spares_world_nil]. Qed.

Lemma elem_of_List_filter {A} (p : A → bool) l x :
  x ∈ List.filter p l ↔ x ∈ l ∧ p x = true.
Proof. by rewrite !list_elem_of_In, filter_In. Qed.

(** Rows of the year that are not the world's, whatever is dropped next. *)
Lemma year_rows_spare_world d y cs data r :
  (sel ← where_ ["Year"; "Entity"] (λ r, year_is y r && not_world r) d; dropna cs sel)
  = Ok data →
  r ∈ rows data → r ∈ rows d ∧ cell r "Entity" ≠ Str "World".
Proof.
  intros (sel & Hsel & Hdata)%result_bind_Ok.
  apply where_Ok in Hsel as [-> _]. apply dropna_Ok in Hdata as [-> _].
  cbn [select rows]. rewrite !elem_of_List_filter, andb_true_iff, not_world_spec. tauto.
Qed.

Lemma sort_values_rows by_ asc d t :
  sort_values by_ asc d = Ok t → rows t ≡ₚ rows d.
Proof.
  unfold sort_values. destruct (require _ d); [|discriminate].
  intros [= <-]. cbn [rows]. apply stable_sort_Permutation.
Qed.

Lemma nlargest_rows n col d t r :
  nlargest n col d = Ok t → r ∈ rows t → r ∈ rows d.
Proof.
  unfold nlargest. intros (s & Hs%sort_values_rows & [= <-])%result_bind_Ok.
  cbn [rows]. intros Hr%(subseteq_take n). by rewrite <-Hs.
Qed.

Lemma entities_of_nlargest n col d top e :
  (top' ← nlargest n col d; require ["Entity"] top';; Ok (column "Entity" top')) = Ok top →
  e ∈ top → ∃ r, r ∈ rows d ∧ cell r "Entity" = e.
Proof.
  intros (t & Ht & H)%result_bind_Ok.
  apply result_bind_Ok in H as (_ & _ & [= <-]).
  unfold column. intros (r & -> & Hr)%list_elem_of_fmap.
  exists r. split; [by eapply nlargest_rows|done].
Qed.

Lemma isin_world top r :
  (∀ e, e ∈ top → e ≠ Str "World") →
  isin top (cell r "Entity") = true → cell r "Entity" ≠ Str "World".
Proof.
  intros Htop Hin Hw. rewrite Hw in Hin. unfold isin in Hin.
  apply existsb_exists in Hin as (e & He%list_elem_of_In & Heq).
  rewrite value_eqb_sym in Heq. apply value_eqb_Str in Heq. by apply (Htop e).
Qed.

Lemma assign_entity c vs d r :
  c ≠ "Entity" → r ∈ rows (assign c vs d) →
  ∃ r0, r0 ∈ rows d ∧ cell r "Entity" = cell r0 "Entity".
Proof.
  intros Hc. unfold assign. cbn [rows].
  intros (r0 & v & -> & Hr0 & _)%elem_of_zip_with.
  exists r0. split; [done|]. unfold cell. by rewrite lookup_insert_ne.
Qed.

Section country_charts.
Variable d : DataFrame.

Lemma app_map_view_spares_world y : spares_world (App.map_view d y).1.
Proof.
  unfold App.map_view. apply spares_world_lift_bind. intros data Hdata.
  apply spares_world_chart_or_info. cbn [country_rows]. intros r Hr.
  by eapply year_rows_spare_world.
Qed.

Lemma app_scatter_view_spares_world y : spares_world (App.scatter_view d y).1.
Proof.
  unfold App.scatter_view. apply spares_world_lift_bind. intros data Hdata.
  apply spares_world_chart_or_info. cbn [country_rows]. intros r Hr.
  by eapply year_rows_spare_world.
Qed.

Lemma app_trend_view_spares_world : spares_world (App.trend_view d).1.
Proof.
  unfold App.trend_view. apply spares_world_lift_bind. intros long _.
  apply spares_world_chart_or_info. by intros r ?%elem_of_nil.
Qed.

Lemma app_top5_view_spares_world y : spares_world (App.top5_view d y).1.
Proof.
  unfold App.top5_view. apply spares_world_lift_bind. intros latest Hlatest.
  destruct (negb (empty latest)); [|apply spares_world_info].
  apply spares_world_lift_bind. intros top5 Htop.
  destruct top5 as [|e es] eqn:Etop; [apply spares_world_info|]. rewrite <-Etop in *.
  apply spares_world_lift_bind. intros series Hseries.
  apply spares_world_chart_or_info. cbn [country_rows]. intros r Hr.
  assert (∀ r0, r0 ∈ rows latest → cell r0 "Entity" ≠ Str "World") as Hlat.
  { unfold App.latest_year_data, App.country_total_renewable in Hlatest.
    apply result_bind_Ok in Hlatest as (totals & Htot & Hsel).
    apply result_bind_Ok in Htot as (sums & _ & Hnw).
    apply where_Ok in Hnw as [-> _]. apply where_Ok in Hsel as [-> _].
    intros r0. cbn [select rows]. rewrite !elem_of_List_filter, not_world_spec. tauto. }
  assert (∀ e0, e0 ∈ top5 → e0 ≠ Str "World") as Htop5.
  { unfold App.top_5_entities in Htop.
    apply result_bind_Ok in Htop as (_ & _ & Htop).
    intros e0 He0. destruct (entities_of_nlargest _ _ _ _ _ Htop He0) as (r1 & Hr1 & <-).
    apply assign_entity in Hr1 as (r0 & Hr0 & ->); [|done]. by apply Hlat. }
  unfold App.top5_time_series in Hseries.
  apply result_bind_Ok in Hseries as (sel & Hsel & Hseries).
  apply result_bind_Ok in Hseries as (sorted & Hsorted%sort_values_rows & Hdrop).
  apply where_Ok in Hsel as [-> _]. apply dropna_Ok in Hdrop as [-> _].
  cbn [select rows] in Hr, Hsorted.
  apply elem_of_List_filter in Hr as [Hr _]. rewrite Hsorted in Hr.
  apply elem_of_List_filter in Hr as [_ Hr]. by eapply isin_world.
Qed.

Lemma top10_spares_world year d23 top10 :
  App.df_comp d year = Ok d23 →
  App.top10_2023_entities d23 = Ok top10 →
  ∀ e, e ∈ top10 → e ≠ Str "World".
Proof.
  intros Hd23 Htop e He.
  destruct (entities_of_nlargest _ _ _ _ _ Htop He) as (r1 & Hr1 & <-).
  by eapply year_rows_spare_world.
Qed.

Lemma app_comparison_view_spares_world : spares_world (App.comparison_view d).1.
Proof.
  unfold App.comparison_view. apply spares_world_lift_bind. intros d10 _.
  apply spares_world_lift_bind. intros d23 Hd23.
  destruct (_ && _); [|apply spares_world_info].
  apply spares_world_lift_bind. intros top10 Htop.
  destruct top10 as [|e es] eqn:Etop; [apply spares_world_info|]. rewrite <-Etop in *.
  apply spares_world_lift_bind. intros data Hdata.
  destruct (negb (empty data)); [|apply spares_world_info].
  apply spares_world_lift_bind. intros order _.
  apply spares_world_chart. cbn [country_rows]. intros r Hr.
  unfold App.comparison_data in Hdata.
  apply result_bind_Ok in Hdata as (sel & Hsel & Hdata).
  apply result_bind_Ok in Hdata as (_ & _ & Hdrop).
  apply where_Ok in Hsel as [-> _]. apply dropna_Ok in Hdrop as [-> _].
  cbn [select rows] in Hr. apply elem_of_List_filter in Hr as [Hr _].
  apply assign_entity in Hr as (r0 & Hr0 & ->); [|done].
  cbn [select rows] in Hr0. apply elem_of_List_filter in Hr0 as [_ Hr0].
  apply andb_true_iff in Hr0 as [Hr0 _].
  eapply isin_world; [|exact Hr0]. by eapply top10_spares_world.
Qed.

Lemma checkpoint_leaders_view_spares_world y : spares_world (Checkpoint.leaders_view d y).1.
Proof.
  unfold Checkpoint.leaders_view. apply spares_world_lift_bind. intros top Htop.
  apply spares_world_chart_or_nothing. cbn [country_rows]. intros r Hr.
  unfold Checkpoint.top_10 in Htop.
  apply result_bind_Ok in Htop as (latest & Hlatest & Htop).
  apply result_bind_Ok in Htop as (first & Hfirst & Hsorted%sort_values_rows).
  rewrite Hsorted in Hr. eapply nlargest_rows in Hr; [|done].
  by eapply year_rows_spare_world.
Qed.

Lemma checkpoint_trend_view_spares_world : spares_world (Checkpoint.trend_view d).1.
Proof.
  unfold Checkpoint.trend_view. apply spares_world_lift_bind. intros t _.
  apply spares_world_chart_or_nothing. by intros r ?%elem_of_nil.
Qed.

Lemma checkpoint_comparison_view_spares_world :
  spares_world (Checkpoint.comparison_view d).1.
Proof.
  unfold Checkpoint.comparison_view. apply spares_world_lift_bind. intros d10 _.
  apply spares_world_lift_bind. intros d23 Hd23.
  destruct (_ && _); [|apply spares_world_nil].
  apply spares_world_lift_bind. intros top10 Htop.
  apply spares_world_lift_bind. intros data Hdata.
  apply spares_world_chart_or_nothing. cbn [country_rows]. intros r Hr.
  unfold Checkpoint.comparison_data in Hdata.
  apply result_bind_Ok in Hdata as (sel & Hsel & Hdrop).
  apply where_Ok in Hsel as [-> _]. apply dropna_Ok in Hdrop as [-> _].
  cbn [select rows] in Hr. rewrite !elem_of_List_filter in Hr.
  destruct Hr as [[_ Hr] _]. apply andb_true_iff in Hr as [Hr _].
  eapply isin_world; [|exact Hr].
  by eapply (top10_spares_world Checkpoint.year_2023 d23).
Qed.

Lemma app_metrics_no_chart row :
  Forall (λ e, ∃ l s, e = StMetric l s) (App.metrics row).1.
Proof.
  unfold App.metrics.
  destruct (App.metric_value row "Solar_GW"); [|constructor].
  destruct (App.metric_value row "Wind_GW"); [|repeat constructor; eauto].
  destruct (App.metric_value row "Hydro_GW"); [|repeat constructor; eauto].
  destruct (App.metric_value row "Total_GW"); [|repeat constructor; eauto].
  destruct (App.metric_value row "Capacity_per_Capita_kW"); repeat constructor; eauto.
Qed.

Lemma checkpoint_metrics_no_chart row :
  Forall (λ e, ∃ l s, e = StMetric l s) (Checkpoint.metrics row).1.
Proof.
  unfold Checkpoint.metrics.
  destruct (Checkpoint.metric_value 1 row "Solar_GW"); [|constructor].
  destruct (Checkpoint.metric_value 1 row "Wind_GW"); [|constructor].
  destruct (Checkpoint.metric_value 1 row "Hydro_GW"); [|constructor].
  destruct (Checkpoint.metric_value 1 row "Total_GW"); [|constructor].
  destruct (Checkpoint.metric_value 2 row "Capacity_per_Capita_kW"); [|constructor].
  repeat constructor; eauto.
Qed.

Lemma metrics_spare_world page :
  Forall (λ e, ∃ l s, e = StMetric l s) page → spares_world page.
Proof.
  intros H. eapply Forall_impl; [exact H|]. by intros e (l & s & ->) fig r [=].
Qed.

Lemma app_row1_spares_world y c : spares_world (App.row1 d y c).1.
Proof.
  unfold App.row1. apply spares_world_lift_bind. intros filtered _.
  destruct (rows filtered) as [|r rest]; [apply spares_world_info|].
  apply spares_world_seq; [apply metrics_spare_world, app_metrics_no_chart|].
  unfold App.energy_mix. apply spares_world_lift_bind. intros mix _.
  apply spares_world_chart_or_info. by intros r' ?%elem_of_nil.
Qed.

Lemma checkpoint_key_insights_spares_world y c :
  spares_world (Checkpoint.key_insights d y c).1.
Proof.
  unfold Checkpoint.key_insights. apply spares_world_lift_bind. intros filtered _.
  destruct (rows filtered) as [|r rest]; [apply spares_world_nil|].
  apply spares_world_seq; [apply metrics_spare_world, checkpoint_metrics_no_chart|].
  unfold Checkpoint.energy_mix. cbv zeta.
  destruct (gt0 _); [|apply spares_world_info].
  apply spares_world_chart. by intros r' ?%elem_of_nil.
Qed.
End country_charts.

(** Property X16.  No row of the world reaches a chart of countries:
    every row drawn on the map, as a line of the top five, as a bar of a
    ranking or comparison, or as a point of the scatter plot, in either
    script and for every selection, has an entity other than World. *)
Theorem world_never_charted d year country :
  Forall (λ e, ∀ fig r, e = StChart fig → r ∈ country_rows fig →
                        cell r "Entity" ≠ Str "World")
         (App.render d year country).1
  ∧ Forall (λ e, ∀ fig r, e = StChart fig → r ∈ country_rows fig →
                          cell r "Entity" ≠ Str "World")
           (Checkpoint.render d year country).1.
Proof.
  split.
  - unfold App.render. repeat apply spares_world_seq.
    + apply app_row1_spares_world.
    + apply app_map_view_spares_world.
    + apply app_trend_view_spares_world.
    + apply app_top5_view_spares_world.
    + apply app_scatter_view_spares_world.
    + apply app_comparison_view_spares_world.
  - unfold Checkpoint.render. repeat apply spares_world_seq.
    + apply checkpoint_key_insights_spares_world.
    + apply (app_map_view_spares_world d year) || apply spares_world_lift_bind.
      intros data Hdata. apply spares_world_chart_or_nothing. cbn [country_rows].
      intros r Hr. by eapply year_rows_spare_world.
    + apply checkpoint_trend_view_spares_world.
    + apply checkpoint_leaders_view_spares_world.
    + unfold Checkpoint.scatter_view. apply spares_world_lift_bind.
      intros data Hdata. apply spares_world_chart_or_nothing. cbn [country_rows].
      intros r Hr. by eapply year_rows_spare_world.
    + apply checkpoint_comparison_view_spares_world.
Qed.

Example world_left_off_the_map :
  ∃ data, (App.render (loaded leaderboard_example) 2023 "World").1 !! 6
          = Some (StChart (Choropleth data))
          ∧ length (rows data) = 15
          ∧ length (rows (loaded leaderboard_example)) = 16.
Proof. eexists. split; [by vm_compute|]. split; by vm_compute. Qed.

(** ** The comparison and the leaderboard, row by row *)

Lemma year_is_in_year y r : year_is y r = true ↔ in_year y r.
Proof.
  unfold year_is, eq_num, in_year. destruct (cell r "Year") as [|s|q|b]; try done.
  apply Qeq_bool_iff.
Qed.

(** The subset both comparison frames are made of. *)
Lemma df_comp_rows d y :
  Forall (λ c, c ∈ columns d) ["Year"; "Entity"; "Capacity_per_Capita_kW"] →
  App.df_comp d y
  = Ok {| columns := columns d;
          rows := filter (λ r, in_year y r ∧ cell r "Entity" ≠ Str "World"
                               ∧ cell r "Capacity_per_Capita_kW" ≠ NaN) (rows d) |}.
Proof.
  rewrite !Forall_cons. intros (HY & HE & HC & _).
  unfold App.df_comp. rewrite where_cols by (by repeat constructor).
  cbn [mbind result_bind]. rewrite dropna_cols by (by repeat constructor).
  unfold select. cbn [columns rows]. f_equal. f_equal.
  rewrite filter_filter_andb. apply List_filter_filter. intros r.
  cbn [forallb]. rewrite !andb_true_iff, year_is_in_year, not_world_spec, notna_present.
  tauto.
Qed.

(** Claim C7.  In a table with the columns the comparison reads, let no
    row satisfy all three of: its year is 2010, its entity is not the
    world, its per-capita capacity is not missing.  Then the comparison
    view of [app.py] shows the informational message and no chart,
    whatever rows the table holds for 2023. *)
Theorem comparison_needs_2010 d :
  Forall (λ c, c ∈ columns d) ["Year"; "Entity"; "Capacity_per_Capita_kW"] →
  Forall (λ r, ¬ (in_year 2010 r ∧ cell r "Entity" ≠ Str "World"
                  ∧ cell r "Capacity_per_Capita_kW" ≠ NaN)) (rows d) →
  App.comparison_view d
  = ([StInfo "Data for 2010 or 2023 is insufficient for comparison chart."], Ok tt).
Proof.
  intros Hcols Hnone.
  unfold App.comparison_view, App.year_2010, App.year_2023, lift.
  rewrite !df_comp_rows by done. unfold mbind, M_bind. cbn beta iota.
  unfold empty. cbn [rows]. rewrite (proj2 (filter_nil_Forall _ (rows d)) Hnone).
  reflexivity.
Qed.

Lemma comparison_needs_2010_witness :
  App.comparison_view (loaded no_2010_example)
  = ([StInfo "Data for 2010 or 2023 is insufficient for comparison chart."], Ok tt).
Proof.
  apply (comparison_needs_2010 (loaded no_2010_example)).
  - apply (bool_decide_unpack _). by vm_compute.
  - apply (bool_decide_unpack _). by vm_compute.
Defined.

(** In the example the year 2023 has data, and so has the world in
    2010: the message is owed to the countries of 2010 alone. *)
Example no_2010_example_rows :
  (App.df_comp (loaded no_2010_example) 2023 ≫= λ d, Ok (column "Entity" d))
  = Ok [Str "Aland"; Str "Borduria"]
  ∧ (App.df_comp (loaded no_2010_example) 2010 ≫= λ d, Ok (column "Entity" d)) = Ok []
  ∧ (dropna ["Capacity_per_Capita_kW"]
       (select (year_is 2010) (loaded no_2010_example))
       ≫= λ d, Ok (column "Entity" d)) = Ok [Str "World"].
Proof. by vm_compute. Qed.

(** *** The order on numbers *)

Lemma number_cell v : numeric v → v ≠ NaN → number v.
Proof. destruct v as [|s|q|b]; cbn; try done. intros H. by destruct (H s). Qed.

Lemma compare_value_above a b :
  number a → number b → compare_value true a b = Gt ↔ above a b.
Proof.
  destruct a as [|s|p|[]], b as [|t|q|[]]; cbn; try done.
  intros _ _. by rewrite <-Qgt_alt.
Qed.

Lemma compare_value_level a b :
  number a → number b → compare_value true a b = Eq ↔ level a b.
Proof.
  destruct a as [|s|p|[]], b as [|t|q|[]]; cbn; try done.
  intros _ _. by rewrite <-Qeq_alt.
Qed.

Lemma compare_value_below a b :
  number a → number b → compare_value true a b = Lt ↔ above b a.
Proof.
  intros Ha Hb. rewrite <-compare_value_above by done.
  rewrite (compare_value_antisym true a b).
  destruct (compare_value true a b); cbn; split; done.
Qed.

Lemma number_not_NaN v : number v → v ≠ NaN.
Proof. by destruct v. Qed.

(** *** Stable sorting and positions *)

Section stable_positions.
Context {A : Type} (cmp : A → A → comparison) (pos : A → nat).
Hypothesis cmp_antisym : ∀ x y, cmp y x = CompOpp (cmp x y).
Hypothesis cmp_trans : ∀ x y z, cmp x y ≠ Gt → cmp y z ≠ Gt → cmp x z ≠ Gt.

Lemma insert_sorted_before x l :
  Forall (λ y, pos x < pos y) l →
  StronglySorted (before cmp pos) l →
  StronglySorted (before cmp pos) (insert_sorted cmp x l).
Proof using cmp_antisym cmp_trans.
  intros Hpos. induction 1 as [|y l Hl IH Hy]; cbn.
  - repeat constructor.
  - apply Forall_cons in Hpos as [Hxy Hpos].
    assert (cmp y x ≠ Lt → StronglySorted (before cmp pos) (x :: y :: l)) as Hfront.
    { intros Hyx.
      assert (cmp x y ≠ Gt) as Hle.
      { rewrite (cmp_antisym y x). by destruct (cmp y x). }
      constructor; [by constructor|]. apply Forall_forall. intros z Hz.
      assert (pos x < pos z) as Hxz.
      { apply elem_of_cons in Hz as [->|Hz]; [done|].
        by eapply Forall_forall in Hpos. }
      assert (cmp x z ≠ Gt) as Hcz.
      { apply elem_of_cons in Hz as [->|Hz]; [done|].
        eapply cmp_trans; [exact Hle|].
        eapply Forall_forall in Hy; [|exact Hz]. by destruct Hy as [->|[-> _]]. }
      unfold before. destruct (cmp x z); [by right|by left|done]. }
    destruct (cmp y x) eqn:Hyx; [by apply Hfront| |by apply Hfront].
    constructor; [by apply IH|]. apply Forall_forall. intros z Hz.
    apply insert_sorted_elem in Hz as [->|Hz]; [by left|].
    by eapply Forall_forall in Hy.
Qed.

Lemma stable_sort_before l :
  StronglySorted (λ a b, pos a < pos b) l →
  StronglySorted (before cmp pos) (stable_sort cmp l).
Proof using cmp_antisym cmp_trans.
  induction 1 as [|x l Hl IH Hx]; [constructor|].
  change (stable_sort cmp (x :: l)) with (insert_sorted cmp x (stable_sort cmp l)).
  apply insert_sorted_before; [|done].
  by rewrite stable_sort_Permutation.
Qed.
End stable_positions.

Lemma zip_seq_positions {A} (l : list A) i :
  StronglySorted (λ a b : nat * A, a.1 < b.1) (zip (seq i (length l)) l).
Proof.
  revert i. induction l as [|x l IH]; intros i; cbn; constructor; [apply IH|].
  apply Forall_forall. intros [j y] Hj. cbn.
  apply elem_of_zip_l, elem_of_seq in Hj. lia.
Qed.

Lemma enumerate_rows {A} (l : list A) : (enumerate l).*2 = l.
Proof. unfold enumerate. apply snd_zip. by rewrite length_seq. Qed.

Lemma enumerate_length {A} (l : list A) : length (enumerate l) = length l.
Proof. by rewrite <-(enumerate_rows l) at 2; rewrite length_fmap. Qed.

Lemma eligible_rows year d :
  List.filter (λ r, notna (total r))
    (List.filter (λ r, year_is year r && not_world r) (rows d))
  = eligible year d.
Proof.
  rewrite filter_filter_andb. apply List_filter_filter. intros r.
  rewrite !andb_true_iff, year_is_in_year, not_world_spec, notna_present. tauto.
Qed.

(** Claim C6.  For a loaded table with the total column and a selected
    year, the leaderboard of the checkpoint script ranks the [eligible]
    rows: those of the year, the world apart, whose total is not
    missing.  The rows it shows are [chosen] among the eligible rows
    with their positions in the table: ten of them, or all when there
    are fewer; every chosen row has a greater total than every row left
    out, or an equal total and an earlier position; and the chart lists
    the chosen rows by ascending total.  Greater and equal are those of
    the order of the numbers. *)
Theorem leaderboard_top_10 file out d year :
  load_data file = (out, Ok d) → "Total_GW" ∈ columns d →
  ∃ latest top chosen others,
    Checkpoint.latest_data d year = Ok latest
    ∧ rows latest = eligible year d
    ∧ Checkpoint.top_10 d year = Ok top
    ∧ chosen ++ others ≡ₚ enumerate (eligible year d)
    ∧ length chosen = Nat.min 10 (length (eligible year d))
    ∧ (∀ a b, a ∈ chosen → b ∈ others →
         above (total a.2) (total b.2)
         ∨ (level (total a.2) (total b.2) ∧ a.1 < b.1))
    ∧ rows top ≡ₚ chosen.*2
    ∧ StronglySorted (λ r r', above (total r') (total r) ∨ level (total r) (total r'))
                     (rows top)
    ∧ (10 ≤ length (eligible year d) → length (rows top) = 10).
Proof.
  intros Hload Htotal.
  pose proof (load_data_Ok _ _ _ Hload) as (d0 & ys & _ & _ & _ & _ & _ & Hcols).
  rewrite !Forall_cons in Hcols. destruct Hcols as (HE & _ & HY & _).
  set (latest := {| columns := columns d; rows := eligible year d |}).
  assert (Checkpoint.latest_data d year = Ok latest) as Hlatest.
  { unfold Checkpoint.latest_data. rewrite where_cols by (by repeat constructor).
    cbn [mbind result_bind]. rewrite dropna_cols by (by repeat constructor).
    unfold select, latest. cbn [columns rows]. f_equal. f_equal.
    rewrite <-eligible_rows. apply filter_ext. intros r. unfold total. cbn.
    by rewrite andb_true_r. }
  assert (∀ r, r ∈ eligible year d → number (total r)) as Hnum.
  { intros r [(_ & _ & Hna) Hr]%list_elem_of_filter. apply number_cell; [|done].
    unfold total. apply (loaded_numeric file out d r "Total_GW" Hload); [done| |done].
    apply (bool_decide_unpack _). by vm_compute. }
  set (desc := λ r1 r2 : gmap string value,
         compare_value false (cell r1 "Total_GW") (cell r2 "Total_GW")).
  set (asc := λ r1 r2 : gmap string value,
         compare_value true (cell r1 "Total_GW") (cell r2 "Total_GW")).
  set (desc' := λ a b : nat * gmap string value, desc a.2 b.2).
  set (ranked := stable_sort desc' (enumerate (eligible year d))).
  assert (stable_sort desc (eligible year d) = ranked.*2) as Hranked.
  { rewrite <-(enumerate_rows (eligible year d)) at 1.
    by apply stable_sort_fmap. }
  assert (ranked ≡ₚ enumerate (eligible year d)) as Hperm
    by apply stable_sort_Permutation.
  assert (∀ a, a ∈ ranked → number (total a.2)) as Hnum'.
  { intros a Ha. apply Hnum. rewrite <-(enumerate_rows (eligible year d)), <-Hperm.
    by apply list_elem_of_fmap_2. }
  assert (StronglySorted (before desc' fst) ranked) as Hsorted.
  { apply stable_sort_before.
    - intros x y. apply compare_value_antisym.
    - intros x y z. apply compare_value_trans.
    - apply zip_seq_positions. }
  exists latest,
    {| columns := columns d; rows := stable_sort asc (take 10 ranked).*2 |},
    (take 10 ranked), (drop 10 ranked).
  split; [done|]. split; [done|]. split.
  { unfold Checkpoint.top_10. rewrite Hlatest. cbn [mbind result_bind].
    unfold nlargest. rewrite sort_values_Ok by done. cbn [mbind result_bind].
    rewrite sort_values_Ok by done. rewrite fmap_take, <-Hranked. reflexivity. }
  split; [by rewrite take_drop|]. split.
  { by rewrite length_take, Hperm, enumerate_length. }
  split.
  { intros a b Ha Hb.
    pose proof (Hnum' a (subseteq_take _ _ _ Ha)) as Hna.
    pose proof (Hnum' b (subseteq_drop _ _ _ Hb)) as Hnb.
    rewrite <-(take_drop 10 ranked) in Hsorted.
    destruct (StronglySorted_app_1_elem_of _ _ _ _ _ Hsorted Ha Hb) as [Hlt|[Heq Hpos]].
    - left. unfold desc', desc in Hlt. fold (total a.2) (total b.2) in Hlt.
      rewrite compare_value_flip in Hlt by (by apply number_not_NaN).
      by apply compare_value_below in Hlt.
    - right. split; [|done]. unfold desc', desc in Heq.
      fold (total a.2) (total b.2) in Heq.
      rewrite compare_value_flip in Heq by (by apply number_not_NaN).
      rewrite (compare_value_antisym true (total a.2) (total b.2)) in Heq.
      apply compare_value_level; [done|done|].
      by destruct (compare_value true (total a.2) (total b.2)). }
  cbn [rows]. split; [apply stable_sort_Permutation|]. split.
  { eapply (StronglySorted_impl_in (λ a b, asc a b ≠ Gt)).
    - intros x y Hx Hy Hle. rewrite stable_sort_Permutation in Hx, Hy.
      assert (∀ r, r ∈ (take 10 ranked).*2 → number (total r)) as Hn.
      { intros r (a & -> & Ha)%list_elem_of_fmap.
        apply Hnum'. by apply (subseteq_take 10). }
      unfold asc in Hle. fold (total x) (total y) in Hle.
      destruct (compare_value true (total x) (total y)) eqn:Hc; [| |done].
      + right. apply compare_value_level in Hc; auto.
      + left. apply compare_value_below in Hc; auto.
    - apply (stable_sort_sorted asc).
      + intros x y. apply compare_value_antisym.
      + intros x y z. apply compare_value_trans. }
  intros Hten. rewrite stable_sort_Permutation, length_fmap, length_take, Hperm,
    enumerate_length. lia.
Qed.

Lemma leaderboard_top_10_witness :
  ∃ latest top chosen others,
    Checkpoint.latest_data (loaded leaderboard_example) 2023 = Ok latest
    ∧ rows latest = eligible 2023 (loaded leaderboard_example)
    ∧ Checkpoint.top_10 (loaded leaderboard_example) 2023 = Ok top
    ∧ chosen ++ others ≡ₚ enumerate (eligible 2023 (loaded leaderboard_example))
    ∧ length chosen = Nat.min 10 (length (eligible 2023 (loaded leaderboard_example)))
    ∧ (∀ a b, a ∈ chosen → b ∈ others →
         above (total a.2) (total b.2)
         ∨ (level (total a.2) (total b.2) ∧ a.1 < b.1))
    ∧ rows top ≡ₚ chosen.*2
    ∧ StronglySorted (λ r r', above (total r') (total r) ∨ level (total r) (total r'))
                     (rows top)
    ∧ (10 ≤ length (eligible 2023 (loaded leaderboard_example)) →
       length (rows top) = 10).
Proof.
  apply (leaderboard_top_10 leaderboard_example (load_data leaderboard_example).1).
  - by vm_compute.
  - apply (bool_decide_unpack _). by vm_compute.
Defined.

(** The fifteen countries of the example are the eligible rows, in the
    order of the file. *)
Example leaderboard_eligible_rows :
  (λ r, (cell r "Entity", total r)) <$> eligible 2023 (loaded leaderboard_example)
  = [(Str "Aland", Int 5); (Str "Borduria", Int 9); (Str "Cascadia", Int 3);
     (Str "Drusselstein", Int 9); (Str "Elbonia", Int 1); (Str "Freedonia", Int 7);
     (Str "Genovia", Int 7); (Str "Hav", Int 2); (Str "Illyria", Int 8);
     (Str "Jumbostan", Int 6); (Str "Kamistan", Int 4); (Str "Latveria", Int 4);
     (Str "Markovia", Int 10); (Str "Novistrana", Int 4); (Str "Orsinia", Int 11)].
Proof. by vm_compute. Qed.
